(** * OWASP Top 10 training platform: gamification, module unlocking and
      account lockout

    A shallow embedding of the rules engine of the platform
    ([gamification_system.py]), of the module completion and unlock
    functions of [database_postgresql.py], and of the lockout functions of
    [auth_security.py], together with the properties the specification
    states about them.

    Conventions.
    - SQL tables are records of rows.  Tables with a [UNIQUE(user_id)] key
      that the code reads and updates in place are finite maps ([gmap]);
      append-only logs are lists, the newest row last.
    - Python [int] is [Z]; Python [float] is IEEE 754 binary64, taken from
      the reference implementation [SpecFloat] of the standard library.
    - [date.today()] and [datetime.now()] are explicit arguments: a day is
      its proleptic ordinal, an instant is a number of microseconds.
    - A Python exception is [None] in the option monad.  A value that a
      column of the declared type rejects makes the statement, and with it
      the function, raise: [INTEGER] holds 32-bit integers, [VARCHAR(n)]
      strings of at most [n] characters (a longer string whose excess is
      spaces is stored cut to [n] characters), and a column that references
      [users(id)] the id of an existing user.  Tables that the sources do
      not declare ([users], [user_progress], [learning_activities],
      [user_assessment_attempts]) take the values they are given.
    - A Python [str] is a [string], one character per element. *)

From Stdlib Require Import ZArith List Bool Lia.
From Stdlib Require Import Floats.SpecFloat.
From stdpp Require Import base option list gmap strings.

Local Open Scope string_scope.
Local Open Scope list_scope.
Local Open Scope Z_scope.

(** ** Python floats *)

Module PyFloat.

Definition prec : Z := 53.
Definition emax : Z := 1024.

Definition float := spec_float.

(** [float(n)] for a Python int. *)
Definition of_int (n : Z) : float := binary_normalize prec emax n 0 false.

(** A decimal literal [n/d], read as the nearest binary64 number. *)
Definition of_decimal (n d : Z) : float :=
  SFdiv prec emax (of_int n) (of_int d).

Definition mul (x y : float) : float := SFmul prec emax x y.

Definition eqb (x y : float) : bool := SFeqb x y.

(** [int(x)]: truncation toward zero; [OverflowError] or [ValueError] on
    an infinity or a NaN. *)
Definition to_int (x : float) : option Z :=
  match x with
  | S754_zero _ => Some 0
  | S754_finite s m e =>
      let v := if 0 <=? e then Z.pos m * 2 ^ e
               else Z.pos m / 2 ^ (- e) in
      Some (if s then - v else v)
  | S754_infinity _ | S754_nan => None
  end.

(** [int(n * k/10)] is the truncated exact product. *)
Definition product_exact (k n : Z) : bool :=
  bool_decide (to_int (mul (of_int n) (of_decimal k 10)) = Some (n * k / 10)).

End PyFloat.

(** ** The tables *)

Module Db.

(** A row of [user_gamification]; [last_activity_date] is nullable. *)
Record profile := Profile {
  level : Z;
  current_xp : Z;
  total_xp : Z;
  streak : Z;
  max_streak : Z;
  last_activity_date : option Z
}.

(** A row of [activity_completions]. *)
Record activity_completion := ActivityCompletion {
  ac_user_id : Z;
  ac_module_id : string;
  ac_activity_type : string;
  ac_score : Z;
  ac_time_spent : Z;
  ac_xp_earned : Z
}.

(** A row of [module_completions]. *)
Record module_completion := ModuleCompletion {
  mc_user_id : Z;
  mc_module_id : string;
  mc_total_xp_earned : Z
}.

(** [condition_type] together with the parsed [condition_value] of an
    achievement.  [cond_other] stands for any condition type the checker
    does not know. *)
Inductive condition :=
| cond_activity_count (min : Z)
| cond_total_xp (min : Z)
| cond_activity_type_count (activity_type : string) (min : Z)
| cond_module_count (min : Z)
| cond_perfect_score (min : Z)
| cond_streak (min : Z)
| cond_module_completion (module_id : string)
| cond_other.

(** A row of [achievements_new]. *)
Record achievement := Achievement {
  ach_id : Z;
  ach_name : string;
  ach_category : string;
  ach_xp_reward : Z;
  ach_condition : condition
}.

(** A row of [user_achievements_new]. *)
Record user_achievement := UserAchievement {
  ua_user_id : Z;
  ua_achievement_id : Z
}.

(** A row of [user_assessment_attempts], with the columns the completion
    policy reads.  The score is a percentage. *)
Record assessment_attempt := AssessmentAttempt {
  at_user_id : Z;
  at_module_id : string;
  at_is_completed : bool;
  at_score_percentage : Z
}.

(** A row of the legacy [learning_activities] table; [la_completed] is
    [completed_at IS NOT NULL]. *)
Record learning_activity := LearningActivity {
  la_user_id : Z;
  la_module_id : string;
  la_activity_type : string;
  la_completed : bool;
  la_time_spent : Z;
  la_score : option Z;
  la_xp_earned : Z
}.

(** A row of [user_progress]. *)
Record progress := Progress {
  up_user_id : Z;
  up_module_id : string;
  up_xp_earned : Z
}.

Record db := Database {
  user_gamification : gmap Z profile;
  achievements_new : list achievement;
  user_achievements_new : list user_achievement;
  activity_completions : list activity_completion;
  module_completions : list module_completion;
  user_assessment_attempts : list assessment_attempt;
  learning_activities : list learning_activity;
  user_progress : list progress;
  users_xp : gmap Z Z
}.

Definition set_user_gamification (g : gmap Z profile) (d : db) : db :=
  Database g (achievements_new d) (user_achievements_new d)
    (activity_completions d) (module_completions d)
    (user_assessment_attempts d) (learning_activities d) (user_progress d)
    (users_xp d).

Definition set_user_achievements_new (l : list user_achievement) (d : db) : db :=
  Database (user_gamification d) (achievements_new d) l
    (activity_completions d) (module_completions d)
    (user_assessment_attempts d) (learning_activities d) (user_progress d)
    (users_xp d).

Definition set_activity_completions (l : list activity_completion) (d : db) : db :=
  Database (user_gamification d) (achievements_new d)
    (user_achievements_new d) l (module_completions d)
    (user_assessment_attempts d) (learning_activities d) (user_progress d)
    (users_xp d).

Definition set_module_completions (l : list module_completion) (d : db) : db :=
  Database (user_gamification d) (achievements_new d)
    (user_achievements_new d) (activity_completions d) l
    (user_assessment_attempts d) (learning_activities d) (user_progress d)
    (users_xp d).

Definition set_learning_activities (l : list learning_activity) (d : db) : db :=
  Database (user_gamification d) (achievements_new d)
    (user_achievements_new d) (activity_completions d)
    (module_completions d) (user_assessment_attempts d) l (user_progress d)
    (users_xp d).

Definition set_user_progress (l : list progress) (d : db) : db :=
  Database (user_gamification d) (achievements_new d)
    (user_achievements_new d) (activity_completions d)
    (module_completions d) (user_assessment_attempts d)
    (learning_activities d) l (users_xp d).

Definition set_users_xp (x : gmap Z Z) (d : db) : db :=
  Database (user_gamification d) (achievements_new d)
    (user_achievements_new d) (activity_completions d)
    (module_completions d) (user_assessment_attempts d)
    (learning_activities d) (user_progress d) x.

(** [SELECT COUNT( * )] and [SELECT COUNT(DISTINCT col)]. *)
Definition count {A} (p : A -> bool) (rows : list A) : Z :=
  Z.of_nat (length (List.filter p rows)).

Definition count_distinct {A B} `{EqDecision B}
    (col : A -> B) (p : A -> bool) (rows : list A) : Z :=
  Z.of_nat (length (remove_dups (List.map col (List.filter p rows)))).

(** The values an [INTEGER] column takes; any other makes the statement
    raise "integer out of range". *)
Definition int32 (z : Z) : bool :=
  (-2147483648 <=? z) && (z <=? 2147483647).

(** The rows of [users]: the table is declared outside the sources; its
    ids are the keys of [users_xp], the column [users.xp]. *)
Definition user_exists (d : db) (user_id : Z) : bool :=
  bool_decide (is_Some (users_xp d !! user_id)).

(** A string with a NUL character is refused by the database driver,
    which raises [ValueError] when the query is composed. *)
Fixpoint has_nul (s : string) : bool :=
  match s with
  | EmptyString => false
  | String c r => bool_decide (c = Ascii.zero) || has_nul r
  end.

Fixpoint all_spaces (s : string) : bool :=
  match s with
  | EmptyString => true
  | String c r => bool_decide (c = Ascii.Space) && all_spaces r
  end.

Fixpoint take_string (n : nat) (s : string) : string :=
  match n, s with
  | S k, String c r => String c (take_string k r)
  | _, _ => EmptyString
  end.

Fixpoint drop_string (n : nat) (s : string) : string :=
  match n, s with
  | S k, String _ r => drop_string k r
  | _, _ => s
  end.

(** What a [VARCHAR(n)] column stores for a string: the string when it has
    at most [n] characters; its first [n] characters when the excess is
    made of spaces only; otherwise the statement raises "value too long". *)
Definition varchar (n : nat) (s : string) : option string :=
  if has_nul s then None
  else if (String.length s <=? n)%nat then Some s
  else if all_spaces (drop_string n s) then Some (take_string n s)
  else None.

End Db.

(** ** gamification_system.py: [ModernGamificationSystem] *)

Module Gamification.
Import Db.

Definition xp_rewards : gmap string Z :=
  list_to_map
    [ ("documentation", 75); ("animation", 50); ("lab", 100); ("quiz", 80);
      ("assessment", 80); ("module_completion", 150); ("perfect_score", 50);
      ("first_time", 25); ("streak_bonus", 15); ("speed_bonus", 20) ].

Definition level_thresholds : list Z :=
  [ 0; 150; 350; 650; 1100; 1750; 2650; 3850; 5400; 7350; 9750;
    12650; 16100; 20150; 24850 ].

Definition streak_multipliers : gmap Z PyFloat.float :=
  list_to_map
    [ (3, PyFloat.of_decimal 11 10); (7, PyFloat.of_decimal 12 10);
      (14, PyFloat.of_decimal 13 10); (30, PyFloat.of_decimal 15 10) ].

(** The rows [_initialize_achievements] writes; ids as [SERIAL] gives them
    on a fresh table. *)
Definition builtin_achievements : list achievement :=
  [ Achievement 1 "First Steps" "progress" 50 (cond_activity_count 1);
    Achievement 2 "XP Collector" "progress" 100 (cond_total_xp 1000);
    Achievement 3 "XP Master" "progress" 200 (cond_total_xp 5000);
    Achievement 4 "Bookworm" "learning" 75
      (cond_activity_type_count "documentation" 5);
    Achievement 5 "Visual Learner" "learning" 75
      (cond_activity_type_count "animation" 5);
    Achievement 6 "Hands-On Learner" "learning" 100
      (cond_activity_type_count "lab" 3);
    Achievement 7 "Access Control Expert" "mastery" 150
      (cond_module_completion "A01");
    Achievement 8 "OWASP Champion" "mastery" 300 (cond_module_count 5);
    Achievement 9 "Security Master" "mastery" 500 (cond_module_count 10);
    Achievement 10 "Perfectionist" "performance" 100 (cond_perfect_score 1);
    Achievement 11 "Consistent Learner" "performance" 150 (cond_streak 7) ].

(** [initialize_user]: [INSERT ... VALUES (user, 1, 0, 0, 0, 0)
    ON CONFLICT (user_id) DO NOTHING].  The id goes into an [INTEGER]
    column that references [users(id)]: an id out of range raises, and so
    does the insert of a row for an id without a [users] row. *)
Definition initial_profile : profile := Profile 1 0 0 0 0 None.

Definition initialize_user (d : db) (user_id : Z) : option db :=
  if negb (int32 user_id) then None
  else
    match user_gamification d !! user_id with
    | Some _ => Some d
    | None =>
        if user_exists d user_id
        then Some (set_user_gamification
                     (<[user_id := initial_profile]> (user_gamification d)) d)
        else None
    end.

(** [_calculate_level]: the loop [for i in range(len - 1, -1, -1)];
    [level_scan n] runs the iterations [i = n - 1, ..., 0]. *)
Fixpoint level_scan (n : nat) (total_xp : Z) : Z :=
  match n with
  | O => 1
  | S i =>
      if nth i level_thresholds 0 <=? total_xp then Z.of_nat i + 1
      else level_scan i total_xp
  end.

Definition _calculate_level (total_xp : Z) : Z :=
  level_scan (length level_thresholds) total_xp.

(** [sorted(keys, reverse=True)] by insertion. *)
Fixpoint insert_desc (k : Z) (l : list Z) : list Z :=
  match l with
  | [] => [k]
  | x :: r => if x <=? k then k :: l else x :: insert_desc k r
  end.

Definition sorted_reverse (l : list Z) : list Z := foldr insert_desc [] l.

Fixpoint first_reached (streak : Z) (keys : list Z) : option Z :=
  match keys with
  | [] => None
  | days :: r => if days <=? streak then Some days else first_reached streak r
  end.

(** [_get_streak_multiplier]. *)
Definition _get_streak_multiplier (streak : Z) : option PyFloat.float :=
  match first_reached streak
          (sorted_reverse (fst <$> map_to_list streak_multipliers)) with
  | Some days => streak_multipliers !! days
  | None => Some (PyFloat.of_int 1)
  end.

(** The dictionary [_update_user_xp] returns. *)
Record xp_result := XpResult {
  level_up : bool;
  old_level : Z;
  new_level : Z;
  new_total_xp : Z
}.

(** [_update_user_xp]; a missing row makes [data] [None] and the
    subscript raises; the [UPDATE] raises when a new value does not fit
    its [INTEGER] column. *)
Definition _update_user_xp (d : db) (user_id : Z) (xp_amount : Z)
  : option (db * xp_result) :=
  data ← user_gamification d !! user_id;
  let old_level := level data in
  let new_total_xp := total_xp data + xp_amount in
  let new_level := _calculate_level new_total_xp in
  level_base_xp ← (if 1 <? new_level
                   then level_thresholds !! Z.to_nat (new_level - 1)
                   else Some 0);
  let new_current_xp := new_total_xp - level_base_xp in
  let row := Profile new_level new_current_xp new_total_xp
               (streak data) (max_streak data) (last_activity_date data) in
  if int32 new_level && int32 new_current_xp && int32 new_total_xp
  then Some (set_user_gamification (<[user_id := row]> (user_gamification d)) d,
             XpResult (old_level <? new_level) old_level new_level new_total_xp)
  else None.

(** [_update_streak]; [today] is [date.today()]. *)
Definition _update_streak (d : db) (user_id : Z) (today : Z) : option db :=
  let yesterday := today - 1 in
  data ← user_gamification d !! user_id;
  let current_streak := streak data in
  let last_activity := last_activity_date data in
  if bool_decide (last_activity = Some today) then Some d
  else
    let new_streak :=
      if bool_decide (last_activity = Some yesterday)
      then current_streak + 1 else 1 in
    let new_max_streak := Z.max (max_streak data) new_streak in
    let row := Profile (level data) (current_xp data) (total_xp data)
                 new_streak new_max_streak (Some today) in
    Some (set_user_gamification (<[user_id := row]> (user_gamification d)) d).

(** The statistics row of [_check_achievements].  The query joins
    [user_gamification] with the user's activity rows and with the user's
    module rows, so the [COUNT(CASE ...)] of perfect scores counts every
    activity row once per module row (once when there is none). *)
Record stats := Stats {
  st_total_xp : Z;
  st_streak : Z;
  st_max_streak : Z;
  st_total_activities : Z;
  st_modules_completed : Z;
  st_perfect_scores : Z
}.

Definition user_stats (d : db) (user_id : Z) : option stats :=
  ug ← user_gamification d !! user_id;
  let of_user_ac := λ r, bool_decide (ac_user_id r = user_id) in
  let of_user_mc := λ r, bool_decide (mc_user_id r = user_id) in
  Some (Stats (total_xp ug) (streak ug) (max_streak ug)
          (count of_user_ac (activity_completions d))
          (count_distinct mc_module_id of_user_mc (module_completions d))
          (count (λ r, of_user_ac r && bool_decide (ac_score r = 100))
             (activity_completions d)
           * Z.max 1 (count of_user_mc (module_completions d)))).

(** [activity_counts.get(activity_type, 0)]. *)
Definition activity_counts (d : db) (user_id : Z) (activity_type : string) : Z :=
  count (λ r, bool_decide (ac_user_id r = user_id)
              && bool_decide (ac_activity_type r = activity_type))
    (activity_completions d).

(** [_check_achievement_condition]. *)
Definition _check_achievement_condition
    (a : achievement) (s : stats) (counts : string -> Z) : bool :=
  match ach_condition a with
  | cond_activity_count min => min <=? st_total_activities s
  | cond_total_xp min => min <=? st_total_xp s
  | cond_activity_type_count activity_type min => min <=? counts activity_type
  | cond_module_count min => min <=? st_modules_completed s
  | cond_perfect_score min => min <=? st_perfect_scores s
  | cond_streak min => min <=? st_max_streak s
  | cond_module_completion _ => false
  | cond_other => false
  end.

(** The loop of [_check_achievements] over the catalog; the statistics,
    the counts and the earned ids are read once, before the loop. *)
Fixpoint award_loop (all : list achievement) (earned_ids : list Z)
    (s : stats) (counts : string -> Z) (user_id : Z) (d : db)
  : option (db * list achievement) :=
  match all with
  | [] => Some (d, [])
  | a :: rest =>
      if bool_decide (ach_id a ∈ earned_ids)
      then award_loop rest earned_ids s counts user_id d
      else if _check_achievement_condition a s counts then
        let d1 := set_user_achievements_new
                    (user_achievements_new d ++ [UserAchievement user_id (ach_id a)]) d in
        d2 ← (if 0 <? ach_xp_reward a
              then fst <$> _update_user_xp d1 user_id (ach_xp_reward a)
              else Some d1);
        '(d3, news) ← award_loop rest earned_ids s counts user_id d2;
        Some (d3, a :: news)
      else award_loop rest earned_ids s counts user_id d
  end.

Definition _check_achievements (d : db) (user_id : Z)
  : option (db * list achievement) :=
  s ← user_stats d user_id;
  let earned_ids :=
    ua_achievement_id <$>
      List.filter (λ r, bool_decide (ua_user_id r = user_id))
        (user_achievements_new d) in
  award_loop (achievements_new d) earned_ids s (activity_counts d user_id)
    user_id d.

(** The dictionary [complete_activity] returns. *)
Record activity_result := ActivityResult {
  xp_earned : Z;
  res_level_up : bool;
  res_new_level : Z;
  new_achievements : list achievement;
  streak_multiplier : PyFloat.float
}.

(** The [INSERT] into [activity_completions]: the row as the columns
    store it, or [None] when a column rejects its value or the user has no
    [users] row. *)
Definition insert_activity_completion (d : db) (user_id : Z)
    (module_id activity_type : string) (score time_spent xp_earned : Z)
  : option db :=
  module_id ← varchar 10 module_id;
  activity_type ← varchar 50 activity_type;
  if int32 user_id && user_exists d user_id && int32 score
     && int32 time_spent && int32 xp_earned
  then Some (set_activity_completions
               (activity_completions d ++
                  [ActivityCompletion user_id module_id activity_type score
                     time_spent xp_earned]) d)
  else None.

(** [complete_activity].  [user_id] and [time_spent] are Python ints,
    [module_id] and [activity_type] strings, [score] an int or [None], on
    which the comparison [score >= 100] raises.  [initialize_user] commits
    on a connection of its own; everything after it is one transaction, so
    an exception at any statement, the queries included, leaves the tables
    as [initialize_user] left them.  [None] is the re-raised exception,
    after the rollback. *)
Definition complete_activity (d : db) (today : Z) (user_id : Z)
    (module_id activity_type : string) (score : option Z) (time_spent : Z)
  : option (db * activity_result) :=
  d ← initialize_user d user_id;
  let base_xp := default 0 (xp_rewards !! activity_type) in
  let is_first_time := activity_counts d user_id activity_type =? 0 in
  bonus_first ← (if is_first_time then xp_rewards !! "first_time" else Some 0);
  score ← score;
  bonus_score ← (if 100 <=? score then xp_rewards !! "perfect_score"
                 else if 90 <=? score
                      then (λ x, x / 2) <$> xp_rewards !! "perfect_score"
                      else Some 0);
  let bonus_xp := bonus_first + bonus_score in
  current_streak ← streak <$> user_gamification d !! user_id;
  streak_multiplier ← _get_streak_multiplier current_streak;
  total_xp ← PyFloat.to_int
               (PyFloat.mul (PyFloat.of_int (base_xp + bonus_xp)) streak_multiplier);
  d ← insert_activity_completion d user_id module_id activity_type score
        time_spent total_xp;
  '(d, result) ← _update_user_xp d user_id total_xp;
  d ← _update_streak d user_id today;
  '(d, new_achievements) ← _check_achievements d user_id;
  Some (d, ActivityResult total_xp (level_up result) (new_level result)
             new_achievements streak_multiplier).

(** What [complete_module] returns. *)
Inductive module_result :=
| AlreadyCompleted
| Completed (completion_bonus : Z) (level_up : bool) (new_level : Z)
    (new_achievements : list achievement).

(** The [INSERT] into [module_completions]: the row as the columns store
    it, or [None] when a column rejects its value, the user has no [users]
    row, or the stored pair meets [UNIQUE(user_id, module_id)]. *)
Definition insert_module_completion (d : db) (user_id : Z)
    (module_id : string) (total_xp_earned : Z) : option db :=
  module_id ← varchar 10 module_id;
  if int32 user_id && user_exists d user_id && int32 total_xp_earned
     && negb (existsb (λ r, bool_decide (mc_user_id r = user_id)
                            && bool_decide (mc_module_id r = module_id))
                (module_completions d))
  then Some (set_module_completions
               (module_completions d ++
                  [ModuleCompletion user_id module_id total_xp_earned]) d)
  else None.

(** [complete_module]; [None] is the re-raised exception, after the
    rollback. *)
Definition complete_module (d : db) (user_id : Z) (module_id : string)
  : option (db * module_result) :=
  let same := λ r, bool_decide (mc_user_id r = user_id)
                   && bool_decide (mc_module_id r = module_id) in
  if has_nul module_id then None
  else if existsb same (module_completions d) then Some (d, AlreadyCompleted)
  else
    let module_xp :=
      foldr Z.add 0
        (ac_xp_earned <$>
           List.filter (λ r, bool_decide (ac_user_id r = user_id)
                             && bool_decide (ac_module_id r = module_id))
             (activity_completions d)) in
    completion_bonus ← xp_rewards !! "module_completion";
    d ← insert_module_completion d user_id module_id
          (module_xp + completion_bonus);
    '(d, result) ← _update_user_xp d user_id completion_bonus;
    '(d, new_achievements) ← _check_achievements d user_id;
    Some (d, Completed completion_bonus (level_up result) (new_level result)
               new_achievements).

End Gamification.

(** ** database_postgresql.py: module completion and unlocking *)

Module Modules.
Import Db.

(** [is_module_completed]. *)
Definition is_module_completed (d : db) (user_id : Z) (module_id : string) : bool :=
  let assessment_completed :=
    0 <? count (λ r, bool_decide (at_user_id r = user_id)
                     && bool_decide (at_module_id r = module_id)
                     && at_is_completed r
                     && (70 <=? at_score_percentage r))
           (user_assessment_attempts d) in
  let modern_activities :=
    count_distinct ac_activity_type
      (λ r, bool_decide (ac_user_id r = user_id)
            && bool_decide (ac_module_id r = module_id))
      (activity_completions d) in
  let legacy_activities :=
    count_distinct la_activity_type
      (λ r, bool_decide (la_user_id r = user_id)
            && bool_decide (la_module_id r = module_id)
            && la_completed r)
      (learning_activities d) in
  let completed_activities := Z.max modern_activities legacy_activities in
  (assessment_completed && (1 <=? completed_activities))
  || (2 <=? completed_activities).

Definition modules : list string :=
  [ "A01"; "A02"; "A03"; "A04"; "A05"; "A06"; "A07"; "A08"; "A09"; "A10" ].

(** [list.index]: the first position, [None] for [ValueError]. *)
Fixpoint index (l : list string) (x : string) : option nat :=
  match l with
  | [] => None
  | y :: r => if bool_decide (y = x) then Some O else S <$> index r x
  end.

(** [get_next_module_id]. *)
Definition get_next_module_id (current_module_id : string) : option string :=
  match index modules current_module_id with
  | Some current_index =>
      if Z.of_nat current_index <? Z.of_nat (length modules) - 1
      then modules !! S current_index
      else None
  | None => None
  end.

(** [unlock_next_module]: the state and the returned module id. *)
Definition unlock_next_module (d : db) (user_id : Z) (current_module_id : string)
  : db * option string :=
  match get_next_module_id current_module_id with
  | None => (d, None)
  | Some next_module_id =>
      if 0 <? count (λ r, bool_decide (up_user_id r = user_id)
                          && bool_decide (up_module_id r = next_module_id))
                (user_progress d)
      then (d, Some next_module_id)
      else (set_user_progress
              (user_progress d ++ [Progress user_id next_module_id 0]) d,
            Some next_module_id)
  end.

(** [get_activity_xp]. *)
Definition legacy_xp_rewards : gmap string Z :=
  list_to_map
    [ ("documentation", 50); ("animation", 25); ("lab", 75); ("quiz", 50);
      ("assessment", 50) ].

Definition get_activity_xp (activity_type : string) : Z :=
  default 25 (legacy_xp_rewards !! activity_type).

(** The legacy bookkeeping of [complete_learning_activity]: one row per
    (user, module, activity type) and the user's legacy XP.  The table is
    declared outside the sources; the values have passed the insert into
    [activity_completions] before. *)
Definition record_legacy (d : db) (user_id : Z) (module_id activity_type : string)
    (score : option Z) (time_spent : Z) : db :=
  if existsb (λ r, bool_decide (la_user_id r = user_id)
                   && bool_decide (la_module_id r = module_id)
                   && bool_decide (la_activity_type r = activity_type)
                   && la_completed r)
       (learning_activities d)
  then d
  else
    let xp_earned := get_activity_xp activity_type in
    set_users_xp (alter (λ xp, xp + xp_earned) user_id (users_xp d))
      (set_learning_activities
         (learning_activities d ++
            [LearningActivity user_id module_id activity_type true time_spent
               score xp_earned]) d).

(** [complete_learning_activity].  Every callee works on a connection of
    its own and commits there, whereas the legacy rows are written on this
    function's connection and committed only at its end: the completion
    check reads the state in which the new [activity_completions] row is
    present and the legacy row of this call is not.  An exception of
    [complete_activity] makes the function return [False], with nothing
    written but what [initialize_user] had committed; one in the module
    completion step is caught and the unlock is skipped. *)
Definition complete_learning_activity (d : db) (today : Z) (user_id : Z)
    (module_id activity_type : string) (score : option Z) (time_spent : Z)
  : db * bool :=
  match Gamification.complete_activity d today user_id module_id
          activity_type score time_spent with
  | None => (default d (Gamification.initialize_user d user_id), false)
  | Some (d1, gamification_result) =>
      let module_completed := is_module_completed d1 user_id module_id in
      let d2 :=
        if module_completed then
          match Gamification.complete_module d1 user_id module_id with
          | Some (d', completion_result) =>
              fst (unlock_next_module d' user_id module_id)
          | None => d1
          end
        else d1 in
      (record_legacy d2 user_id module_id activity_type score time_spent, true)
  end.

End Modules.

(** ** auth_security.py: account lockout *)

Module AuthSecurity.

Definition MAX_LOGIN_ATTEMPTS : Z := 5.
Definition LOCKOUT_DURATION_MINUTES : Z := 30.

(** [timedelta(minutes=m)] in microseconds. *)
Definition minutes (m : Z) : Z := m * 60 * 1000000.

(** The lockout columns of a [users] row; all three are nullable. *)
Record user := User {
  failed_login_attempts : option Z;
  account_locked_until : option Z;
  last_login : option Z
}.

(** [check_account_lockout]; [now1] and [now2] are the two readings of
    [datetime.now()], in the order the function takes them. *)
Definition check_account_lockout (users : gmap string user) (now1 now2 : Z)
    (username : string) : gmap string user * (bool * option Z) :=
  match users !! username with
  | None => (users, (false, None))
  | Some result =>
      match account_locked_until result with
      | Some locked_until =>
          if now1 <? locked_until then (users, (true, Some locked_until))
          else if locked_until <=? now2 then
            (<[username := User (Some 0) None (last_login result)]> users,
             (false, None))
          else (users, (false, None))
      | None => (users, (false, None))
      end
  end.

(** [handle_failed_login]; [now] is [datetime.now()]. *)
Definition handle_failed_login (users : gmap string user) (now : Z)
    (username : string) : gmap string user :=
  match users !! username with
  | None => users
  | Some row =>
      let failed_attempts := default 0 (failed_login_attempts row) + 1 in
      let locked :=
        if MAX_LOGIN_ATTEMPTS <=? failed_attempts
        then Some (now + minutes LOCKOUT_DURATION_MINUTES)
        else account_locked_until row in
      <[username := User (Some failed_attempts) locked (last_login row)]> users
  end.

(** [handle_successful_login]; [now] is [CURRENT_TIMESTAMP]. *)
Definition handle_successful_login (users : gmap string user) (now : Z)
    (username : string) : gmap string user :=
  match users !! username with
  | None => users
  | Some row => <[username := User (Some 0) None (Some now)]> users
  end.

End AuthSecurity.

(** ** The operations as a transition system *)

Module System.
Import Db Gamification Modules.

(** One committed operation of the platform on the tables: the entry
    points of the gamification system and of the module functions.  No
    other function of the sources writes [user_gamification] or
    [activity_completions]. *)
Inductive step (d : db) : db -> Prop :=
| step_initialize_user user_id d' :
    initialize_user d user_id = Some d' ->
    step d d'
| step_complete_activity today user_id module_id activity_type score
    time_spent d' r :
    complete_activity d today user_id module_id activity_type score time_spent
      = Some (d', r) ->
    step d d'
| step_complete_module user_id module_id d' r :
    complete_module d user_id module_id = Some (d', r) ->
    step d d'
| step_unlock_next_module user_id module_id :
    step d (fst (unlock_next_module d user_id module_id))
| step_complete_learning_activity today user_id module_id activity_type
    score time_spent :
    step d (fst (complete_learning_activity d today user_id module_id
                   activity_type score time_spent)).

(** Any number of operations. *)
Inductive steps (d : db) : db -> Prop :=
| steps_refl : steps d d
| steps_step d1 d2 : steps d d1 -> step d1 d2 -> steps d d2.

(** Every stored level is the level of the stored total XP. *)
Definition level_consistent (d : db) : Prop :=
  forall user_id p, user_gamification d !! user_id = Some p ->
    level p = _calculate_level (total_xp p).

(** Every stored streak is at most the stored longest streak. *)
Definition streak_bounded (d : db) : Prop :=
  forall user_id p, user_gamification d !! user_id = Some p ->
    streak p <= max_streak p.

(** The row of [user_gamification] the code works on once
    [initialize_user] has run. *)
Definition profile_of (d : db) (user_id : Z) : profile :=
  default initial_profile (user_gamification d !! user_id).

(** The tables once [initialize_user] has returned. *)
Definition initialized (d : db) (user_id : Z) : db :=
  match user_gamification d !! user_id with
  | Some _ => d
  | None =>
      set_user_gamification (<[user_id := initial_profile]> (user_gamification d)) d
  end.

(** The string is stored as it is by a [VARCHAR(n)] column. *)
Definition fits (n : nat) (s : string) : Prop := varchar n s = Some s.

(** A user without any recorded activity: no gamification row yet, or the
    one [initialize_user] inserts, and no row in any other table. *)
Definition new_user (d : db) (user_id : Z) : Prop :=
  profile_of d user_id = initial_profile
  /\ Forall (fun r => ac_user_id r <> user_id) (activity_completions d)
  /\ Forall (fun r => mc_user_id r <> user_id) (module_completions d)
  /\ Forall (fun r => at_user_id r <> user_id) (user_assessment_attempts d)
  /\ Forall (fun r => la_user_id r <> user_id) (learning_activities d)
  /\ Forall (fun r => up_user_id r <> user_id) (user_progress d)
  /\ Forall (fun r => ua_user_id r <> user_id) (user_achievements_new d).

(** Module [module_id] is unlocked for the user: a [user_progress] row. *)
Definition unlocked (d : db) (user_id : Z) (module_id : string) : bool :=
  existsb (fun r => bool_decide (up_user_id r = user_id)
                    && bool_decide (up_module_id r = module_id))
    (user_progress d).

(** The row [_update_user_xp] writes over an existing row. *)
Definition xp_row (p : profile) (xp_amount : Z) : profile :=
  let t := total_xp p + xp_amount in
  let l := _calculate_level t in
  Profile l (t - nth (Z.to_nat (l - 1)) level_thresholds 0) t
    (streak p) (max_streak p) (last_activity_date p).

(** The row [_update_streak] writes when the last activity was not today. *)
Definition streak_row (p : profile) (today : Z) : profile :=
  let s := if bool_decide (last_activity_date p = Some (today - 1))
           then streak p + 1 else 1 in
  Profile (level p) (current_xp p) (total_xp p) s (Z.max (max_streak p) s)
    (Some today).

(** The user has a row with at least [t] XP. *)
Definition total_at_least (user_id t : Z) (d : db) : Prop :=
  exists p, user_gamification d !! user_id = Some p /\ t <= total_xp p.

(** The streak columns of the user's row. *)
Definition streak_columns (user_id s m : Z) (l : option Z) (d : db) : Prop :=
  exists p, user_gamification d !! user_id = Some p
    /\ streak p = s /\ max_streak p = m /\ last_activity_date p = l.

(** Two states with the same logs, progress table and catalog. *)
Definition same_logs (d0 d : db) : Prop :=
  activity_completions d = activity_completions d0
  /\ module_completions d = module_completions d0
  /\ user_assessment_attempts d = user_assessment_attempts d0
  /\ learning_activities d = learning_activities d0
  /\ user_progress d = user_progress d0
  /\ achievements_new d = achievements_new d0.

(** The user has a row with at least [t] XP and the level of its XP. *)
Definition row_at_least (user_id t : Z) (d : db) : Prop :=
  exists p, user_gamification d !! user_id = Some p
    /\ t <= total_xp p /\ level p = _calculate_level (total_xp p).

End System.

(** ** The rules as the specification words them *)

Module Spec.
Import Db Gamification.




(** The bonus for a perfect or near-perfect score. *)
Definition score_bonus (score : Z) : Z :=
  if 100 <=? score then 50 else if 90 <=? score then 25 else 0.

(** The streak multiplier in tenths: 3/7/14/30 days give 1.1/1.2/1.3/1.5. *)
Definition multiplier_tenths (streak : Z) : Z :=
  if 30 <=? streak then 15
  else if 14 <=? streak then 13
  else if 7 <=? streak then 12
  else if 3 <=? streak then 11
  else 10.

(** Base XP plus the bonuses, before the multiplier. *)
Definition xp_before_multiplier (activity_type : string) (score : Z)
    (first_time : bool) : Z :=
  default 0 (xp_rewards !! activity_type)
  + (if first_time then 25 else 0) + score_bonus score.

(** The XP of one completion: the sum times the multiplier, truncated. *)
Definition awarded_xp (activity_type : string) (score : Z) (first_time : bool)
    (streak : Z) : Z :=
  xp_before_multiplier activity_type score first_time
  * multiplier_tenths streak / 10.

End Spec.

(** ** Concrete states *)

Module Examples.
Import Db Gamification Modules AuthSecurity.

(** The tables after [initialize_system], no user yet. *)
Definition empty_db : db :=
  Database ∅ builtin_achievements [] [] [] [] [] [] ∅.

(** The same with one registered user, id 1, who has done nothing yet. *)
Definition one_user_db : db :=
  Database ∅ builtin_achievements [] [] [] [] [] [] {[ 1 := 0 ]}.

(** User 1 was active yesterday (day 99) and has a two-day streak. *)
Definition two_day_streak_db : db :=
  Database {[ 1 := Profile 2 0 150 2 2 (Some 99) ]} builtin_achievements
    [] [] [] [] [] [] {[ 1 := 0 ]}.

(** User 1 is on a three-day streak and has completed one lab. *)
Definition three_day_streak_db : db :=
  Database {[ 1 := Profile 2 0 150 3 3 (Some 99) ]} builtin_achievements
    [] [ActivityCompletion 1 "A01" "lab" 0 0 100] [] [] [] [] {[ 1 := 0 ]}.


Definition alice_users : gmap string user :=
  {[ "alice" := User (Some 0) None None ]}.

End Examples.

(** ** gamification_system.py: the next level, runs of days, the XP ledger *)

Module GamificationMore.
Import Db Gamification.

(** [_get_next_level_xp].  A negative subscript counts from the end of the
    list and raises [IndexError] below its start; [level_thresholds[-1]] is
    the last entry. *)
Definition _get_next_level_xp (current_level : Z) : option Z :=
  let len := Z.of_nat (length level_thresholds) in
  if current_level <? len then
    (if 0 <=? current_level then level_thresholds !! Z.to_nat current_level
     else if 0 <=? len + current_level
          then level_thresholds !! Z.to_nat (len + current_level)
          else None)
  else (fun x => x + 1000) <$> last level_thresholds.

(** One call of [complete_activity] a day, on consecutive days from [day];
    an activity is (module, activity type, score, time spent). *)
Fixpoint complete_daily (d : db) (day user_id : Z)
    (acts : list (string * string * option Z * Z)) : option db :=
  match acts with
  | [] => Some d
  | (module_id, activity_type, score, time_spent) :: rest =>
      '(d', _) ← complete_activity d day user_id module_id activity_type score
                   time_spent;
      complete_daily d' (day + 1) user_id rest
  end.

(** What the rows of the other tables account for in a user's total XP:
    the XP of the activity rows, the completion bonus of each module row,
    and the reward of each achievement row, a reward counting when it is
    positive, as in [_check_achievements]. *)
Definition reward_of (catalog : list achievement) (achievement_id : Z) : Z :=
  match List.find (fun a => bool_decide (ach_id a = achievement_id)) catalog with
  | Some a => Z.max 0 (ach_xp_reward a)
  | None => 0
  end.

Definition sum (l : list Z) : Z := foldr Z.add 0 l.

Definition ledger (d : db) (user_id : Z) : Z :=
  sum (ac_xp_earned <$>
         List.filter (fun r => bool_decide (ac_user_id r = user_id))
           (activity_completions d))
  + 150 * count (fun r => bool_decide (mc_user_id r = user_id))
            (module_completions d)
  + sum (reward_of (achievements_new d) <$>
           (ua_achievement_id <$>
              List.filter (fun r => bool_decide (ua_user_id r = user_id))
                (user_achievements_new d))).

(** The stored total of a user, 0 without a row. *)
Definition stored_total (d : db) (user_id : Z) : Z :=
  match user_gamification d !! user_id with
  | Some p => total_xp p
  | None => 0
  end.

(** The ids of the catalog are distinct ([id] is its primary key). *)
Definition catalog_ok (d : db) : Prop := NoDup (ach_id <$> achievements_new d).

(** No user has an achievement twice. *)
Definition achievements_unique (d : db) : Prop :=
  NoDup ((fun r => (ua_user_id r, ua_achievement_id r))
           <$> user_achievements_new d).

(** No user has a module completed twice. *)
Definition completions_unique (d : db) : Prop :=
  NoDup ((fun r => (mc_user_id r, mc_module_id r)) <$> module_completions d).

(** The achievements one run of [_check_achievements] awards: the catalog
    entries not yet earned whose condition holds on the statistics read
    before the loop. *)
Definition awarded (d : db) (user_id : Z) : list achievement :=
  match user_stats d user_id with
  | Some s =>
      List.filter
        (fun a =>
           negb (bool_decide
                   (ach_id a ∈
                      ua_achievement_id <$>
                        List.filter (fun r => bool_decide (ua_user_id r = user_id))
                          (user_achievements_new d)))
           && _check_achievement_condition a s (activity_counts d user_id))
        (achievements_new d)
  | None => []
  end.

(** The module is recorded as completed for the user. *)
Definition recorded (d : db) (user_id : Z) (module_id : string) : bool :=
  existsb (fun r => bool_decide (mc_user_id r = user_id)
                    && bool_decide (mc_module_id r = module_id))
    (module_completions d).

(** The XP a list of achievements adds. *)
Definition rewards (news : list achievement) : Z :=
  sum ((fun a => Z.max 0 (ach_xp_reward a)) <$> news).

(** The stored total of every user is what the ledger accounts for. *)
Definition balanced (d : db) : Prop :=
  forall user_id, stored_total d user_id = ledger d user_id.

(** The condition type the checker never accepts. *)
Definition never_met (a : achievement) : Prop :=
  match ach_condition a with
  | cond_module_completion _ | cond_other => True
  | _ => False
  end.

End GamificationMore.

(** ** database_postgresql.py: legacy progress, resets, assessment attempts *)

Module ModulesMore.
Import Db Gamification Modules.

Definition has_progress (d : db) (user_id : Z) (module_id : string) : bool :=
  existsb (fun r => bool_decide (up_user_id r = user_id)
                    && bool_decide (up_module_id r = module_id))
    (user_progress d).

(** [mark_module_completed]: the insert does nothing on a conflict with
    the key (user_id, module_id); the XP update runs in either case. *)
Definition mark_module_completed (d : db) (user_id : Z) (module_id : string)
    (xp_earned : Z) : db * bool :=
  let d1 :=
    if has_progress d user_id module_id then d
    else set_user_progress
           (user_progress d ++ [Progress user_id module_id xp_earned]) d in
  (set_users_xp (alter (fun xp => xp + xp_earned) user_id (users_xp d1)) d1,
   true).

(** [get_user_progress]: (module_id, xp_earned) of the user's rows. *)
Definition get_user_progress (d : db) (user_id : Z) : list (string * Z) :=
  (fun r => (up_module_id r, up_xp_earned r))
    <$> List.filter (fun r => bool_decide (up_user_id r = user_id))
          (user_progress d).

(** [reset_user_progress]. *)
Definition reset_user_progress (d : db) (user_id : Z) : db :=
  set_users_xp (alter (fun _ => 0) user_id (users_xp d))
    (set_learning_activities
       (List.filter (fun r => negb (bool_decide (la_user_id r = user_id)))
          (learning_activities d))
       (set_user_progress
          (List.filter (fun r => negb (bool_decide (up_user_id r = user_id)))
             (user_progress d)) d)).

Definition set_user_assessment_attempts (l : list assessment_attempt) (d : db)
  : db :=
  Database (user_gamification d) (achievements_new d)
    (user_achievements_new d) (activity_completions d)
    (module_completions d) l (learning_activities d) (user_progress d)
    (users_xp d).

(** [create_assessment_attempt], the definition in force (the later one of
    the file): a row with [is_completed = FALSE].  The insert leaves
    [score_percentage] to the column default, which the sources do not
    declare: [default_score] stands for it. *)
Definition create_assessment_attempt (default_score : Z) (d : db)
    (user_id : Z) (module_id : string) : db :=
  set_user_assessment_attempts
    (user_assessment_attempts d ++
       [AssessmentAttempt user_id module_id false default_score]) d.

(** [complete_assessment_attempt], the definition in force: the later
    definition of the file replaces the one that updates the attempt, and
    returns [True] without a query. *)
Definition complete_assessment_attempt (d : db) : db * bool := (d, true).

(** The operations of the platform on these tables, those of [System.step]
    and the ones above. *)
Inductive op (default_score : Z) (d : db) : db -> Prop :=
| op_step d' : System.step d d' -> op default_score d d'
| op_mark_module_completed user_id module_id xp_earned :
    op default_score d (fst (mark_module_completed d user_id module_id xp_earned))
| op_reset_user_progress user_id :
    op default_score d (reset_user_progress d user_id)
| op_create_assessment_attempt user_id module_id :
    op default_score d (create_assessment_attempt default_score d user_id module_id)
| op_complete_assessment_attempt :
    op default_score d (fst (complete_assessment_attempt d)).

Inductive ops (default_score : Z) (d : db) : db -> Prop :=
| ops_refl : ops default_score d d
| ops_op d1 d2 :
    ops default_score d d1 -> op default_score d1 d2 -> ops default_score d d2.

(** No assessment attempt is marked completed. *)
Definition no_completed_attempt (d : db) : Prop :=
  Forall (fun r => at_is_completed r = false) (user_assessment_attempts d).

(** The number of distinct activity types [is_module_completed] works
    with. *)
Definition completed_activities (d : db) (user_id : Z) (module_id : string) : Z :=
  Z.max
    (count_distinct ac_activity_type
       (fun r => bool_decide (ac_user_id r = user_id)
                 && bool_decide (ac_module_id r = module_id))
       (activity_completions d))
    (count_distinct la_activity_type
       (fun r => bool_decide (la_user_id r = user_id)
                 && bool_decide (la_module_id r = module_id)
                 && la_completed r)
       (learning_activities d)).

(** At most one progress row per user and module. *)
Definition progress_unique (d : db) : Prop :=
  NoDup ((fun r => (up_user_id r, up_module_id r)) <$> user_progress d).

(** Every completion of the user in the module, in either log, is of the
    one activity type, and the user has no completed attempt that passes. *)
Definition only_type (d : db) (user_id : Z) (module_id activity_type : string)
  : Prop :=
  Forall (fun r => ac_user_id r = user_id -> ac_module_id r = module_id ->
                   ac_activity_type r = activity_type)
    (activity_completions d)
  /\ Forall (fun r => la_user_id r = user_id -> la_module_id r = module_id ->
                      la_activity_type r = activity_type)
       (learning_activities d)
  /\ Forall (fun r => at_user_id r = user_id -> at_module_id r = module_id ->
                      at_is_completed r = true -> at_score_percentage r < 70)
       (user_assessment_attempts d).

(** Every stored activity type is one the [VARCHAR(50)] column of
    [activity_completions] holds. *)
Definition types_fit (d : db) : Prop :=
  Forall (fun r => System.fits 50 (ac_activity_type r)) (activity_completions d).

(** The activity type as [activity_completions] stores it. *)
Definition stored_type (activity_type : string) : string :=
  default activity_type (Db.varchar 50 activity_type).

(** [only_type], with the rows of [activity_completions] holding the type
    as the column stores it. *)
Definition only_type_stored (d : db) (user_id : Z)
    (module_id activity_type : string) : Prop :=
  Forall (fun r => ac_user_id r = user_id -> ac_module_id r = module_id ->
                   ac_activity_type r = stored_type activity_type)
    (activity_completions d)
  /\ Forall (fun r => la_user_id r = user_id -> la_module_id r = module_id ->
                      la_activity_type r = activity_type)
       (learning_activities d)
  /\ Forall (fun r => at_user_id r = user_id -> at_module_id r = module_id ->
                      at_is_completed r = true -> at_score_percentage r < 70)
       (user_assessment_attempts d).

(** [complete_learning_activity] again and again on one module with one
    activity type; a run is (day, score, time spent). *)
Fixpoint repeat_activity (d : db) (user_id : Z) (module_id activity_type : string)
    (runs : list (Z * option Z * Z)) : db :=
  match runs with
  | [] => d
  | (today, score, time_spent) :: rest =>
      repeat_activity
        (fst (complete_learning_activity d today user_id module_id
                activity_type score time_spent))
        user_id module_id activity_type rest
  end.

(** The activity is logged for the user in the module. *)
Definition logged_in_module (d : db) (user_id : Z)
    (module_id activity_type : string) : bool :=
  existsb (fun r => bool_decide (ac_user_id r = user_id)
                    && bool_decide (ac_module_id r = module_id)
                    && bool_decide (ac_activity_type r = activity_type))
    (activity_completions d).

(** The activity has its row in the legacy log. *)
Definition legacy_recorded (d : db) (user_id : Z)
    (module_id activity_type : string) : bool :=
  existsb (fun r => bool_decide (la_user_id r = user_id)
                    && bool_decide (la_module_id r = module_id)
                    && bool_decide (la_activity_type r = activity_type)
                    && la_completed r)
    (learning_activities d).

End ModulesMore.

(** ** app.py and auth_security.py: the login view, password reset tokens *)

Module AuthMore.
Import Db AuthSecurity.

(** The POST branch of the [login] view, on the lockout columns.
    [username] is the stripped form field; [authenticated] tells whether
    [authenticate_user] returned a user, which it decides from the password
    hash and [is_active] and without a write.  [now1] and [now2] are the
    clock readings of [check_account_lockout], [now3] the one of the
    handler that runs after it. *)
Definition login (users : gmap string user) (now1 now2 now3 : Z)
    (username password : string) (authenticated : bool) : gmap string user :=
  if bool_decide (username = "") || bool_decide (password = "") then users
  else
    let '(users1, (is_locked, _)) :=
      check_account_lockout users now1 now2 username in
    if is_locked then users1
    else if authenticated then handle_successful_login users1 now3 username
    else handle_failed_login users1 now3 username.

(** One request to the view. *)
Record attempt := Attempt {
  att_username : string;
  att_password : string;
  att_authenticated : bool;
  att_now1 : Z;
  att_now2 : Z;
  att_now3 : Z
}.

(** Requests served one after the other. *)
Definition logins (users : gmap string user) (attempts : list attempt)
  : gmap string user :=
  foldl (fun us a =>
           login us (att_now1 a) (att_now2 a) (att_now3 a) (att_username a)
             (att_password a) (att_authenticated a))
    users attempts.

(** The counter is at most the maximum, and at the maximum only with a
    lockout set. *)
Definition within_limit (row : user) : Prop :=
  default 0 (failed_login_attempts row) <= MAX_LOGIN_ATTEMPTS
  /\ (default 0 (failed_login_attempts row) = MAX_LOGIN_ATTEMPTS ->
      account_locked_until row <> None).

Definition TOKEN_EXPIRY_HOURS : Z := 24.

(** [timedelta(hours=h)] in microseconds. *)
Definition hours (h : Z) : Z := h * 3600 * 1000000.

(** A row of [password_reset_tokens]; [used] as Python reads it, [None]
    for NULL. *)
Record reset_token := ResetToken {
  rt_user_id : Z;
  rt_token : string;
  rt_expires_at : Z;
  rt_used : option bool
}.

Definition mark_used (r : reset_token) : reset_token :=
  ResetToken (rt_user_id r) (rt_token r) (rt_expires_at r) (Some true).

(** [create_password_reset_token]; [token] is the value of
    [generate_secure_token()], [now] the one of [datetime.now()].  The
    insert leaves [used] to the column default, which the sources do not
    declare: [default_used] stands for it. *)
Definition create_password_reset_token (default_used : option bool)
    (tokens : list reset_token) (now user_id : Z) (token : string)
  : list reset_token * option string :=
  (((fun r => if bool_decide (rt_user_id r = user_id)
                 && bool_decide (rt_used r = Some false)
              then mark_used r else r) <$> tokens)
   ++ [ResetToken user_id token (now + hours TOKEN_EXPIRY_HOURS) default_used],
   Some token).

(** [verify_password_reset_token]; [fetchone] gives the first row found. *)
Definition verify_password_reset_token (tokens : list reset_token) (now : Z)
    (token : string) : option Z :=
  match List.find (fun r => bool_decide (rt_token r = token)) tokens with
  | None => None
  | Some result =>
      if default false (rt_used result) then None
      else if rt_expires_at result <? now then None
      else Some (rt_user_id result)
  end.

(** [use_password_reset_token]: the table and whether a row was updated. *)
Definition use_password_reset_token (tokens : list reset_token)
    (token : string) : list reset_token * bool :=
  let hit := fun r => bool_decide (rt_token r = token)
                      && bool_decide (rt_used r = Some false) in
  ((fun r => if hit r then mark_used r else r) <$> tokens,
   0 <? count hit tokens).

(** The tokens of the table are distinct. *)
Definition tokens_unique (tokens : list reset_token) : Prop :=
  NoDup (rt_token <$> tokens).

End AuthMore.

(** ** module_manager.py: unlocked and completed modules by the order *)

Module ModuleManager.
Import Db Modules.

(** [get_next_module_id_dynamic], on the list [get_module_order] gave. *)
Definition get_next_module_id_dynamic (module_order : list string)
    (current_module_id : string) : option string :=
  match index module_order current_module_id with
  | Some current_index =>
      if Z.of_nat current_index <? Z.of_nat (length module_order) - 1
      then module_order !! S current_index
      else None
  | None => None
  end.

(** The loop of [get_user_unlocked_modules] over [module_order[:-1]]: the
    list still to visit starts with the module at position [i], followed by
    the one at [i + 1]. *)
Fixpoint unlock_loop (d : db) (user_id : Z) (rest : list string)
    (unlocked_modules : list string) : list string :=
  match rest with
  | module_id :: ((next_module :: _) as rest') =>
      unlock_loop d user_id rest'
        (if is_module_completed d user_id module_id
         then (if bool_decide (next_module ∈ unlocked_modules)
               then unlocked_modules
               else unlocked_modules ++ [next_module])
         else unlocked_modules)
  | _ => unlocked_modules
  end.

(** [get_user_unlocked_modules]. *)
Definition get_user_unlocked_modules (d : db) (module_order : list string)
    (user_id : Z) : list string :=
  unlock_loop d user_id module_order
    (match module_order with
     | [] => []
     | first :: _ => [first]
     end).

(** [get_user_completed_modules]. *)
Definition get_user_completed_modules (d : db) (module_order : list string)
    (user_id : Z) : list string :=
  List.filter (fun module_id => is_module_completed d user_id module_id)
    module_order.

(** An entry of the list of [get_module_progress_summary]. *)
Record module_status := ModuleStatus {
  ms_module_id : string;
  ms_status : string;
  ms_is_completed : bool;
  ms_is_unlocked : bool
}.

Record progress_summary := ProgressSummary {
  ps_modules : list module_status;
  ps_completed_count : Z;
  ps_unlocked_count : Z;
  ps_total_count : Z
}.

(** [get_module_progress_summary]. *)
Definition get_module_progress_summary (d : db) (module_order : list string)
    (user_id : Z) : progress_summary :=
  let completed_modules := get_user_completed_modules d module_order user_id in
  let unlocked_modules := get_user_unlocked_modules d module_order user_id in
  ProgressSummary
    ((fun module_id =>
        ModuleStatus module_id
          (if bool_decide (module_id ∈ completed_modules) then "completed"
           else if bool_decide (module_id ∈ unlocked_modules) then "unlocked"
           else "locked")
          (bool_decide (module_id ∈ completed_modules))
          (bool_decide (module_id ∈ unlocked_modules)))
       <$> module_order)
    (Z.of_nat (length completed_modules))
    (Z.of_nat (length unlocked_modules))
    (Z.of_nat (length module_order)).

(** [unlock_next_module_dynamic]: the state and the returned module id. *)
Definition unlock_next_module_dynamic (d : db) (module_order : list string)
    (user_id : Z) (current_module_id : string) : db * option string :=
  match get_next_module_id_dynamic module_order current_module_id with
  | None => (d, None)
  | Some next_module_id =>
      if 0 <? count (fun r => bool_decide (up_user_id r = user_id)
                              && bool_decide (up_module_id r = next_module_id))
                (user_progress d)
      then (d, Some next_module_id)
      else (set_user_progress
              (user_progress d ++ [Progress user_id next_module_id 0]) d,
            Some next_module_id)
  end.

(** The module at position [i + 1] follows a completed module at [i]. *)
Definition follows_completed (d : db) (module_order : list string)
    (user_id : Z) (module_id : string) : Prop :=
  exists (i : nat) (previous : string),
    module_order !! i = Some previous
    /\ module_order !! S i = Some module_id
    /\ is_module_completed d user_id previous = true.

End ModuleManager.

(** * Properties *)

(** ** Floats: the literals and the products the XP rule computes *)

Module PyFloatFacts.
Import PyFloat.

Example literal_1_1 :
  of_decimal 11 10 = S754_finite false 0x1199999999999A (-52).
Proof. vm_compute. reflexivity. Qed.

Example literal_1_2 :
  of_decimal 12 10 = S754_finite false 0x13333333333333 (-52).
Proof. vm_compute. reflexivity. Qed.

Example literal_1_3 :
  of_decimal 13 10 = S754_finite false 0x14CCCCCCCCCCCD (-52).
Proof. vm_compute. reflexivity. Qed.

Example literal_1_5 :
  of_decimal 15 10 = S754_finite false 0x18000000000000 (-52).
Proof. vm_compute. reflexivity. Qed.

Example literal_1_0 : of_int 1 = of_decimal 10 10.
Proof. vm_compute. reflexivity. Qed.

(** 105 * 1.1 is 0x1.ce00000000001p+6, a little above 115.5. *)
Example mul_105_by_1_1 :
  mul (of_int 105) (of_decimal 11 10)
  = S754_finite false 0x1CE00000000001 (-46).
Proof. vm_compute. reflexivity. Qed.

(** Truncating the binary64 product of an XP sum and a multiplier gives
    the truncated exact product, on every sum the XP table can produce. *)
Lemma products_checked :
  forallb (fun k => forallb (product_exact k) (seqZ 0 226)) [10; 11; 12; 13; 15]
  = true.
Proof. vm_compute. reflexivity. Qed.

Lemma to_int_mul (n k : Z) :
  0 <= n <= 225 -> k ∈ [10; 11; 12; 13; 15] ->
  to_int (mul (of_int n) (of_decimal k 10)) = Some (n * k / 10).
Proof.
  intros Hn Hk.
  pose proof products_checked as H.
  rewrite forallb_forall in H.
  specialize (H k). rewrite <- list_elem_of_In in H. specialize (H Hk).
  rewrite forallb_forall in H.
  specialize (H n). rewrite <- list_elem_of_In in H.
  assert (Hin : n ∈ seqZ 0 226) by (apply elem_of_seqZ; lia).
  specialize (H Hin). unfold product_exact in H.
  by apply bool_decide_eq_true in H.
Qed.

End PyFloatFacts.

(** ** Levels *)

Module LevelFacts.
Import Db Gamification.

Lemma level_scan_bounds (n : nat) (x : Z) :
  1 <= level_scan n x <= Z.max 1 (Z.of_nat n).
Proof.
  induction n as [|i IH]; cbn [level_scan]; [lia|].
  destruct (nth i level_thresholds 0 <=? x); lia.
Qed.

Lemma calculate_level_bounds (x : Z) : 1 <= _calculate_level x <= 15.
Proof. apply (level_scan_bounds 15 x). Qed.

Lemma level_scan_mono (n : nat) (x y : Z) :
  x <= y -> level_scan n x <= level_scan n y.
Proof.
  intros Hxy. induction n as [|i IH]; cbn [level_scan]; [lia|].
  destruct (Z.leb_spec (nth i level_thresholds 0) x) as [Hx|Hx];
    destruct (Z.leb_spec (nth i level_thresholds 0) y) as [Hy|Hy]; try lia.
  pose proof (level_scan_bounds i x). lia.
Qed.

Lemma calculate_level_mono (x y : Z) :
  x <= y -> _calculate_level x <= _calculate_level y.
Proof. apply level_scan_mono. Qed.

(** Above the returned level no threshold is met. *)
Lemma level_scan_above (n : nat) (x : Z) (j : nat) :
  level_scan n x <= Z.of_nat j -> (j < n)%nat ->
  x < nth j level_thresholds 0.
Proof.
  induction n as [|i IH]; cbn [level_scan]; [lia|].
  intros HL Hj.
  destruct (Z.leb_spec (nth i level_thresholds 0) x) as [Hx|Hx]; [lia|].
  destruct (decide (j = i)) as [->|Hne]; [done|].
  apply IH; [done|lia].
Qed.

(** The threshold of the returned level is met, unless none is. *)
Lemma level_scan_met (n : nat) (x : Z) :
  nth (Z.to_nat (level_scan n x - 1)) level_thresholds 0 <= x
  \/ (level_scan n x = 1 /\ forall j, (j < n)%nat -> x < nth j level_thresholds 0).
Proof.
  induction n as [|i IH]; cbn [level_scan].
  - right. split; [done|]. lia.
  - destruct (Z.leb_spec (nth i level_thresholds 0) x) as [Hx|Hx].
    + left. replace (Z.to_nat (Z.of_nat i + 1 - 1)) with i by lia. done.
    + destruct IH as [IH|[IH1 IH2]]; [by left|].
      right. split; [done|]. intros j Hj.
      destruct (decide (j = i)) as [->|Hne]; [done|]. apply IH2. lia.
Qed.

Lemma calculate_level_met (x : Z) :
  0 <= x -> nth (Z.to_nat (_calculate_level x - 1)) level_thresholds 0 <= x.
Proof.
  intros Hx. destruct (level_scan_met 15 x) as [H|[_ H]]; [done|].
  specialize (H O). simpl in H. lia.
Qed.

Lemma thresholds_ascending (i j : nat) :
  (i < j < 15)%nat -> nth i level_thresholds 0 < nth j level_thresholds 0.
Proof.
  intros Hij.
  do 15 (destruct i as [|i]; [do 15 (destruct j as [|j]; [simpl; lia|]); lia|]).
  lia.
Qed.

Lemma threshold_lookup (l : Z) :
  1 <= l <= 15 ->
  level_thresholds !! Z.to_nat (l - 1)
  = Some (nth (Z.to_nat (l - 1)) level_thresholds 0).
Proof.
  intros Hl.
  destruct (nth_lookup_or_length level_thresholds (Z.to_nat (l - 1)) 0)
    as [H|H]; [done|]. simpl in H. lia.
Qed.

End LevelFacts.

(** ** The XP rule and the primitive writes *)

Module GamificationFacts.
Import Db Gamification System.

Lemma base_xp_range (activity_type : string) :
  0 <= default 0 (xp_rewards !! activity_type) <= 150.
Proof.
  destruct (xp_rewards !! activity_type) as [v|] eqn:E; simpl; [|lia].
  apply elem_of_list_to_map_2 in E.
  repeat (apply elem_of_cons in E as [E|E]; [simplify_eq; lia|]).
  by apply elem_of_nil in E.
Qed.

Lemma score_bonus_range (score : Z) : 0 <= Spec.score_bonus score <= 50.
Proof. unfold Spec.score_bonus. repeat case_match; lia. Qed.

Lemma xp_before_multiplier_range activity_type score first_time :
  0 <= Spec.xp_before_multiplier activity_type score first_time <= 225.
Proof.
  unfold Spec.xp_before_multiplier.
  pose proof (base_xp_range activity_type).
  pose proof (score_bonus_range score).
  destruct first_time; lia.
Qed.

Lemma multiplier_tenths_cases (streak : Z) :
  Spec.multiplier_tenths streak ∈ [10; 11; 12; 13; 15].
Proof.
  unfold Spec.multiplier_tenths. repeat case_match; set_solver.
Qed.

Lemma awarded_xp_nonneg activity_type score first_time streak :
  0 <= Spec.awarded_xp activity_type score first_time streak.
Proof.
  unfold Spec.awarded_xp.
  pose proof (xp_before_multiplier_range activity_type score first_time).
  pose proof (multiplier_tenths_cases streak) as Hk.
  apply Z.div_pos; [|lia].
  repeat (apply elem_of_cons in Hk as [->|Hk]; [lia|]).
  by apply elem_of_nil in Hk.
Qed.

Lemma sorted_keys :
  sorted_reverse (fst <$> map_to_list streak_multipliers) = [30; 14; 7; 3].
Proof. vm_compute. reflexivity. Qed.

(** [_get_streak_multiplier] never raises and returns the float of the
    multiplier table. *)
Lemma get_streak_multiplier_tenths (streak : Z) :
  _get_streak_multiplier streak
  = Some (PyFloat.of_decimal (Spec.multiplier_tenths streak) 10).
Proof.
  unfold _get_streak_multiplier, Spec.multiplier_tenths.
  rewrite sorted_keys. cbn [first_reached].
  repeat case_match; try lia; try done; simplify_eq;
    vm_compute; reflexivity.
Qed.

(** [_update_user_xp] on an existing row: the row it writes, when the
    new values fit their columns. *)
Lemma update_user_xp_eq d user_id p xp_amount :
  user_gamification d !! user_id = Some p ->
  _update_user_xp d user_id xp_amount
  = if int32 (level (xp_row p xp_amount))
       && int32 (current_xp (xp_row p xp_amount))
       && int32 (total_xp (xp_row p xp_amount))
    then Some (set_user_gamification
                 (<[user_id := xp_row p xp_amount]> (user_gamification d)) d,
               XpResult (level p <? level (xp_row p xp_amount)) (level p)
                 (level (xp_row p xp_amount)) (total_xp (xp_row p xp_amount)))
    else None.
Proof.
  intros Hp. unfold _update_user_xp. rewrite Hp. simpl.
  pose proof (LevelFacts.calculate_level_bounds (total_xp p + xp_amount)) as Hb.
  destruct (Z.ltb_spec 1 (_calculate_level (total_xp p + xp_amount))) as [H1|H1].
  - rewrite LevelFacts.threshold_lookup by lia. reflexivity.
  - assert (Hl : _calculate_level (total_xp p + xp_amount) = 1) by lia.
    simpl. unfold xp_row. rewrite Hl. reflexivity.
Qed.

Lemma int32_spec z : int32 z = true <-> -2147483648 <= z <= 2147483647.
Proof. unfold int32. rewrite andb_true_iff, !Z.leb_le. done. Qed.

(** The new values fit when the new total is a non-negative [INTEGER]. *)
Lemma xp_row_fits p xp_amount :
  0 <= total_xp p + xp_amount <= 2147483647 ->
  int32 (level (xp_row p xp_amount))
  && int32 (current_xp (xp_row p xp_amount))
  && int32 (total_xp (xp_row p xp_amount)) = true.
Proof.
  intros Ht. unfold xp_row. cbn [level current_xp total_xp].
  pose proof (LevelFacts.calculate_level_bounds (total_xp p + xp_amount)) as Hb.
  pose proof (LevelFacts.calculate_level_met (total_xp p + xp_amount)
                ltac:(lia)) as Hmet.
  assert (H0 : 0 <= nth (Z.to_nat (_calculate_level (total_xp p + xp_amount) - 1))
                      level_thresholds 0).
  { destruct (decide (Z.to_nat (_calculate_level (total_xp p + xp_amount) - 1)
                      = O)) as [->|Hne]; [simpl; lia|].
    pose proof (LevelFacts.thresholds_ascending O
                  (Z.to_nat (_calculate_level (total_xp p + xp_amount) - 1))
                  ltac:(lia)) as Hasc.
    simpl in Hasc. simpl. lia. }
  rewrite !andb_true_iff, !int32_spec. lia.
Qed.

Lemma update_user_xp_Some d user_id p xp_amount :
  user_gamification d !! user_id = Some p ->
  0 <= total_xp p + xp_amount <= 2147483647 ->
  _update_user_xp d user_id xp_amount
  = Some (set_user_gamification
            (<[user_id := xp_row p xp_amount]> (user_gamification d)) d,
          XpResult (level p <? level (xp_row p xp_amount)) (level p)
            (level (xp_row p xp_amount)) (total_xp (xp_row p xp_amount))).
Proof.
  intros Hp Ht. rewrite (update_user_xp_eq _ _ _ _ Hp).
  by rewrite xp_row_fits.
Qed.

Lemma update_user_xp_inv d user_id xp_amount d' r :
  _update_user_xp d user_id xp_amount = Some (d', r) ->
  exists p, user_gamification d !! user_id = Some p
    /\ d' = set_user_gamification
              (<[user_id := xp_row p xp_amount]> (user_gamification d)) d
    /\ r = XpResult (level p <? level (xp_row p xp_amount)) (level p)
             (level (xp_row p xp_amount)) (total_xp (xp_row p xp_amount)).
Proof.
  intros H. destruct (user_gamification d !! user_id) as [p|] eqn:Hp.
  - rewrite (update_user_xp_eq _ _ _ _ Hp) in H.
    destruct (_ && _); [|done]. injection H as <- <-. by exists p.
  - unfold _update_user_xp in H. rewrite Hp in H. done.
Qed.

Lemma update_streak_inv d user_id today d' :
  _update_streak d user_id today = Some d' ->
  exists p, user_gamification d !! user_id = Some p
    /\ ((last_activity_date p = Some today /\ d' = d)
        \/ (last_activity_date p <> Some today
            /\ d' = set_user_gamification
                      (<[user_id := streak_row p today]> (user_gamification d)) d)).
Proof.
  unfold _update_streak. intros H.
  destruct (user_gamification d !! user_id) as [p|] eqn:Hp; [|done].
  simpl in H. exists p. split; [done|].
  case_bool_decide as Ht.
  - left. by injection H as <-.
  - right. split; [done|]. by injection H as <-.
Qed.

Lemma update_streak_Some d user_id today p :
  user_gamification d !! user_id = Some p ->
  exists d', _update_streak d user_id today = Some d'.
Proof.
  intros Hp. unfold _update_streak. rewrite Hp. simpl.
  case_bool_decide; eauto.
Qed.

End GamificationFacts.

(** ** [complete_activity] computes the documented sum, truncated *)

Module ActivityFacts.
Import Db Gamification System GamificationFacts.

Lemma initialize_user_inv d user_id d0 :
  initialize_user d user_id = Some d0 ->
  d0 = initialized d user_id
  /\ int32 user_id = true
  /\ (is_Some (user_gamification d !! user_id) \/ user_exists d user_id = true).
Proof.
  unfold initialize_user, initialized. intros H.
  destruct (int32 user_id); [|done]. simpl in H.
  destruct (user_gamification d !! user_id) eqn:E.
  - injection H as <-. split; [done|]. split; [done|]. left. eauto.
  - destruct (user_exists d user_id); [|done]. injection H as <-. auto.
Qed.

Lemma initialize_user_Some d user_id :
  int32 user_id = true -> user_exists d user_id = true ->
  initialize_user d user_id = Some (initialized d user_id).
Proof.
  intros Hi He. unfold initialize_user, initialized. rewrite Hi, He. simpl.
  by destruct (user_gamification d !! user_id).
Qed.

Lemma initialized_lookup d user_id :
  user_gamification (initialized d user_id) !! user_id
  = Some (profile_of d user_id).
Proof.
  unfold initialized, profile_of.
  destruct (user_gamification d !! user_id) eqn:E; simpl; [done|].
  by rewrite lookup_insert_eq.
Qed.

Lemma initialized_activity_counts d user_id u ty :
  activity_counts (initialized d user_id) u ty = activity_counts d u ty.
Proof. unfold initialized. by destruct (user_gamification d !! user_id). Qed.

Lemma initialized_users d user_id :
  users_xp (initialized d user_id) = users_xp d.
Proof. unfold initialized. by destruct (user_gamification d !! user_id). Qed.

Lemma initialized_users_exists d user_id u :
  user_exists (initialized d user_id) u = user_exists d u.
Proof. unfold user_exists. by rewrite initialized_users. Qed.

(** The XP of the completion, in the code's float arithmetic and as the
    truncated exact product. *)
Lemma xp_float_exact activity_type score first_time streak :
  PyFloat.to_int
    (PyFloat.mul
       (PyFloat.of_int (Spec.xp_before_multiplier activity_type score first_time))
       (PyFloat.of_decimal (Spec.multiplier_tenths streak) 10))
  = Some (Spec.awarded_xp activity_type score first_time streak).
Proof.
  unfold Spec.awarded_xp. apply PyFloatFacts.to_int_mul.
  - apply xp_before_multiplier_range.
  - apply multiplier_tenths_cases.
Qed.

(** [complete_activity], with the XP computation carried out. *)
Lemma complete_activity_eq d today user_id module_id activity_type score
    time_spent :
  complete_activity d today user_id module_id activity_type score time_spent
  = (d0 ← initialize_user d user_id;
     z ← score;
     let s := streak (profile_of d user_id) in
     let xp := Spec.awarded_xp activity_type z
                 (activity_counts d user_id activity_type =? 0) s in
     d1 ← insert_activity_completion d0 user_id module_id activity_type z
            time_spent xp;
     '(d2, result) ← _update_user_xp d1 user_id xp;
     d3 ← _update_streak d2 user_id today;
     '(d4, news) ← _check_achievements d3 user_id;
     Some (d4, ActivityResult xp (level_up result) (new_level result) news
                 (PyFloat.of_decimal (Spec.multiplier_tenths s) 10))).
Proof.
  unfold complete_activity.
  destruct (initialize_user d user_id) as [d0|] eqn:E0; [|done].
  apply initialize_user_inv in E0 as (-> & _ & _).
  cbn [mbind option_bind].
  rewrite initialized_activity_counts, initialized_lookup.
  destruct score as [z|];
    [|by destruct (activity_counts d user_id activity_type =? 0)].
  cbn [fmap option_fmap option_map mbind option_bind].
  rewrite get_streak_multiplier_tenths.
  pose proof (xp_float_exact activity_type z
                (activity_counts d user_id activity_type =? 0)
                (streak (profile_of d user_id))) as Hxp.
  unfold Spec.xp_before_multiplier, Spec.score_bonus in Hxp.
  replace (xp_rewards !! "first_time") with (Some 25) by reflexivity.
  replace (xp_rewards !! "perfect_score") with (Some 50) by reflexivity.
  destruct (activity_counts d user_id activity_type =? 0);
    destruct (100 <=? z); destruct (90 <=? z);
    cbn [fmap option_fmap option_map mbind option_bind];
    (replace (50 / 2) with 25 by reflexivity);
    rewrite ?Z.add_assoc in *; rewrite ?Z.add_0_r in *;
    rewrite Hxp; reflexivity.
Qed.

Lemma insert_activity_completion_inv d user_id module_id activity_type score
    time_spent xp d1 :
  insert_activity_completion d user_id module_id activity_type score time_spent
    xp = Some d1 ->
  exists m t,
    varchar 10 module_id = Some m /\ varchar 50 activity_type = Some t
    /\ int32 user_id = true /\ user_exists d user_id = true
    /\ int32 score = true /\ int32 time_spent = true /\ int32 xp = true
    /\ d1 = set_activity_completions
              (activity_completions d ++
                 [ActivityCompletion user_id m t score time_spent xp]) d.
Proof.
  unfold insert_activity_completion. intros H.
  destruct (varchar 10 module_id) as [m|]; [|done].
  destruct (varchar 50 activity_type) as [t|]; [|done].
  cbn [mbind option_bind] in H.
  destruct (int32 user_id) eqn:E1; [|done].
  destruct (user_exists d user_id) eqn:E2; [|done].
  destruct (int32 score) eqn:E3; [|done].
  destruct (int32 time_spent) eqn:E4; [|done].
  destruct (int32 xp) eqn:E5; [|done].
  injection H as <-. by exists m, t.
Qed.

(** The stages of a [complete_activity] that returns. *)
Lemma complete_activity_stages d today user_id module_id activity_type score
    time_spent d' r :
  complete_activity d today user_id module_id activity_type score time_spent
    = Some (d', r) ->
  exists z m t d3 news,
    score = Some z
    /\ varchar 10 module_id = Some m /\ varchar 50 activity_type = Some t
    /\ int32 user_id = true /\ user_exists d user_id = true
    /\ int32 z = true /\ int32 time_spent = true
    /\ let d0 := initialized d user_id in
       let s := streak (profile_of d user_id) in
       let xp := Spec.awarded_xp activity_type z
                   (activity_counts d user_id activity_type =? 0) s in
       let d1 := set_activity_completions
                   (activity_completions d0 ++
                      [ActivityCompletion user_id m t z time_spent xp]) d0 in
       let d2 := set_user_gamification
                   (<[user_id := xp_row (profile_of d user_id) xp]>
                      (user_gamification d1)) d1 in
       _update_streak d2 user_id today = Some d3
       /\ _check_achievements d3 user_id = Some (d', news)
       /\ r = ActivityResult xp
                (level (profile_of d user_id)
                 <? level (xp_row (profile_of d user_id) xp))
                (level (xp_row (profile_of d user_id) xp)) news
                (PyFloat.of_decimal (Spec.multiplier_tenths s) 10).
Proof.
  intros H. rewrite complete_activity_eq in H.
  destruct (initialize_user d user_id) as [d0|] eqn:E0; [|done].
  apply initialize_user_inv in E0 as (-> & _ & _).
  destruct score as [z|]; [|done]. cbn [mbind option_bind] in H. cbn zeta in H.
  destruct (insert_activity_completion _ user_id module_id activity_type z
              time_spent _) as [d1|] eqn:E1; [|done].
  apply insert_activity_completion_inv in E1
    as (m & t & Hm & Ht & Hu & He & Hz & Hts & _ & ->).
  rewrite initialized_users_exists in He.
  cbn [mbind option_bind] in H.
  destruct (_update_user_xp _ user_id _) as [[d2 res]|] eqn:E2; [|done].
  apply update_user_xp_inv in E2 as (p & Hp & -> & ->).
  simpl in Hp. rewrite initialized_lookup in Hp. injection Hp as <-.
  cbn [mbind option_bind] in H.
  destruct (_update_streak _ user_id today) as [d3|] eqn:E3; [|done].
  cbn [mbind option_bind] in H.
  destruct (_check_achievements d3 user_id) as [[d4 news]|] eqn:E4; [|done].
  cbn in H. injection H as <- <-.
  exists z, m, t, d3, news. cbn zeta. by repeat split.
Qed.

End ActivityFacts.

(** ** Properties kept by every operation *)

Module Preservation.
Import Db Gamification Modules System GamificationFacts ActivityFacts.

(** A property of the tables that the primitive writes keep is kept by
    every operation.  XP is only ever added in non-negative amounts. *)
Section Closed.

Variable P : db -> Prop.

Hypothesis P_init : forall d user_id,
  user_gamification d !! user_id = None -> P d ->
  P (set_user_gamification (<[user_id := initial_profile]> (user_gamification d)) d).
Hypothesis P_xp : forall d user_id p xp_amount,
  0 <= xp_amount -> user_gamification d !! user_id = Some p -> P d ->
  P (set_user_gamification
       (<[user_id := xp_row p xp_amount]> (user_gamification d)) d).
Hypothesis P_streak : forall d user_id p today,
  user_gamification d !! user_id = Some p ->
  last_activity_date p <> Some today -> P d ->
  P (set_user_gamification
       (<[user_id := streak_row p today]> (user_gamification d)) d).
Hypothesis P_ua : forall d row,
  P d -> P (set_user_achievements_new (user_achievements_new d ++ [row]) d).
Hypothesis P_ac : forall d row,
  P d -> P (set_activity_completions (activity_completions d ++ [row]) d).
Hypothesis P_mc : forall d row,
  P d -> P (set_module_completions (module_completions d ++ [row]) d).
Hypothesis P_up : forall d row,
  P d -> P (set_user_progress (user_progress d ++ [row]) d).
Hypothesis P_la : forall d row,
  P d -> P (set_learning_activities (learning_activities d ++ [row]) d).
Hypothesis P_users : forall d x, P d -> P (set_users_xp x d).

Lemma initialized_closed d user_id : P d -> P (initialized d user_id).
Proof.
  intros HP. unfold initialized.
  destruct (user_gamification d !! user_id) eqn:E; [done|]. by apply P_init.
Qed.

Lemma initialize_user_closed d user_id d' :
  P d -> initialize_user d user_id = Some d' -> P d'.
Proof.
  intros HP H. apply initialize_user_inv in H as (-> & _).
  by apply initialized_closed.
Qed.

Lemma update_user_xp_closed d user_id xp_amount d' r :
  0 <= xp_amount -> P d ->
  _update_user_xp d user_id xp_amount = Some (d', r) -> P d'.
Proof.
  intros Hx HP H. apply update_user_xp_inv in H as (p & Hp & -> & _).
  by apply P_xp.
Qed.

Lemma update_streak_closed d user_id today d' :
  P d -> _update_streak d user_id today = Some d' -> P d'.
Proof.
  intros HP H. apply update_streak_inv in H as (p & Hp & [[_ ->]|[Hne ->]]);
    [done|]. by apply P_streak.
Qed.

Lemma award_loop_closed all earned_ids s counts user_id d d' news :
  P d -> award_loop all earned_ids s counts user_id d = Some (d', news) ->
  P d'.
Proof.
  revert d d' news. induction all as [|a rest IH]; intros d d' news HP H;
    cbn [award_loop] in H.
  - by injection H as <- _.
  - case_bool_decide; [by eapply IH|].
    destruct (_check_achievement_condition a s counts); [|by eapply IH].
    destruct (Z.ltb_spec 0 (ach_xp_reward a)) as [Hpos|Hpos].
    + destruct (_update_user_xp _ user_id (ach_xp_reward a))
        as [[d2 r]|] eqn:E; [|done].
      cbn [fmap option_fmap option_map mbind option_bind fst] in H.
      destruct (award_loop rest earned_ids s counts user_id d2)
        as [[d3 news']|] eqn:E3; [|done].
      cbn in H. injection H as <- _.
      eapply IH; [|exact E3].
      eapply update_user_xp_closed; [| |exact E]; [lia|]. by apply P_ua.
    + cbn [mbind option_bind] in H.
      destruct (award_loop rest earned_ids s counts user_id _)
        as [[d3 news']|] eqn:E3; [|done].
      cbn in H. injection H as <- _.
      eapply IH; [|exact E3]. by apply P_ua.
Qed.

Lemma check_achievements_closed d user_id d' news :
  P d -> _check_achievements d user_id = Some (d', news) -> P d'.
Proof.
  intros HP H. unfold _check_achievements in H.
  destruct (user_stats d user_id) as [s|]; [|done].
  cbn [mbind option_bind] in H. by eapply award_loop_closed.
Qed.

Lemma complete_activity_closed d today user_id module_id activity_type score
    time_spent d' r :
  P d ->
  complete_activity d today user_id module_id activity_type score time_spent
    = Some (d', r) ->
  P d'.
Proof.
  intros HP H.
  apply complete_activity_stages in H
    as (z & m & t & d3 & news & _ & _ & _ & _ & _ & _ & _ & E3 & E4 & _).
  eapply check_achievements_closed; [|exact E4].
  eapply update_streak_closed; [|exact E3].
  apply P_xp.
  - apply awarded_xp_nonneg.
  - simpl. apply initialized_lookup.
  - apply P_ac. by apply initialized_closed.
Qed.

Lemma insert_module_completion_inv d user_id module_id total d1 :
  insert_module_completion d user_id module_id total = Some d1 ->
  exists m,
    varchar 10 module_id = Some m
    /\ int32 user_id = true /\ user_exists d user_id = true
    /\ int32 total = true
    /\ existsb (fun r => bool_decide (mc_user_id r = user_id)
                         && bool_decide (mc_module_id r = m))
         (module_completions d) = false
    /\ d1 = set_module_completions
              (module_completions d ++ [ModuleCompletion user_id m total]) d.
Proof.
  unfold insert_module_completion. intros H.
  destruct (varchar 10 module_id) as [m|]; [|done].
  cbn [mbind option_bind] in H.
  destruct (int32 user_id) eqn:E1; [|done].
  destruct (user_exists d user_id) eqn:E2; [|done].
  destruct (int32 total) eqn:E3; [|done].
  destruct (existsb _ (module_completions d)) eqn:E4; [done|].
  injection H as <-. by exists m.
Qed.

(** The stages of a [complete_module] that records the completion. *)
Lemma complete_module_stages d user_id module_id d' r :
  complete_module d user_id module_id = Some (d', r) ->
  has_nul module_id = false
  /\ ((existsb (fun r => bool_decide (mc_user_id r = user_id)
                         && bool_decide (mc_module_id r = module_id))
         (module_completions d) = true
       /\ d' = d /\ r = AlreadyCompleted)
      \/ (existsb (fun r => bool_decide (mc_user_id r = user_id)
                            && bool_decide (mc_module_id r = module_id))
            (module_completions d) = false
          /\ exists m total d1 d2 res news,
               insert_module_completion d user_id module_id total = Some d1
               /\ varchar 10 module_id = Some m
               /\ d1 = set_module_completions
                         (module_completions d ++
                            [ModuleCompletion user_id m total]) d
               /\ _update_user_xp d1 user_id 150 = Some (d2, res)
               /\ _check_achievements d2 user_id = Some (d', news)
               /\ r = Completed 150 (level_up res) (new_level res) news)).
Proof.
  intros H. unfold complete_module in H.
  destruct (has_nul module_id); [done|]. split; [done|].
  destruct (existsb _ (module_completions d)) eqn:Ex.
  - left. injection H as <- <-. done.
  - right. split; [done|].
    replace (xp_rewards !! "module_completion") with (Some 150) in H
      by reflexivity.
    cbn [mbind option_bind] in H.
    destruct (insert_module_completion d user_id module_id _) as [d1|] eqn:E1;
      [|done].
    cbn [mbind option_bind] in H.
    destruct (_update_user_xp d1 user_id 150) as [[d2 res]|] eqn:E2; [|done].
    cbn [mbind option_bind] in H.
    destruct (_check_achievements d2 user_id) as [[d4 news]|] eqn:E4; [|done].
    cbn in H. injection H as <- <-.
    pose proof E1 as E1'.
    apply insert_module_completion_inv in E1' as (m & Hm & _ & _ & _ & _ & Hd1).
    eexists m, _, d1, d2, res, news. by repeat split.
Qed.

Lemma complete_module_closed d user_id module_id d' r :
  P d -> complete_module d user_id module_id = Some (d', r) -> P d'.
Proof.
  intros HP H.
  apply complete_module_stages in H
    as (_ & [(_ & -> & _)|(_ & m & total & d1 & d2 & res & news & _ & _ & ->
                            & E2 & E4 & _)]); [done|].
  eapply check_achievements_closed; [|exact E4].
  eapply update_user_xp_closed; [| |exact E2]; [lia|]. by apply P_mc.
Qed.

Lemma unlock_next_module_closed d user_id module_id :
  P d -> P (fst (unlock_next_module d user_id module_id)).
Proof.
  intros HP. unfold unlock_next_module.
  destruct (get_next_module_id module_id); [|done].
  case_match; [done|]. by apply P_up.
Qed.

Lemma record_legacy_closed d user_id module_id activity_type score time_spent :
  P d -> P (record_legacy d user_id module_id activity_type score time_spent).
Proof.
  intros HP. unfold record_legacy. case_match; [done|].
  apply P_users. by apply P_la.
Qed.

Lemma complete_learning_activity_closed d today user_id module_id
    activity_type score time_spent :
  P d ->
  P (fst (complete_learning_activity d today user_id module_id activity_type
            score time_spent)).
Proof.
  intros HP. unfold complete_learning_activity.
  destruct (complete_activity d today user_id module_id activity_type score
              time_spent) as [[d1 g]|] eqn:E1.
  - cbn [fst]. apply record_legacy_closed.
    assert (P d1) by (by eapply complete_activity_closed).
    destruct (is_module_completed d1 user_id module_id); [|done].
    destruct (complete_module d1 user_id module_id) as [[d2 c]|] eqn:E2;
      [|done].
    apply unlock_next_module_closed. by eapply complete_module_closed.
  - cbn [fst].
    destruct (initialize_user d user_id) as [d0|] eqn:E0; [|done].
    by eapply initialize_user_closed.
Qed.

Lemma step_closed d d' : P d -> step d d' -> P d'.
Proof.
  intros HP Hs. destruct Hs.
  - by eapply initialize_user_closed.
  - by eapply complete_activity_closed.
  - by eapply complete_module_closed.
  - by apply unlock_next_module_closed.
  - by apply complete_learning_activity_closed.
Qed.

Lemma steps_closed d d' : P d -> steps d d' -> P d'.
Proof.
  intros HP Hs. induction Hs; [done|]. by eapply step_closed.
Qed.

End Closed.

End Preservation.

(** ** The user's row stays *)

Module Totality.
Import Db Gamification Modules System GamificationFacts ActivityFacts.

Lemma update_user_xp_is_Some d user_id xp_amount d' r u :
  _update_user_xp d user_id xp_amount = Some (d', r) ->
  is_Some (user_gamification d !! u) -> is_Some (user_gamification d' !! u).
Proof.
  intros H Hu. apply update_user_xp_inv in H as (p & Hp & -> & _). simpl.
  destruct (decide (user_id = u)) as [->|Hne].
  - rewrite lookup_insert_eq. eauto.
  - by rewrite lookup_insert_ne.
Qed.

End Totality.

(** ** Invariants of the gamification rows *)

Module Invariants.
Import Db Gamification Modules System GamificationFacts ActivityFacts.

Lemma rows_insert (I : profile -> Prop) (g : gmap Z profile) user_id row :
  (forall u p, g !! u = Some p -> I p) -> I row ->
  forall u p, <[user_id := row]> g !! u = Some p -> I p.
Proof.
  intros Hg Hrow u p. destruct (decide (user_id = u)) as [->|Hne].
  - rewrite lookup_insert_eq. by intros [= <-].
  - rewrite lookup_insert_ne by done. apply Hg.
Qed.

(** The level stored is the level of the total stored. *)
Lemma level_consistent_step d d' :
  level_consistent d -> step d d' -> level_consistent d'.
Proof.
  apply (Preservation.step_closed level_consistent); unfold level_consistent;
    try done.
  - intros ? ? _ H. simpl. by apply rows_insert.
  - intros ? ? ? ? _ _ H. simpl. by apply rows_insert.
  - intros ? ? p ? Hp _ H. simpl. apply rows_insert; [done|]. simpl. eauto.
Qed.

(** The streak never exceeds the longest streak. *)
Lemma streak_bounded_step d d' :
  streak_bounded d -> step d d' -> streak_bounded d'.
Proof.
  apply (Preservation.step_closed streak_bounded); unfold streak_bounded;
    try done.
  - intros ? ? _ H. simpl. by apply rows_insert.
  - intros ? ? p ? _ Hp H. simpl. apply rows_insert; [done|]. simpl. eauto.
  - intros ? ? p ? Hp _ H. simpl. apply rows_insert; [done|]. simpl. lia.
Qed.

Lemma total_at_least_insert user_id t d u row p :
  user_gamification d !! u = Some p ->
  total_xp p <= total_xp row ->
  total_at_least user_id t d ->
  total_at_least user_id t
    (set_user_gamification (<[u := row]> (user_gamification d)) d).
Proof.
  intros Hp Hrow (q & Hq & Ht). unfold total_at_least. simpl.
  destruct (decide (u = user_id)) as [->|Hne].
  - rewrite lookup_insert_eq. exists row. split; [done|].
    rewrite Hq in Hp. injection Hp as ->. lia.
  - rewrite lookup_insert_ne by done. eauto.
Qed.

Lemma total_at_least_step user_id t d d' :
  total_at_least user_id t d -> step d d' -> total_at_least user_id t d'.
Proof.
  apply (Preservation.step_closed (total_at_least user_id t)); try done.
  - intros ? u Hnone (q & Hq & Ht). exists q. split; [|done]. simpl.
    rewrite lookup_insert_ne; [done|]. intros ->. congruence.
  - intros ? u p x Hx Hp H. eapply total_at_least_insert; [done| |done].
    simpl. lia.
  - intros ? u p today Hp _ H. eapply total_at_least_insert; [done| |done].
    simpl. lia.
Qed.

Lemma streak_columns_xp user_id s m l d u p xp_amount :
  user_gamification d !! u = Some p ->
  streak_columns user_id s m l d ->
  streak_columns user_id s m l
    (set_user_gamification (<[u := xp_row p xp_amount]> (user_gamification d)) d).
Proof.
  intros Hp (q & Hq & Hs). unfold streak_columns. simpl.
  destruct (decide (u = user_id)) as [->|Hne].
  - rewrite lookup_insert_eq. eexists. split; [done|].
    rewrite Hq in Hp. injection Hp as ->. done.
  - rewrite lookup_insert_ne by done. eauto.
Qed.

Lemma streak_columns_check user_id s m l d u d' news :
  streak_columns user_id s m l d ->
  _check_achievements d u = Some (d', news) ->
  streak_columns user_id s m l d'.
Proof.
  apply (Preservation.check_achievements_closed (streak_columns user_id s m l));
    [|done].
  intros ? ? ? ? _ Hp H. by apply streak_columns_xp.
Qed.

Lemma same_logs_check d0 d u d' news :
  same_logs d0 d -> _check_achievements d u = Some (d', news) ->
  same_logs d0 d'.
Proof.
  by apply (Preservation.check_achievements_closed (same_logs d0)).
Qed.

Lemma same_logs_streak d0 d u today d' :
  same_logs d0 d -> _update_streak d u today = Some d' -> same_logs d0 d'.
Proof. by apply (Preservation.update_streak_closed (same_logs d0)). Qed.

Lemma same_logs_refl d : same_logs d d.
Proof. by repeat split. Qed.

(** A completion of a type, once logged, stays logged. *)
Lemma count_app {A} (f : A -> bool) (l1 l2 : list A) :
  count f (l1 ++ l2) = count f l1 + count f l2.
Proof. unfold count. rewrite List.filter_app, length_app. lia. Qed.



(** What every operation keeps, every sequence of operations keeps. *)
Lemma steps_keep (P : db -> Prop) d d' :
  (forall d1 d2, P d1 -> step d1 d2 -> P d2) -> P d -> steps d d' -> P d'.
Proof. intros HP Hd Hs. induction Hs; eauto. Qed.

End Invariants.

(** ** What a completion writes *)

Module LogFacts.
Import Db Gamification Modules System GamificationFacts ActivityFacts.

Lemma initialized_same_logs d user_id :
  same_logs d (initialized d user_id).
Proof.
  unfold initialized. destruct (user_gamification d !! user_id);
    by repeat split.
Qed.

(** [complete_activity] appends one row to [activity_completions], with
    the module id and the activity type as their columns store them, and
    leaves the other logs, the progress table and the catalog alone. *)
Lemma complete_activity_logs d today user_id module_id activity_type score
    time_spent d' r :
  complete_activity d today user_id module_id activity_type score time_spent
    = Some (d', r) ->
  exists z m t,
    score = Some z
    /\ varchar 10 module_id = Some m /\ varchar 50 activity_type = Some t
    /\ activity_completions d'
       = activity_completions d ++
           [ActivityCompletion user_id m t z time_spent (xp_earned r)]
    /\ module_completions d' = module_completions d
    /\ user_assessment_attempts d' = user_assessment_attempts d
    /\ learning_activities d' = learning_activities d
    /\ user_progress d' = user_progress d
    /\ achievements_new d' = achievements_new d.
Proof.
  intros H.
  apply complete_activity_stages in H
    as (z & m & t & d3 & news & -> & Hm & Ht & _ & _ & _ & _ & E3 & E4 & ->).
  exists z, m, t. split; [done|]. split; [done|]. split; [done|].
  cbn [xp_earned].
  match type of E3 with _update_streak ?d2 _ _ = _ =>
    pose proof (Invariants.same_logs_streak d2 d2 _ _ _
                  (Invariants.same_logs_refl d2) E3) as L3 end.
  pose proof (Invariants.same_logs_check _ _ _ _ _ L3 E4)
    as (La & Lm & Lt & Ll & Lp & Lc).
  pose proof (initialized_same_logs d user_id)
    as (Ia & Im & It & Il & Ip & Ic).
  simpl in La, Lm, Lt, Ll, Lp, Lc.
  rewrite La, Lm, Lt, Ll, Lp, Lc, Ia, Im, It, Il, Ip, Ic. done.
Qed.

(** The user's row after [complete_activity]: the XP of the completion
    added first, rewards of achievements after. *)
Lemma complete_activity_total_xp d today user_id module_id activity_type
    score time_spent d' r :
  complete_activity d today user_id module_id activity_type score time_spent
    = Some (d', r) ->
  total_at_least user_id
    (total_xp (profile_of d user_id) + xp_earned r) d'.
Proof.
  intros H.
  apply complete_activity_stages in H
    as (z & m & t & d3 & news & -> & _ & _ & _ & _ & _ & _ & E3 & E4 & ->).
  cbn [xp_earned].
  set (tot := total_xp (profile_of d user_id) + _).
  eapply (Preservation.check_achievements_closed
            (total_at_least user_id tot)); [|done| |exact E4].
  { intros ? u p x Hx Hp Ht. eapply Invariants.total_at_least_insert;
      [done| |done]. simpl. lia. }
  eapply (Preservation.update_streak_closed
            (total_at_least user_id tot)); [| |exact E3].
  { intros ? u p today' Hp _ Ht. eapply Invariants.total_at_least_insert;
      [done| |done]. simpl. lia. }
  eexists. split; [simpl; apply lookup_insert_eq|]. simpl. subst tot. lia.
Qed.

Lemma count_zero_iff {A} (f : A -> bool) (l : list A) :
  count f l = 0 <-> Forall (fun r => f r = false) l.
Proof.
  unfold count. induction l as [|x l IH]; simpl.
  - split; [constructor|done].
  - destruct (f x) eqn:E; simpl.
    + split; [lia|]. intros HF. apply Forall_cons in HF as [HF _]. congruence.
    + rewrite IH. split; [by constructor|]. by intros [_ ?]%Forall_cons.
Qed.

Lemma count_distinct_zero {A B} `{EqDecision B} (col : A -> B) (f : A -> bool)
    (l : list A) :
  Forall (fun r => f r = false) l -> count_distinct col f l = 0.
Proof.
  intros HF. unfold count_distinct.
  assert (E : List.filter f l = []).
  { induction HF as [|x l Hx _ IH]; simpl; [done|]. by rewrite Hx. }
  by rewrite E.
Qed.

Lemma filter_app_none {A} (f : A -> bool) (l1 l2 : list A) :
  Forall (fun r => f r = false) l1 ->
  List.filter f (l1 ++ l2) = List.filter f l2.
Proof.
  intros HF. rewrite List.filter_app.
  assert (E : List.filter f l1 = []).
  { induction HF as [|x l Hx _ IH]; simpl; [done|]. by rewrite Hx. }
  by rewrite E.
Qed.

Lemma count_distinct_app_single {A B} `{EqDecision B} (col : A -> B)
    (f : A -> bool) (l : list A) (x : A) :
  Forall (fun r => f r = false) l -> f x = true ->
  count_distinct col f (l ++ [x]) = 1.
Proof.
  intros HF Hx. unfold count_distinct. rewrite filter_app_none by done.
  simpl. by rewrite Hx.
Qed.

End LogFacts.

(** ** The XP of a completion, in short *)

Module AwardFacts.
Import Db Gamification System.

Lemma xp_award d today user_id module_id activity_type score time_spent d' r :
  complete_activity d today user_id module_id activity_type (Some score)
    time_spent = Some (d', r) ->
  xp_earned r
  = Spec.awarded_xp activity_type score
      (activity_counts d user_id activity_type =? 0)
      (streak (profile_of d user_id))
  /\ streak_multiplier r
     = PyFloat.of_decimal
         (Spec.multiplier_tenths (streak (profile_of d user_id))) 10.
Proof.
  intros H.
  apply ActivityFacts.complete_activity_stages in H
    as (z & m & t & d3 & news & [= <-] & _ & _ & _ & _ & _ & _ & _ & _ & ->).
  done.
Qed.

End AwardFacts.

(** ** A user's row keeps its XP and its level *)

Module RowFacts.
Import Db Gamification Modules System GamificationFacts.

Lemma row_at_least_insert user_id t d u row p :
  user_gamification d !! u = Some p ->
  total_xp p <= total_xp row ->
  level row = _calculate_level (total_xp row) ->
  row_at_least user_id t d ->
  row_at_least user_id t
    (set_user_gamification (<[u := row]> (user_gamification d)) d).
Proof.
  intros Hp Hrow Hl (q & Hq & Ht & Hc). unfold row_at_least. simpl.
  destruct (decide (u = user_id)) as [->|Hne].
  - rewrite lookup_insert_eq. exists row. split; [done|].
    rewrite Hq in Hp. injection Hp as ->. split; [lia|done].
  - rewrite lookup_insert_ne by done. eauto.
Qed.

Lemma row_at_least_xp user_id t d u p x :
  0 <= x -> user_gamification d !! u = Some p ->
  row_at_least user_id t d ->
  row_at_least user_id t
    (set_user_gamification (<[u := xp_row p x]> (user_gamification d)) d).
Proof.
  intros Hx Hp H. eapply row_at_least_insert; [done| |done|done]. simpl. lia.
Qed.

Lemma row_at_least_streak user_id t d u p today :
  user_gamification d !! u = Some p ->
  row_at_least user_id t d ->
  row_at_least user_id t
    (set_user_gamification (<[u := streak_row p today]> (user_gamification d)) d).
Proof.
  intros Hp (q & Hq & Ht & Hc). unfold row_at_least. simpl.
  destruct (decide (u = user_id)) as [->|Hne].
  - rewrite lookup_insert_eq. eexists. split; [done|].
    rewrite Hq in Hp. injection Hp as ->. done.
  - rewrite lookup_insert_ne by done. eauto.
Qed.

Lemma row_at_least_level user_id t d :
  row_at_least user_id t d ->
  exists p, user_gamification d !! user_id = Some p
    /\ _calculate_level t <= level p.
Proof.
  intros (p & Hp & Ht & Hc). exists p. split; [done|]. rewrite Hc.
  by apply LevelFacts.calculate_level_mono.
Qed.

End RowFacts.

(** ** The unlock step of [complete_learning_activity] *)

Module UnlockFacts.
Import Db Gamification Modules System GamificationFacts.

Lemma existsb_count {A} (f : A -> bool) (l : list A) :
  (0 <? count f l) = existsb f l.
Proof.
  unfold count. induction l as [|x l IH]; simpl; [done|].
  destruct (f x); simpl; [|done]. apply Z.ltb_lt. lia.
Qed.

Lemma complete_module_progress d user_id module_id d' c :
  complete_module d user_id module_id = Some (d', c) ->
  user_progress d' = user_progress d.
Proof.
  by apply (Preservation.complete_module_closed
              (fun x => user_progress x = user_progress d)).
Qed.

Lemma record_legacy_progress d user_id module_id activity_type score time_spent :
  user_progress (record_legacy d user_id module_id activity_type score
                   time_spent) = user_progress d.
Proof. unfold record_legacy. by case_match. Qed.

(** The unlock step: the row of the next module, with 0 XP, is added
    unless the module has a row already. *)
Lemma unlock_next_module_progress d user_id module_id next :
  get_next_module_id module_id = Some next ->
  user_progress (fst (unlock_next_module d user_id module_id))
  = if unlocked d user_id next then user_progress d
    else user_progress d ++ [Progress user_id next 0].
Proof.
  intros Hn. unfold unlock_next_module, unlocked. rewrite Hn, existsb_count.
  by destruct (existsb _ (user_progress d)).
Qed.

Lemma unlocked_app d user_id next row :
  existsb (fun r => bool_decide (up_user_id r = user_id)
                    && bool_decide (up_module_id r = next))
    (user_progress d ++ [row])
  = unlocked d user_id next
    || (bool_decide (up_user_id row = user_id)
        && bool_decide (up_module_id row = next)).
Proof. unfold unlocked. rewrite existsb_app. simpl. by rewrite orb_false_r. Qed.

(** [complete_learning_activity] runs the unlock step exactly when
    [is_module_completed] holds once the activity is recorded, unless the
    module completion raises, which skips it. *)
Lemma unlock_iff_completed d today user_id module_id activity_type score
    time_spent next d1 r :
  get_next_module_id module_id = Some next ->
  complete_activity d today user_id module_id activity_type score time_spent
    = Some (d1, r) ->
  (is_module_completed d1 user_id module_id = true ->
   is_Some (complete_module d1 user_id module_id)) ->
  user_progress
    (fst (complete_learning_activity d today user_id module_id
            activity_type score time_spent))
  = (if is_module_completed d1 user_id module_id
        && negb (unlocked d user_id next)
     then user_progress d ++ [Progress user_id next 0]
     else user_progress d)
  /\ unlocked
       (fst (complete_learning_activity d today user_id module_id
               activity_type score time_spent)) user_id next
     = unlocked d user_id next || is_module_completed d1 user_id module_id.
Proof.
  intros Hn H Hsome.
  pose proof (LogFacts.complete_activity_logs _ _ _ _ _ _ _ _ _ H)
    as (z & m & t & _ & _ & _ & _ & _ & _ & _ & Lp & _).
  assert (Hu1 : unlocked d1 user_id next = unlocked d user_id next)
    by (unfold unlocked; by rewrite Lp).
  assert (Hprog : user_progress
                    (fst (complete_learning_activity d today user_id module_id
                            activity_type score time_spent))
                  = if is_module_completed d1 user_id module_id
                       && negb (unlocked d user_id next)
                    then user_progress d ++ [Progress user_id next 0]
                    else user_progress d).
  { unfold complete_learning_activity. rewrite H. cbn [fst].
    rewrite record_legacy_progress.
    destruct (is_module_completed d1 user_id module_id); [|done].
    destruct (Hsome eq_refl) as [[d2 c] Hc].
    rewrite Hc. rewrite (unlock_next_module_progress _ _ _ _ Hn).
    pose proof (complete_module_progress _ _ _ _ _ Hc) as Lp2.
    unfold unlocked. rewrite Lp2, Lp. fold (unlocked d user_id next).
    by destruct (unlocked d user_id next). }
  split; [exact Hprog|].
  unfold unlocked at 1. rewrite Hprog.
  destruct (is_module_completed d1 user_id module_id);
    destruct (unlocked d user_id next) eqn:Eu; simpl;
    try (unfold unlocked in Eu; by rewrite Eu).
  rewrite unlocked_app, Eu. simpl. by rewrite !bool_decide_eq_true_2.
Qed.




End UnlockFacts.

(** ** The streak columns across a whole completion *)

Module StreakFacts.
Import Db Gamification System GamificationFacts.

(** After [complete_activity] the streak columns of the user are those the
    streak update computes from the columns stored before the call: the XP
    update before it and the achievement check after it copy them. *)
Lemma complete_activity_streak d today user_id module_id activity_type score
    time_spent d' r :
  let p := profile_of d user_id in
  complete_activity d today user_id module_id activity_type score time_spent
    = Some (d', r) ->
  exists p',
    user_gamification d' !! user_id = Some p'
    /\ (last_activity_date p = Some today ->
        streak p' = streak p /\ max_streak p' = max_streak p
        /\ last_activity_date p' = Some today)
    /\ (last_activity_date p <> Some today ->
        streak p' = streak (streak_row p today)
        /\ max_streak p' = max_streak (streak_row p today)
        /\ last_activity_date p' = Some today).
Proof.
  intros p H.
  apply ActivityFacts.complete_activity_stages in H
    as (z & m & t & d3 & news & -> & _ & _ & _ & _ & _ & _ & E3 & E4 & ->).
  fold p in E3.
  set (q := xp_row p _) in E3.
  apply update_streak_inv in E3 as (q' & Hq & Hcase).
  simpl in Hq. rewrite lookup_insert_eq in Hq. injection Hq as <-.
  assert (Hcols : exists s m l,
             streak_columns user_id s m l d3
             /\ (last_activity_date p = Some today ->
                 s = streak p /\ m = max_streak p /\ l = Some today)
             /\ (last_activity_date p <> Some today ->
                 s = streak (streak_row p today)
                 /\ m = max_streak (streak_row p today) /\ l = Some today)).
  { destruct Hcase as [[Hsame ->]|[Hne ->]].
    - exists (streak p), (max_streak p), (Some today). split; [|split].
      + exists q. split; [simpl; apply lookup_insert_eq|]. done.
      + done.
      + intros Hn. done.
    - exists (streak (streak_row p today)), (max_streak (streak_row p today)),
        (Some today). split; [|split].
      + eexists. split; [simpl; apply lookup_insert_eq|]. done.
      + intros Hn. done.
      + done. }
  destruct Hcols as (s & m' & l & Hc & Hsame & Hne).
  eapply Invariants.streak_columns_check in Hc; [|exact E4].
  destruct Hc as (p' & Hp' & <- & <- & <-).
  exists p'. split; [exact Hp'|].
  split; [exact Hsame|exact Hne].
Qed.

End StreakFacts.

(** * The properties of the specification *)

Import Db Gamification Modules System.

(** C3.  The streak update: when the stored last-activity date is
    yesterday the streak grows by exactly one; when it is today the
    table is left as it is, so streak, longest streak and last-activity date
    are unchanged; in every other case, a missing date included, the streak
    becomes 1.  In the two updating cases the longest streak becomes the
    maximum of its old value and the new streak, and the date today. *)
Theorem streak_update_cases (d : db) (user_id today : Z) (p : profile) :
  user_gamification d !! user_id = Some p ->
  exists d' p',
    _update_streak d user_id today = Some d'
    /\ user_gamification d' !! user_id = Some p'
    /\ (last_activity_date p = Some today -> d' = d /\ p' = p)
    /\ (last_activity_date p = Some (today - 1) ->
        streak p' = streak p + 1
        /\ max_streak p' = Z.max (max_streak p) (streak p + 1)
        /\ last_activity_date p' = Some today)
    /\ (last_activity_date p <> Some today ->
        last_activity_date p <> Some (today - 1) ->
        streak p' = 1
        /\ max_streak p' = Z.max (max_streak p) 1
        /\ last_activity_date p' = Some today).
Proof.
  intros Hp. unfold _update_streak. rewrite Hp. cbn [mbind option_bind].
  case_bool_decide as Ht.
  - exists d, p. split; [done|]. split; [done|]. split; [done|]. split.
    + intros Hy. rewrite Ht in Hy. injection Hy. lia.
    + intros Hn. done.
  - eexists _, _. split; [reflexivity|].
    split; [simpl; apply lookup_insert_eq|].
    split; [done|]. split.
    + intros Hy. rewrite bool_decide_eq_true_2 by done. done.
    + intros _ Hy. rewrite bool_decide_eq_false_2 by done. done.
Qed.

Lemma streak_update_cases_witness :
  user_gamification Examples.two_day_streak_db !! 1
  = Some (Profile 2 0 150 2 2 (Some 99))
  /\ exists d' p',
       _update_streak Examples.two_day_streak_db 1 100 = Some d'
       /\ user_gamification d' !! 1 = Some p'
       /\ streak p' = 3.
Proof.
  split; [reflexivity|].
  destruct (streak_update_cases Examples.two_day_streak_db 1 100
              (Profile 2 0 150 2 2 (Some 99)) eq_refl)
    as (d' & p' & H1 & H2 & _ & H3 & _).
  exists d', p'. split; [exact H1|]. split; [exact H2|].
  destruct (H3 eq_refl) as [H _]. exact H.
Defined.

(** C4, as the code has it.  The threshold table has 15 entries, not 14,
    in strictly ascending order; the level of a total XP [x >= 0] is the
    largest 1-based index whose threshold [x] meets, between 1 and 15; and
    an XP update stores the level of the new total and, as current-level
    XP, the new total minus the threshold of that level. *)
Theorem level_is_largest_threshold_met :
  length level_thresholds = 15%nat
  /\ (forall i j : nat, (i < j < 15)%nat ->
        nth i level_thresholds 0 < nth j level_thresholds 0)
  /\ (forall x : Z, 0 <= x ->
        1 <= _calculate_level x <= 15
        /\ nth (Z.to_nat (_calculate_level x - 1)) level_thresholds 0 <= x
        /\ forall l : Z, _calculate_level x < l <= 15 ->
             x < nth (Z.to_nat (l - 1)) level_thresholds 0)
  /\ (forall d user_id xp_amount d' r,
        _update_user_xp d user_id xp_amount = Some (d', r) ->
        exists p p',
          user_gamification d !! user_id = Some p
          /\ user_gamification d' !! user_id = Some p'
          /\ total_xp p' = total_xp p + xp_amount
          /\ level p' = _calculate_level (total_xp p')
          /\ current_xp p'
             = total_xp p'
               - nth (Z.to_nat (level p' - 1)) level_thresholds 0).
Proof.
  split; [reflexivity|]. split; [apply LevelFacts.thresholds_ascending|].
  split.
  - intros x Hx. split; [apply LevelFacts.calculate_level_bounds|].
    split; [by apply LevelFacts.calculate_level_met|].
    intros l Hl. change (_calculate_level x) with (level_scan 15 x) in Hl.
    apply (LevelFacts.level_scan_above 15); lia.
  - intros d user_id xp_amount d' r H.
    apply GamificationFacts.update_user_xp_inv in H as (p & Hp & -> & _).
    exists p, (xp_row p xp_amount).
    split; [done|]. split; [simpl; apply lookup_insert_eq|]. done.
Qed.

Lemma level_is_largest_threshold_met_witness :
  (1 <= _calculate_level 200 <= 15
   /\ nth (Z.to_nat (_calculate_level 200 - 1)) level_thresholds 0 <= 200)
  /\ exists p p',
       user_gamification Examples.two_day_streak_db !! 1 = Some p
       /\ total_xp p' = total_xp p + 50
       /\ level p' = _calculate_level (total_xp p')
       /\ current_xp p'
          = total_xp p' - nth (Z.to_nat (level p' - 1)) level_thresholds 0.
Proof.
  destruct level_is_largest_threshold_met as (_ & _ & H3 & H4).
  split.
  - destruct (H3 200 ltac:(lia)) as (Ha & Hb & _). split; [exact Ha|exact Hb].
  - destruct (H4 Examples.two_day_streak_db 1 50 _ _ eq_refl)
      as (p & p' & Hp & Hp' & Ht & Hl & Hc).
    exists p, p'. split; [exact Hp|]. split; [exact Ht|].
    split; [exact Hl|exact Hc].
Defined.

(** C4 as stated fails: the table does not have 14 entries, and level 15
    is reached. *)
Lemma level_table_has_15_entries :
  length level_thresholds <> 14%nat /\ _calculate_level 24850 = 15.
Proof. split; [discriminate|reflexivity]. Qed.

(** C5, as the code has it.  The XP a completion awards, whenever the
    call returns, is a function of the activity type, the score, whether the
    user has an earlier completion of that type, and the stored streak: base
    XP of the type from the table (0 for an unknown type), plus 25 the first
    time, plus 50 for a score of 100 or more or 25 for a score from 90, the
    sum multiplied by 1.0, 1.1, 1.2, 1.3 or 1.5 for a streak below 3, from 3,
    from 7, from 14 or from 30 days, and the product truncated to an
    integer ([int] of the float product, equal to the truncated exact
    product).  Two completions with these four inputs equal award the same
    XP, whatever the module, the time spent, the day and the rest of the
    state. *)
Theorem xp_award_formula (d : db) (today user_id : Z)
    (module_id activity_type : string) (score time_spent : Z)
    (d' : db) (r : activity_result) :
  complete_activity d today user_id module_id activity_type (Some score)
    time_spent = Some (d', r) ->
  let first_time := activity_counts d user_id activity_type =? 0 in
  let s := streak (profile_of d user_id) in
  streak_multiplier r = PyFloat.of_decimal (Spec.multiplier_tenths s) 10
  /\ PyFloat.to_int
       (PyFloat.mul
          (PyFloat.of_int
             (Spec.xp_before_multiplier activity_type score first_time))
          (streak_multiplier r))
     = Some (xp_earned r)
  /\ xp_earned r = Spec.awarded_xp activity_type score first_time s
  /\ forall d2 today2 user2 module2 time2 d2' r2,
       (activity_counts d2 user2 activity_type =? 0) = first_time ->
       streak (profile_of d2 user2) = s ->
       complete_activity d2 today2 user2 module2 activity_type (Some score)
         time2 = Some (d2', r2) ->
       xp_earned r2 = xp_earned r.
Proof.
  intros H first_time s.
  apply AwardFacts.xp_award in H as [Hxp Hm]. fold first_time s in Hxp, Hm.
  split; [exact Hm|]. rewrite Hm, Hxp.
  split; [apply ActivityFacts.xp_float_exact|]. split; [done|].
  intros d2 today2 user2 module2 time2 d2' r2 Hf Hs H2.
  apply AwardFacts.xp_award in H2 as [Hxp2 _]. rewrite Hxp2, Hf, Hs. done.
Qed.

Lemma xp_award_formula_witness :
  exists d' r d2' r2,
    complete_activity Examples.three_day_streak_db 100 1 "A01" "quiz" (Some 0)
      0 = Some (d', r)
    /\ complete_activity Examples.three_day_streak_db 101 1 "A02" "quiz"
         (Some 0) 60 = Some (d2', r2)
    /\ xp_earned r = Spec.awarded_xp "quiz" 0 true 3
    /\ xp_earned r2 = xp_earned r.
Proof.
  destruct (complete_activity Examples.three_day_streak_db 100 1 "A01" "quiz"
              (Some 0) 0) as [[d' r]|] eqn:E;
    [|vm_compute in E; discriminate E].
  destruct (complete_activity Examples.three_day_streak_db 101 1 "A02" "quiz"
              (Some 0) 60) as [[d2' r2]|] eqn:E2;
    [|vm_compute in E2; discriminate E2].
  destruct (xp_award_formula _ _ _ _ _ _ _ _ _ E) as (_ & _ & Hxp & Hdet).
  exists d', r, d2', r2. split; [reflexivity|]. split; [reflexivity|].
  split; [exact Hxp|].
  exact (Hdet _ _ _ _ _ _ _ eq_refl eq_refl E2).
Defined.

(** C5 as stated fails: a first quiz on a three-day streak is worth
    80 + 25 = 105 before the multiplier 1.1; the XP awarded is 115, which is
    not the product (115.5 exactly, a little more in binary64). *)
Lemma xp_is_not_the_plain_product :
  exists d' r,
    complete_activity Examples.three_day_streak_db 100 1 "A01" "quiz" (Some 0)
      0 = Some (d', r)
    /\ xp_earned r = 115
    /\ streak_multiplier r = PyFloat.of_decimal 11 10
    /\ PyFloat.eqb (PyFloat.of_int (xp_earned r))
         (PyFloat.mul (PyFloat.of_int (80 + 25 + 0)) (streak_multiplier r))
       = false
    /\ 10 * xp_earned r <> 11 * (80 + 25 + 0).
Proof.
  eexists _, _. split; [vm_compute; reflexivity|].
  cbn [xp_earned streak_multiplier].
  split; [reflexivity|]. split; [vm_compute; reflexivity|].
  split; [vm_compute; reflexivity|]. lia.
Qed.

(** C10.  The multiplier of a completion is the one of the streak stored
    before the completion.  When the stored streak is [s], the last
    activity was not today and the call returns, the multiplier is the
    entry of the table for [s] (1.0 below 3 days, 1.1 from 3, 1.2 from 7,
    1.3 from 14, 1.5 from 30) and the XP is the sum multiplied by it,
    although the same call then stores the new streak: [s + 1] when the
    last activity was yesterday, 1 otherwise.  So the completion that
    brings the streak to 3, 7, 14 or 30 days is awarded with a multiplier
    below the one of the streak it leaves. *)
Theorem multiplier_uses_stored_streak (d : db) (today user_id : Z)
    (module_id activity_type : string) (score time_spent : Z) (p : profile)
    (d' : db) (r : activity_result) :
  user_gamification d !! user_id = Some p ->
  last_activity_date p <> Some today ->
  complete_activity d today user_id module_id activity_type (Some score)
    time_spent = Some (d', r) ->
  exists p',
    streak_multiplier r
    = PyFloat.of_decimal
        (if 30 <=? streak p then 15
         else if 14 <=? streak p then 13
         else if 7 <=? streak p then 12
         else if 3 <=? streak p then 11
         else 10) 10
    /\ xp_earned r
       = Spec.awarded_xp activity_type score
           (activity_counts d user_id activity_type =? 0) (streak p)
    /\ user_gamification d' !! user_id = Some p'
    /\ (last_activity_date p = Some (today - 1) -> streak p' = streak p + 1)
    /\ (last_activity_date p <> Some (today - 1) -> streak p' = 1)
    /\ (last_activity_date p = Some (today - 1) ->
        streak p + 1 ∈ [3; 7; 14; 30] ->
        Spec.multiplier_tenths (streak p) < Spec.multiplier_tenths (streak p')
        /\ (10 <= Spec.xp_before_multiplier activity_type score
                   (activity_counts d user_id activity_type =? 0) ->
            xp_earned r
            < Spec.awarded_xp activity_type score
                (activity_counts d user_id activity_type =? 0) (streak p'))).
Proof.
  intros Hp Hday H.
  assert (Hprof : profile_of d user_id = p)
    by (unfold profile_of; by rewrite Hp).
  pose proof (AwardFacts.xp_award _ _ _ _ _ _ _ _ _ H) as [Hxp Hm].
  pose proof (StreakFacts.complete_activity_streak _ _ _ _ _ _ _ _ _ H)
    as (p' & Hp' & _ & Hne).
  rewrite Hprof in *. specialize (Hne Hday) as (Hs & _ & _).
  exists p'. split; [exact Hm|]. split; [exact Hxp|]. split; [exact Hp'|].
  assert (Hy : last_activity_date p = Some (today - 1) ->
               streak p' = streak p + 1).
  { intros Hy. rewrite Hs. simpl. by rewrite bool_decide_eq_true_2. }
  split; [exact Hy|]. split.
  { intros Hn. rewrite Hs. simpl. by rewrite bool_decide_eq_false_2. }
  intros Hyes Hin. rewrite (Hy Hyes), Hxp.
  set (n := Spec.xp_before_multiplier activity_type score _).
  pose proof (GamificationFacts.xp_before_multiplier_range activity_type score
                (activity_counts d user_id activity_type =? 0)) as Hn.
  fold n in Hn. unfold Spec.awarded_xp. fold n.
  unfold Spec.multiplier_tenths.
  assert (Hdiv : forall k1 k2, 0 < k1 < k2 -> 10 <= n ->
                            n * k1 / 10 < n * k2 / 10).
  { intros k1 k2 Hk Hpos.
    apply Z.lt_le_trans with (m := (n * k1 + 1 * 10) / 10).
    - rewrite Z.div_add by lia. lia.
    - apply Z.div_le_mono; [lia|nia]. }
  set (s := streak p) in *.
  assert (Hcases : s = 2 \/ s = 6 \/ s = 13 \/ s = 29).
  { repeat (apply elem_of_cons in Hin as [Hin|Hin]; [lia|]).
    by apply elem_of_nil in Hin. }
  destruct Hcases as [Hs2|[Hs2|[Hs2|Hs2]]]; rewrite Hs2; simpl;
    (split; [lia|intros Hpos; apply Hdiv; [lia|done]]).
Qed.

Lemma multiplier_uses_stored_streak_witness :
  exists d' r p',
    complete_activity Examples.two_day_streak_db 100 1 "A01" "documentation"
      (Some 0) 0 = Some (d', r)
    /\ streak_multiplier r = PyFloat.of_decimal 10 10
    /\ xp_earned r = Spec.awarded_xp "documentation" 0 true 2
    /\ user_gamification d' !! 1 = Some p'
    /\ streak p' = 3
    /\ xp_earned r < Spec.awarded_xp "documentation" 0 true 3.
Proof.
  destruct (complete_activity Examples.two_day_streak_db 100 1 "A01"
              "documentation" (Some 0) 0) as [[d' r]|] eqn:E;
    [|vm_compute in E; discriminate E].
  destruct (multiplier_uses_stored_streak Examples.two_day_streak_db 100 1
              "A01" "documentation" 0 0 (Profile 2 0 150 2 2 (Some 99)) d' r
              eq_refl ltac:(discriminate) E)
    as (p' & Hm & Hxp & Hp' & Hy & _ & Hcross).
  exists d', r, p'. split; [reflexivity|]. split; [exact Hm|].
  split; [exact Hxp|]. split; [exact Hp'|]. split; [exact (Hy eq_refl)|].
  destruct (Hcross eq_refl) as [_ Hlt].
  - simpl. apply elem_of_cons. left. reflexivity.
  - rewrite (Hy eq_refl) in Hlt. apply Hlt. vm_compute. discriminate.
Defined.

(** The completion that brings the streak to 3 days is worth 100 XP, the
    sum at the multiplier 1.0 of the two-day streak, not 110; the next one
    on that day is multiplied by 1.1. *)
Example third_day_completion :
  exists d' r d2 r2,
    complete_activity Examples.two_day_streak_db 100 1 "A01" "documentation"
      (Some 0) 0 = Some (d', r)
    /\ xp_earned r = 100
    /\ streak_multiplier r = PyFloat.of_int 1
    /\ streak <$> user_gamification d' !! 1 = Some 3
    /\ _get_streak_multiplier 3 = Some (PyFloat.of_decimal 11 10)
    /\ complete_activity d' 100 1 "A01" "lab" (Some 0) 0 = Some (d2, r2)
    /\ streak_multiplier r2 = PyFloat.of_decimal 11 10
    /\ xp_earned r2 = 137.
Proof.
  eexists _, _, _, _. split; [vm_compute; reflexivity|].
  split; [reflexivity|]. split; [vm_compute; reflexivity|].
  split; [vm_compute; reflexivity|]. split; [vm_compute; reflexivity|].
  split; [vm_compute; reflexivity|].
  split; vm_compute; reflexivity.
Qed.

(** C9.  In every row of [user_gamification] the longest streak is at
    least the streak: the row [initialize_user] inserts has both at 0, and
    every operation that writes the table keeps the property, the streak
    update by storing the maximum of the old longest streak and the new
    streak, the XP updates by copying both columns. *)
Theorem max_streak_invariant :
  streak initial_profile = 0 /\ max_streak initial_profile = 0
  /\ (forall d d', streak_bounded d -> step d d' -> streak_bounded d')
  /\ (forall d d' user_id p,
        user_gamification d = ∅ -> steps d d' ->
        user_gamification d' !! user_id = Some p ->
        streak p <= max_streak p).
Proof.
  split; [reflexivity|]. split; [reflexivity|].
  split; [apply Invariants.streak_bounded_step|].
  intros d d' user_id p Hempty Hsteps.
  assert (H : streak_bounded d').
  { eapply (Invariants.steps_keep streak_bounded); [| |done].
    - apply Invariants.streak_bounded_step.
    - intros u q. rewrite Hempty, lookup_empty. done. }
  apply H.
Qed.

Lemma max_streak_invariant_witness :
  exists d' r p,
    complete_activity Examples.one_user_db 100 1 "A01" "lab" (Some 0) 0
      = Some (d', r)
    /\ user_gamification d' !! 1 = Some p
    /\ streak p <= max_streak p.
Proof.
  destruct max_streak_invariant as (_ & _ & _ & H).
  eexists _, _, _. split; [vm_compute; reflexivity|].
  split; [vm_compute; reflexivity|].
  eapply (H Examples.one_user_db _ 1 _ eq_refl).
  - eapply steps_step; [apply steps_refl|].
    eapply (step_complete_activity _ 100 1 "A01" "lab" (Some 0) 0).
    vm_compute. reflexivity.
  - vm_compute. reflexivity.
Defined.

(** C7.  The level function is monotone, and no operation lowers a stored
    level: in a state where every stored level is the level of the stored
    total (as [initialize_user] and every XP update leave it), an
    operation keeps every user's row, does not lower its total XP, and does
    not lower its level; the same holds along any sequence of operations. *)
Theorem level_never_decreases :
  (forall x y, x <= y -> _calculate_level x <= _calculate_level y)
  /\ (forall d d' user_id p,
        level_consistent d -> steps d d' ->
        user_gamification d !! user_id = Some p ->
        level_consistent d'
        /\ exists p', user_gamification d' !! user_id = Some p'
             /\ total_xp p <= total_xp p' /\ level p <= level p').
Proof.
  split; [apply LevelFacts.calculate_level_mono|].
  intros d d' user_id p Hc Hsteps Hp.
  assert (Hc' : level_consistent d').
  { eapply (Invariants.steps_keep level_consistent); [|done|done].
    apply Invariants.level_consistent_step. }
  split; [done|].
  assert (Ht : total_at_least user_id (total_xp p) d').
  { eapply (Invariants.steps_keep
              (total_at_least user_id (total_xp p))); [| |done].
    - apply Invariants.total_at_least_step.
    - exists p. split; [done|lia]. }
  destruct Ht as (p' & Hp' & Hle). exists p'. split; [done|]. split; [done|].
  rewrite (Hc _ _ Hp), (Hc' _ _ Hp').
  by apply LevelFacts.calculate_level_mono.
Qed.

Lemma level_never_decreases_witness :
  exists d' p',
    steps Examples.two_day_streak_db d'
    /\ user_gamification d' !! 1 = Some p'
    /\ 150 <= total_xp p' /\ 2 <= level p'.
Proof.
  destruct level_never_decreases as (_ & H).
  destruct (complete_activity Examples.two_day_streak_db 100 1 "A01" "lab"
              (Some 95) 0) as [[d' r]|] eqn:Hd;
    [|vm_compute in Hd; discriminate Hd].
  assert (Hs : steps Examples.two_day_streak_db d').
  { eapply steps_step; [apply steps_refl|].
    eapply step_complete_activity. exact Hd. }
  assert (Hc : level_consistent Examples.two_day_streak_db).
  { intros u p. unfold Examples.two_day_streak_db. simpl.
    intros Hu. apply lookup_singleton_Some in Hu as [_ <-]. reflexivity. }
  destruct (H _ _ 1 (Profile 2 0 150 2 2 (Some 99)) Hc Hs eq_refl)
    as (_ & p' & Hp' & Ht & Hl).
  exists d', p'. split; [exact Hs|]. split; [exact Hp'|].
  split; [exact Ht|exact Hl].
Defined.

(** ** Account lockout *)

Module LockoutFacts.
Import AuthSecurity.

Lemma failed_login_row users now username row :
  users !! username = Some row ->
  handle_failed_login users now username !! username
  = Some (User (Some (default 0 (failed_login_attempts row) + 1))
            (if MAX_LOGIN_ATTEMPTS <=? default 0 (failed_login_attempts row) + 1
             then Some (now + minutes LOCKOUT_DURATION_MINUTES)
             else account_locked_until row)
            (last_login row)).
Proof.
  intros H. unfold handle_failed_login. rewrite H. apply lookup_insert_eq.
Qed.

Lemma check_unlocked users now1 now2 username row :
  users !! username = Some row -> account_locked_until row = None ->
  check_account_lockout users now1 now2 username = (users, (false, None)).
Proof.
  intros H Hl. unfold check_account_lockout. by rewrite H, Hl.
Qed.

Lemma check_locked users now1 now2 username row locked_until :
  users !! username = Some row ->
  account_locked_until row = Some locked_until ->
  check_account_lockout users now1 now2 username
  = if now1 <? locked_until then (users, (true, Some locked_until))
    else if locked_until <=? now2
         then (<[username := User (Some 0) None (last_login row)]> users,
               (false, None))
         else (users, (false, None)).
Proof.
  intros H Hl. unfold check_account_lockout. by rewrite H, Hl.
Qed.

End LockoutFacts.

(** C8.  For an existing user whose counter is at its reset value (0 or
    NULL, no lockout), four failed logins leave the account unlocked; the
    fifth, at time [t5], sets the counter to 5 and locks the account until
    [t5] plus 30 minutes.  From then on the lockout check reports locked,
    with that timestamp and without touching the row, exactly while the
    current time is before it; once the time has reached it, the check
    reports unlocked and resets the counter to 0 and the lockout to NULL.  A
    successful login resets both for any existing user. *)
Theorem lockout_after_five_failures (users : gmap string AuthSecurity.user)
    (username : string) (row : AuthSecurity.user) (t1 t2 t3 t4 t5 : Z) :
  users !! username = Some row ->
  default 0 (AuthSecurity.failed_login_attempts row) = 0 ->
  AuthSecurity.account_locked_until row = None ->
  let fail := fun us t => AuthSecurity.handle_failed_login us t username in
  let users4 := fail (fail (fail (fail users t1) t2) t3) t4 in
  let users5 := fail users4 t5 in
  let locked_until := t5 + 30 * 60 * 1000000 in
  (forall now1 now2,
     AuthSecurity.check_account_lockout users4 now1 now2 username
     = (users4, (false, None)))
  /\ users5 !! username
     = Some (AuthSecurity.User (Some 5) (Some locked_until)
               (AuthSecurity.last_login row))
  /\ (forall now1 now2, now1 < locked_until ->
        AuthSecurity.check_account_lockout users5 now1 now2 username
        = (users5, (true, Some locked_until)))
  /\ (forall now1 now2, locked_until <= now1 -> now1 <= now2 ->
        AuthSecurity.check_account_lockout users5 now1 now2 username
        = (<[username := AuthSecurity.User (Some 0) None
                           (AuthSecurity.last_login row)]> users5,
           (false, None)))
  /\ (forall (us : gmap string AuthSecurity.user) now,
        is_Some (us !! username) ->
        AuthSecurity.handle_successful_login us now username !! username
        = Some (AuthSecurity.User (Some 0) None (Some now))).
Proof.
  intros Hrow Hzero Hnull fail users4 users5 locked_until.
  subst fail users4 users5. cbv beta.
  pose proof (LockoutFacts.failed_login_row _ t1 _ _ Hrow) as H1.
  rewrite Hzero, Hnull in H1.
  pose proof (LockoutFacts.failed_login_row _ t2 _ _ H1) as H2.
  pose proof (LockoutFacts.failed_login_row _ t3 _ _ H2) as H3.
  pose proof (LockoutFacts.failed_login_row _ t4 _ _ H3) as H4.
  pose proof (LockoutFacts.failed_login_row _ t5 _ _ H4) as H5.
  split; [|split; [|split; [|split]]].
  - intros now1 now2. by eapply LockoutFacts.check_unlocked.
  - rewrite H5. reflexivity.
  - intros now1 now2 Hlt.
    rewrite (LockoutFacts.check_locked _ now1 now2 _ _ locked_until H5 eq_refl).
    destruct (Z.ltb_spec now1 locked_until); [reflexivity|lia].
  - intros now1 now2 Hge Hmono.
    rewrite (LockoutFacts.check_locked _ now1 now2 _ _ locked_until H5 eq_refl).
    destruct (Z.ltb_spec now1 locked_until); [lia|].
    destruct (Z.leb_spec locked_until now2); [reflexivity|lia].
  - intros us now [r Hr]. unfold AuthSecurity.handle_successful_login.
    rewrite Hr. apply lookup_insert_eq.
Qed.

Lemma lockout_after_five_failures_witness :
  let fail := fun us t => AuthSecurity.handle_failed_login us t "alice" in
  let users5 :=
    fail (fail (fail (fail (fail Examples.alice_users 10) 20) 30) 40) 50 in
  users5 !! "alice"
  = Some (AuthSecurity.User (Some 5) (Some (50 + 30 * 60 * 1000000)) None)
  /\ AuthSecurity.check_account_lockout users5 60 61 "alice"
     = (users5, (true, Some (50 + 30 * 60 * 1000000))).
Proof.
  intros fail users5.
  destruct (lockout_after_five_failures Examples.alice_users "alice"
              (AuthSecurity.User (Some 0) None None) 10 20 30 40 50
              eq_refl eq_refl eq_refl) as (_ & H5 & Hlocked & _).
  split; [exact H5|]. apply Hlocked. lia.
Defined.

(** ** The completion policy on the states the platform reaches *)

Module PolicyFacts.
Import Db Gamification Modules System ModulesMore.






End PolicyFacts.




(** C2, as the code has it.  A new user, without recorded activity,
    completes the documentation of A01 with score 100 and the completion
    returns.  Its XP is base documentation XP plus the first-time bonus plus
    the perfect-score bonus, 75 + 25 + 50 = 150; this meets the threshold of
    level 2, so the completion reports a level-up to level 2 and the stored
    level afterwards is at least 2; A01 is not completed, as one activity is
    recorded, and A02 is not unlocked. *)
Theorem new_user_documentation_scenario (d : db) (today user_id time_spent : Z)
    (d' : db) (r : activity_result) :
  new_user d user_id ->
  complete_activity d today user_id "A01" "documentation" (Some 100) time_spent
    = Some (d', r) ->
  exists p,
    xp_earned r = 75 + 25 + 50
    /\ res_level_up r = true /\ res_new_level r = 2
    /\ user_gamification d' !! user_id = Some p /\ 2 <= level p
    /\ is_module_completed d' user_id "A01" = false
    /\ complete_learning_activity d today user_id "A01" "documentation"
         (Some 100) time_spent
       = (record_legacy d' user_id "A01" "documentation" (Some 100) time_spent,
          true)
    /\ unlocked
         (fst (complete_learning_activity d today user_id "A01"
                 "documentation" (Some 100) time_spent)) user_id "A02" = false.
Proof.
  intros (Hprof & Hac & Hmc & Hat & Hla & Hup & Hua) H.
  assert (Hcount : activity_counts d user_id "documentation" = 0).
  { unfold activity_counts. apply LogFacts.count_zero_iff.
    eapply Forall_impl; [exact Hac|]. intros row Hrow. simpl.
    by rewrite bool_decide_eq_false_2. }
  pose proof (LogFacts.complete_activity_logs _ _ _ _ _ _ _ _ _ H)
    as (z & m & t & [= <-] & [= <-] & [= <-] & La & Lm & Lt & Ll & Lp & Lc).
  pose proof H as Hst.
  apply ActivityFacts.complete_activity_stages in Hst
    as (z & m & t & d3 & news & [= <-] & _ & _ & _ & _ & _ & _
        & E3 & E4 & Hr).
  rewrite Hprof, Hcount in Hr, E3.
  change (Spec.awarded_xp "documentation" 100 (0 =? 0) (streak initial_profile))
    with 150 in Hr, E3.
  assert (Hrow : row_at_least user_id 150 d').
  { eapply (Preservation.check_achievements_closed
              (row_at_least user_id 150)); [|done| |exact E4].
    { intros ? ? ? ? ? ? ?. by apply RowFacts.row_at_least_xp. }
    eapply (Preservation.update_streak_closed
              (row_at_least user_id 150)); [| |exact E3].
    { intros ? ? ? ? ? _ ?. by apply RowFacts.row_at_least_streak. }
    eexists. split; [simpl; apply lookup_insert_eq|]. by split. }
  apply RowFacts.row_at_least_level in Hrow as (p & Hp & Hl).
  assert (Hdone : is_module_completed d' user_id "A01" = false).
  { unfold is_module_completed. rewrite La, Lt, Ll.
    rewrite (proj2 (LogFacts.count_zero_iff _ (user_assessment_attempts d))).
    2:{ eapply Forall_impl; [exact Hat|]. intros row Hrow. simpl.
        by rewrite bool_decide_eq_false_2. }
    rewrite (LogFacts.count_distinct_zero la_activity_type).
    2:{ eapply Forall_impl; [exact Hla|]. intros row Hrow. simpl.
        by rewrite bool_decide_eq_false_2. }
    rewrite (LogFacts.count_distinct_app_single ac_activity_type).
    2:{ eapply Forall_impl; [exact Hac|]. intros row Hrow. simpl.
        by rewrite bool_decide_eq_false_2. }
    2:{ simpl. by rewrite !bool_decide_eq_true_2. }
    reflexivity. }
  assert (Hcla : complete_learning_activity d today user_id "A01"
                   "documentation" (Some 100) time_spent
                 = (record_legacy d' user_id "A01" "documentation" (Some 100)
                      time_spent, true)).
  { unfold complete_learning_activity. by rewrite H, Hdone. }
  exists p. rewrite Hr. cbn [xp_earned res_level_up res_new_level].
  split; [reflexivity|]. split; [reflexivity|]. split; [reflexivity|].
  split; [exact Hp|]. split; [exact Hl|]. split; [exact Hdone|].
  split; [exact Hcla|].
  rewrite Hcla. cbn [fst]. unfold unlocked.
  rewrite UnlockFacts.record_legacy_progress, Lp.
  apply not_true_iff_false. intros Hex.
  apply existsb_exists in Hex as (row & Hin & Hrow').
  rewrite Forall_forall in Hup. apply list_elem_of_In in Hin.
  specialize (Hup row Hin).
  apply andb_true_iff in Hrow' as [Hu _]. by apply bool_decide_eq_true in Hu.
Qed.

Lemma new_user_documentation_scenario_witness :
  new_user Examples.one_user_db 1
  /\ exists d' r p,
       complete_activity Examples.one_user_db 100 1 "A01" "documentation"
         (Some 100) 0 = Some (d', r)
       /\ xp_earned r = 150 /\ res_new_level r = 2
       /\ user_gamification d' !! 1 = Some p /\ 2 <= level p
       /\ unlocked
            (fst (complete_learning_activity Examples.one_user_db 100 1 "A01"
                    "documentation" (Some 100) 0)) 1 "A02" = false.
Proof.
  assert (Hnew : new_user Examples.one_user_db 1).
  { split; [reflexivity|]. repeat split; constructor. }
  split; [exact Hnew|].
  destruct (complete_activity Examples.one_user_db 100 1 "A01" "documentation"
              (Some 100) 0) as [[d' r]|] eqn:E;
    [|vm_compute in E; discriminate E].
  destruct (new_user_documentation_scenario Examples.one_user_db 100 1 0 d' r
              Hnew E)
    as (p & Hxp & _ & Hlvl & Hp & Hl & _ & _ & Hun).
  exists d', r, p. split; [reflexivity|]. split; [exact Hxp|].
  split; [exact Hlvl|]. split; [exact Hp|]. split; [exact Hl|exact Hun].
Defined.

(** C2 as stated fails: 150 XP is the threshold of level 2, so the new
    user's level after the completion is 2, not 1.  With the built-in
    achievements the same call adds the rewards of First Steps and
    Perfectionist, 300 XP in all, still level 2. *)
Lemma new_user_reaches_level_2 :
  exists d' r p,
    complete_activity Examples.one_user_db 100 1 "A01" "documentation"
      (Some 100) 0 = Some (d', r)
    /\ xp_earned r = 150
    /\ res_new_level r = 2
    /\ user_gamification d' !! 1 = Some p
    /\ total_xp p = 300
    /\ level p = 2
    /\ level p <> 1.
Proof.
  eexists _, _, _. split; [vm_compute; reflexivity|].
  split; [reflexivity|]. split; [reflexivity|].
  split; [vm_compute; reflexivity|].
  split; [reflexivity|]. split; [reflexivity|]. discriminate.
Qed.



(** * Further properties of the code *)

(** ** The next level *)

Module NextLevelFacts.
Import Db Gamification GamificationMore.

Lemma next_level_lookup (l : Z) :
  0 <= l < 15 ->
  _get_next_level_xp l = Some (nth (Z.to_nat l) level_thresholds 0).
Proof.
  intros Hl. unfold _get_next_level_xp. cbn [length level_thresholds Z.of_nat].
  change (Z.of_nat 15) with 15.
  destruct (Z.ltb_spec l 15); [|lia]. destruct (Z.leb_spec 0 l); [|lia].
  destruct (nth_lookup_or_length level_thresholds (Z.to_nat l) 0) as [Hn|Hn];
    [done|]. simpl in Hn. lia.
Qed.

End NextLevelFacts.

(** X1.  [_get_next_level_xp] of the level of a total is the first
    threshold the total has not reached: for a total [x >= 0] below level 15,
    the threshold of its level is at most [x] and the next-level XP is above
    [x].  From level 15 on the function returns the last threshold plus 1000,
    25850, whatever the total, so totals from 25850 on are not below it. *)
Theorem next_level_xp_window :
  (forall x, 0 <= x -> _calculate_level x < 15 ->
     exists n,
       GamificationMore._get_next_level_xp (_calculate_level x) = Some n
       /\ nth (Z.to_nat (_calculate_level x - 1)) level_thresholds 0 <= x < n)
  /\ (forall l, 15 <= l -> GamificationMore._get_next_level_xp l = Some 25850)
  /\ (forall x, 25850 <= x ->
        GamificationMore._get_next_level_xp (_calculate_level x) = Some 25850).
Proof.
  split; [|split].
  - intros x Hx Hl.
    pose proof (LevelFacts.calculate_level_bounds x) as Hb.
    exists (nth (Z.to_nat (_calculate_level x)) level_thresholds 0).
    split; [apply NextLevelFacts.next_level_lookup; lia|].
    split; [by apply LevelFacts.calculate_level_met|].
    apply (LevelFacts.level_scan_above 15); [|lia].
    change (level_scan 15 x) with (_calculate_level x). lia.
  - intros l Hl. unfold GamificationMore._get_next_level_xp.
    cbn [length level_thresholds]. change (Z.of_nat 15) with 15.
    destruct (Z.ltb_spec l 15); [lia|]. reflexivity.
  - intros x Hx.
    assert (H : _calculate_level x = 15).
    { pose proof (LevelFacts.calculate_level_bounds x).
      pose proof (LevelFacts.calculate_level_mono 24850 x ltac:(lia)) as Hm.
      change (_calculate_level 24850) with 15 in Hm. lia. }
    rewrite H. reflexivity.
Qed.

Lemma next_level_xp_window_witness :
  exists n,
    GamificationMore._get_next_level_xp (_calculate_level 200) = Some n
    /\ nth (Z.to_nat (_calculate_level 200 - 1)) level_thresholds 0 <= 200 < n.
Proof.
  destruct next_level_xp_window as (H & _ & _).
  apply (H 200); [lia|]. vm_compute. reflexivity.
Defined.

(** X2.  [_update_user_xp] reports a level-up exactly when the new total
    reaches the next-level XP of the stored level.  For a row whose level is
    the level of its total, below level 15, and a total that stays
    non-negative: the call returns if and only if the new total fits the
    [INTEGER] column, and when it returns, [level_up] is true if and only if
    the new total is at least [_get_next_level_xp] of the old level. *)
Theorem level_up_iff_next_level_reached (d : db) (user_id xp_amount : Z)
    (p : profile) :
  user_gamification d !! user_id = Some p ->
  level p = _calculate_level (total_xp p) ->
  0 <= total_xp p -> 0 <= total_xp p + xp_amount ->
  level p < 15 ->
  (is_Some (_update_user_xp d user_id xp_amount)
   <-> total_xp p + xp_amount <= 2147483647)
  /\ exists n,
       GamificationMore._get_next_level_xp (level p) = Some n
       /\ forall d' r,
            _update_user_xp d user_id xp_amount = Some (d', r) ->
            (level_up r = true <-> n <= total_xp p + xp_amount).
Proof.
  intros Hp Hc H0 H1 Hl. split.
  - rewrite (GamificationFacts.update_user_xp_eq _ _ _ _ Hp). split.
    + destruct (_ && _) eqn:E; [|by intros [? ?]]. intros _.
      apply andb_true_iff in E as [_ E].
      apply GamificationFacts.int32_spec in E. simpl in E. lia.
    + intros Hle. rewrite GamificationFacts.xp_row_fits by lia. eauto.
  - pose proof (LevelFacts.calculate_level_bounds (total_xp p)) as Hb.
    eexists. split; [apply NextLevelFacts.next_level_lookup; lia|].
    intros d' r H.
    apply GamificationFacts.update_user_xp_inv in H as (q & Hq & _ & ->).
    rewrite Hp in Hq. injection Hq as <-.
    cbn [level_up level xp_row]. rewrite Z.ltb_lt, Hc.
    set (x := total_xp p) in *. set (y := x + xp_amount) in *.
    pose proof (LevelFacts.calculate_level_bounds y) as Hby.
    split.
    + intros Hlt. pose proof (LevelFacts.calculate_level_met y H1) as Hmet.
      destruct (decide (_calculate_level y - 1 = _calculate_level x)) as [E|E].
      * rewrite E in Hmet. done.
      * pose proof (LevelFacts.thresholds_ascending
          (Z.to_nat (_calculate_level x)) (Z.to_nat (_calculate_level y - 1))
          ltac:(lia)). lia.
    + intros Hge. apply Z.lt_nge. intros Hle.
      pose proof (LevelFacts.level_scan_above 15 y
                    (Z.to_nat (_calculate_level x))) as Habove.
      change (level_scan 15 y) with (_calculate_level y) in Habove.
      specialize (Habove ltac:(lia) ltac:(lia)). lia.
Qed.

Lemma level_up_iff_next_level_reached_witness :
  is_Some (_update_user_xp Examples.two_day_streak_db 1 200)
  /\ ~ is_Some (_update_user_xp Examples.two_day_streak_db 1 2147483648)
  /\ exists n,
       GamificationMore._get_next_level_xp 2 = Some n
       /\ forall d' r,
            _update_user_xp Examples.two_day_streak_db 1 200 = Some (d', r) ->
            (level_up r = true <-> n <= 150 + 200).
Proof.
  destruct (level_up_iff_next_level_reached Examples.two_day_streak_db 1 200
              (Profile 2 0 150 2 2 (Some 99)) eq_refl eq_refl)
    as [Hret Hup]; [simpl; lia|simpl; lia|simpl; lia|].
  destruct (level_up_iff_next_level_reached Examples.two_day_streak_db 1
              2147483648 (Profile 2 0 150 2 2 (Some 99)) eq_refl eq_refl)
    as [Hret2 _]; [simpl; lia|simpl; lia|simpl; lia|].
  split; [apply Hret; simpl; lia|]. split; [|exact Hup].
  intros Hs. apply Hret2 in Hs. simpl in Hs. lia.
Defined.

(** ** What the achievement check writes *)

Module AchievementFacts.
Import Db Gamification System GamificationMore GamificationFacts.

Lemma stored_total_insert d u row v :
  stored_total (set_user_gamification (<[u := row]> (user_gamification d)) d) v
  = if decide (u = v) then total_xp row else stored_total d v.
Proof.
  unfold stored_total. simpl. destruct (decide (u = v)) as [->|Hne].
  - by rewrite lookup_insert_eq.
  - by rewrite lookup_insert_ne.
Qed.

(** The loop awards exactly the entries that are not earned and whose
    condition holds, appends their rows in catalog order and adds their
    positive rewards to the user's total. *)
Lemma award_loop_effect all earned_ids s counts user_id d d' news :
  is_Some (user_gamification d !! user_id) ->
  award_loop all earned_ids s counts user_id d = Some (d', news) ->
  news = List.filter
           (fun a => negb (bool_decide (ach_id a ∈ earned_ids))
                     && _check_achievement_condition a s counts) all
  /\ user_achievements_new d'
     = user_achievements_new d
       ++ ((fun a => UserAchievement user_id (ach_id a)) <$> news)
  /\ stored_total d' user_id = stored_total d user_id + rewards news
  /\ is_Some (user_gamification d' !! user_id)
  /\ (forall v, v <> user_id ->
        user_gamification d' !! v = user_gamification d !! v)
  /\ same_logs d d'.
Proof.
  revert d d' news. induction all as [|a rest IH]; intros d d' news Hu H;
    cbn [award_loop] in H.
  - injection H as <- <-. cbn. rewrite app_nil_r.
    unfold rewards, sum. simpl. rewrite Z.add_0_r.
    repeat split; done.
  - cbn [List.filter].
    case_bool_decide as Hin; cbn [negb andb]; [by apply IH|].
    destruct (_check_achievement_condition a s counts); [|by apply IH].
    set (d1 := set_user_achievements_new _ d) in H.
    assert (Hu1 : is_Some (user_gamification d1 !! user_id)) by done.
    destruct (if 0 <? ach_xp_reward a
              then fst <$> _update_user_xp d1 user_id (ach_xp_reward a)
              else Some d1) as [d2|] eqn:E2; [|done].
    assert (stored_total d2 user_id
            = stored_total d user_id + Z.max 0 (ach_xp_reward a)
            /\ is_Some (user_gamification d2 !! user_id)
            /\ (forall v, v <> user_id ->
                  user_gamification d2 !! v = user_gamification d !! v)
            /\ user_achievements_new d2
               = user_achievements_new d ++ [UserAchievement user_id (ach_id a)]
            /\ same_logs d d2) as (Ht2 & Hu2 & Ho2 & Ha2 & Hl2).
    { destruct (Z.ltb_spec 0 (ach_xp_reward a)) as [Hpos|Hpos].
      - destruct (_update_user_xp d1 user_id (ach_xp_reward a))
          as [[d2' res]|] eqn:Eu; [|done].
        cbn in E2. injection E2 as <-.
        apply update_user_xp_inv in Eu as (p & Hp & -> & _).
        rewrite stored_total_insert. rewrite decide_True by done.
        split.
        { unfold stored_total. change (user_gamification d !! user_id)
            with (user_gamification d1 !! user_id). rewrite Hp. simpl. lia. }
        split; [simpl; rewrite lookup_insert_eq; eauto|].
        split; [intros v Hv; simpl; by rewrite lookup_insert_ne|].
        split; [done|]. by repeat split.
      - injection E2 as <-. split; [unfold stored_total; simpl; lia|].
        split; [done|]. split; [done|]. split; [done|]. by repeat split. }
    cbn [mbind option_bind] in H.
    destruct (award_loop rest earned_ids s counts user_id d2)
      as [[d3 news']|] eqn:E3; [|done].
    cbn in H. injection H as <- <-.
    destruct (IH _ _ _ Hu2 E3) as (Hn & Ha & Ht & Hu3 & Ho & Hl).
    split; [by rewrite Hn|]. split.
    { rewrite Ha, Ha2. cbn [fmap list_fmap]. by rewrite <- app_assoc. }
    split.
    { rewrite Ht, Ht2. unfold rewards, sum. cbn [fmap list_fmap foldr]. lia. }
    split; [done|]. split.
    { intros v Hv. rewrite Ho by done. by apply Ho2. }
    destruct Hl as (? & ? & ? & ? & ? & ?), Hl2 as (? & ? & ? & ? & ? & ?).
    repeat split; congruence.
Qed.

(** [_check_achievements] on a user with a row. *)
Lemma check_achievements_effect d user_id d' news :
  _check_achievements d user_id = Some (d', news) ->
  news = awarded d user_id
  /\ user_achievements_new d'
     = user_achievements_new d
       ++ ((fun a => UserAchievement user_id (ach_id a)) <$> news)
  /\ stored_total d' user_id = stored_total d user_id + rewards news
  /\ (forall v, v <> user_id ->
        user_gamification d' !! v = user_gamification d !! v)
  /\ same_logs d d'.
Proof.
  intros H. unfold _check_achievements in H. unfold awarded.
  destruct (user_stats d user_id) as [s|] eqn:Es; [|done].
  cbn [mbind option_bind] in H.
  assert (Hu : is_Some (user_gamification d !! user_id)).
  { unfold user_stats in Es.
    destruct (user_gamification d !! user_id); [eauto|done]. }
  destruct (award_loop_effect _ _ _ _ _ _ _ _ Hu H)
    as (Hn & Ha & Ht & _ & Ho & Hl).
  done.
Qed.

End AchievementFacts.

(** ** Properties kept by the achievement check as a whole *)

Module PreservationCheck.
Import Db Gamification Modules System GamificationFacts ActivityFacts.

(** As [Preservation.Closed], for a property that the achievement check
    keeps as a whole and not row by row. *)
Section ClosedCheck.

Variable P : db -> Prop.

Hypothesis P_init : forall d user_id,
  user_gamification d !! user_id = None -> P d ->
  P (set_user_gamification (<[user_id := initial_profile]> (user_gamification d)) d).
Hypothesis P_xp : forall d user_id p xp_amount,
  0 <= xp_amount -> user_gamification d !! user_id = Some p -> P d ->
  P (set_user_gamification
       (<[user_id := xp_row p xp_amount]> (user_gamification d)) d).
Hypothesis P_streak : forall d user_id p today,
  user_gamification d !! user_id = Some p ->
  last_activity_date p <> Some today -> P d ->
  P (set_user_gamification
       (<[user_id := streak_row p today]> (user_gamification d)) d).
Hypothesis P_check : forall d user_id d' news,
  P d -> _check_achievements d user_id = Some (d', news) -> P d'.
Hypothesis P_ac : forall d row,
  P d -> P (set_activity_completions (activity_completions d ++ [row]) d).
Hypothesis P_mc : forall d row,
  P d -> P (set_module_completions (module_completions d ++ [row]) d).
Hypothesis P_up : forall d row,
  P d -> P (set_user_progress (user_progress d ++ [row]) d).
Hypothesis P_la : forall d row,
  P d -> P (set_learning_activities (learning_activities d ++ [row]) d).
Hypothesis P_users : forall d x, P d -> P (set_users_xp x d).

Lemma complete_activity_kept d today user_id module_id activity_type score
    time_spent d' r :
  P d ->
  complete_activity d today user_id module_id activity_type score time_spent
    = Some (d', r) ->
  P d'.
Proof.
  intros HP H.
  apply complete_activity_stages in H
    as (z & m & t & d3 & news & _ & _ & _ & _ & _ & _ & _ & E3 & E4 & _).
  eapply P_check; [|exact E4].
  eapply (Preservation.update_streak_closed P); [exact P_streak| |exact E3].
  apply P_xp.
  - apply awarded_xp_nonneg.
  - simpl. apply initialized_lookup.
  - apply P_ac. by apply (Preservation.initialized_closed P).
Qed.

Lemma complete_module_kept d user_id module_id d' r :
  P d -> complete_module d user_id module_id = Some (d', r) -> P d'.
Proof.
  intros HP H.
  apply Preservation.complete_module_stages in H
    as (_ & [(_ & -> & _)|(_ & m & total & d1 & d2 & res & news & _ & _ & ->
                            & E2 & E4 & _)]); [done|].
  eapply P_check; [|exact E4].
  eapply (Preservation.update_user_xp_closed P); [exact P_xp| | |exact E2];
    [lia|]. by apply P_mc.
Qed.

Lemma complete_learning_activity_kept d today user_id module_id activity_type
    score time_spent :
  P d ->
  P (fst (complete_learning_activity d today user_id module_id activity_type
            score time_spent)).
Proof.
  intros HP. unfold complete_learning_activity.
  destruct (complete_activity d today user_id module_id activity_type score
              time_spent) as [[d1 g]|] eqn:E1.
  - cbn [fst].
    apply (Preservation.record_legacy_closed P); [exact P_la|exact P_users|].
    assert (P d1) by (by eapply complete_activity_kept).
    destruct (is_module_completed d1 user_id module_id); [|done].
    destruct (complete_module d1 user_id module_id) as [[d2 c]|] eqn:E2;
      [|done].
    apply (Preservation.unlock_next_module_closed P); [exact P_up|].
    by eapply complete_module_kept.
  - cbn [fst].
    destruct (initialize_user d user_id) as [d0|] eqn:E0; [|done].
    by eapply (Preservation.initialize_user_closed P).
Qed.

Lemma step_kept d d' : P d -> step d d' -> P d'.
Proof.
  intros HP Hs. destruct Hs.
  - by eapply (Preservation.initialize_user_closed P).
  - by eapply complete_activity_kept.
  - by eapply complete_module_kept.
  - by apply (Preservation.unlock_next_module_closed P).
  - by apply complete_learning_activity_kept.
Qed.

End ClosedCheck.

End PreservationCheck.

(** ** Achievements are awarded once, and only when their condition holds *)

Module AwardOnceFacts.
Import Db Gamification System GamificationMore.

Lemma NoDup_fmap_filter {A B} (g : A -> B) (f : A -> bool) (l : list A) :
  NoDup (g <$> l) -> NoDup (g <$> List.filter f l).
Proof.
  induction l as [|x l IH]; simpl; [done|].
  intros [Hx Hl]%NoDup_cons. destruct (f x); simpl; [|by apply IH].
  apply NoDup_cons. split; [|by apply IH].
  intros Hin. apply Hx. apply list_elem_of_fmap in Hin as (y & -> & Hy).
  apply list_elem_of_fmap. exists y. split; [done|].
  apply list_elem_of_In in Hy. apply filter_In in Hy as [Hy _].
  by apply list_elem_of_In.
Qed.

Lemma NoDup_fmap_eq {A B} (g : A -> B) (l : list A) x y :
  NoDup (g <$> l) -> x ∈ l -> y ∈ l -> g x = g y -> x = y.
Proof.
  induction l as [|z l IH]; simpl; [by intros _ ?%elem_of_nil|].
  intros [Hz Hl]%NoDup_cons Hx Hy Hg.
  apply elem_of_cons in Hx as [->|Hx]; apply elem_of_cons in Hy as [->|Hy].
  - done.
  - exfalso. apply Hz. rewrite Hg. apply list_elem_of_fmap. eauto.
  - exfalso. apply Hz. rewrite <- Hg. apply list_elem_of_fmap. eauto.
  - by apply IH.
Qed.

Lemma awarded_in_catalog d user_id a :
  a ∈ awarded d user_id ->
  a ∈ achievements_new d
  /\ (ach_id a ∉ (ua_achievement_id <$>
                    List.filter (fun r => bool_decide (ua_user_id r = user_id))
                      (user_achievements_new d)))
  /\ exists s, user_stats d user_id = Some s
       /\ _check_achievement_condition a s (activity_counts d user_id) = true.
Proof.
  unfold awarded. destruct (user_stats d user_id) as [s|];
    [|by intros ?%elem_of_nil].
  intros Hin. apply list_elem_of_In, filter_In in Hin as [Hin Hf].
  apply andb_true_iff in Hf as [Hne Hc].
  apply negb_true_iff, bool_decide_eq_false in Hne.
  split; [by apply list_elem_of_In|]. split; [done|]. eauto.
Qed.

Lemma never_met_condition a s counts :
  never_met a -> _check_achievement_condition a s counts = false.
Proof.
  unfold never_met, _check_achievement_condition.
  by destruct (ach_condition a).
Qed.

Lemma earned_row d user_id i :
  UserAchievement user_id i ∈ user_achievements_new d ->
  i ∈ (ua_achievement_id <$>
         List.filter (fun r => bool_decide (ua_user_id r = user_id))
           (user_achievements_new d)).
Proof.
  intros Hin. apply list_elem_of_fmap. exists (UserAchievement user_id i).
  split; [done|]. apply list_elem_of_In, filter_In.
  split; [by apply list_elem_of_In|]. simpl. by apply bool_decide_eq_true.
Qed.

Lemma pair_row (r : user_achievement) :
  UserAchievement (ua_user_id r) (ua_achievement_id r) = r.
Proof. by destruct r. Qed.

Lemma check_keeps_unique d user_id d' news :
  catalog_ok d /\ achievements_unique d ->
  _check_achievements d user_id = Some (d', news) ->
  catalog_ok d' /\ achievements_unique d'.
Proof.
  intros [Hc Hu] H.
  apply AchievementFacts.check_achievements_effect in H
    as (Hn & Ha & _ & _ & (_ & _ & _ & _ & _ & Hcat)).
  unfold catalog_ok, achievements_unique in *. rewrite Hcat.
  split; [done|]. rewrite Ha, fmap_app. apply NoDup_app.
  split; [done|]. split.
  - intros [u i] Hin Hin'.
    apply list_elem_of_fmap in Hin as (r & Hr & Hin).
    apply list_elem_of_fmap in Hin' as (r' & Hr' & Hin').
    apply list_elem_of_fmap in Hin' as (a & -> & Hin'). simpl in Hr'.
    injection Hr as -> ->. injection Hr' as Hu' Hi.
    subst news. apply awarded_in_catalog in Hin' as (_ & Hne & _).
    apply Hne. rewrite <- Hi, <- Hu'. apply earned_row. by rewrite pair_row.
  - rewrite <- list_fmap_compose. subst news. unfold awarded.
    destruct (user_stats d user_id); [|constructor].
    apply (NoDup_fmap_2_strong _ _).
    + intros x y Hx Hy [= Hxy].
      eapply (NoDup_fmap_eq ach_id (achievements_new d)); [done| | |done].
      * apply list_elem_of_In, filter_In in Hx as [Hx _].
        by apply list_elem_of_In.
      * apply list_elem_of_In, filter_In in Hy as [Hy _].
        by apply list_elem_of_In.
    + eapply NoDup_fmap_1. by apply NoDup_fmap_filter.
Qed.

End AwardOnceFacts.

(** X3.  No achievement is awarded to a user twice.  When the ids of the
    catalog are distinct and [user_achievements_new] holds no pair (user,
    achievement) twice, no sequence of operations makes it hold one twice:
    the insert of [_check_achievements] never meets its [UNIQUE(user_id,
    achievement_id)] key, and the reward of an achievement is added once. *)
Theorem achievements_awarded_once (d d' : db) :
  GamificationMore.catalog_ok d ->
  GamificationMore.achievements_unique d ->
  steps d d' ->
  GamificationMore.catalog_ok d' /\ GamificationMore.achievements_unique d'.
Proof.
  intros Hc Hu Hs.
  eapply (Invariants.steps_keep
            (fun x => GamificationMore.catalog_ok x
                      /\ GamificationMore.achievements_unique x));
    [|split; [exact Hc|exact Hu]|exact Hs].
  clear. intros d1 d2.
  apply (PreservationCheck.step_kept
           (fun x => GamificationMore.catalog_ok x
                     /\ GamificationMore.achievements_unique x)); try done.
  intros ? ? ? ?. apply AwardOnceFacts.check_keeps_unique.
Qed.

Lemma achievements_awarded_once_witness :
  exists d' r,
    complete_activity Examples.one_user_db 100 1 "A01" "documentation"
      (Some 100) 0 = Some (d', r)
    /\ GamificationMore.achievements_unique d'.
Proof.
  destruct (complete_activity Examples.one_user_db 100 1 "A01"
              "documentation" (Some 100) 0) as [[d' r]|] eqn:H;
    [|vm_compute in H; discriminate H].
  exists d', r. split; [reflexivity|].
  apply (achievements_awarded_once Examples.one_user_db d').
  - apply (bool_decide_unpack _). vm_compute. reflexivity.
  - constructor.
  - eapply steps_step; [apply steps_refl|].
    eapply step_complete_activity. exact H.
Defined.

(** X4.  An achievement whose condition type is [module_completion], or a
    type the checker does not know, is never awarded: with distinct catalog
    ids, a user who does not hold such an achievement does not hold it after
    any sequence of operations, however many modules are completed.  The
    built-in "Access Control Expert" is of this kind. *)
Theorem unmet_achievements_never_awarded (d d' : db) (a : achievement)
    (user_id : Z) :
  GamificationMore.catalog_ok d ->
  a ∈ achievements_new d ->
  GamificationMore.never_met a ->
  UserAchievement user_id (ach_id a) ∉ user_achievements_new d ->
  steps d d' ->
  UserAchievement user_id (ach_id a) ∉ user_achievements_new d'.
Proof.
  intros Hc Ha Hnever Hnot Hs.
  set (P := fun x => achievements_new x = achievements_new d
                     /\ UserAchievement user_id (ach_id a)
                        ∉ user_achievements_new x).
  assert (HP : P d') ; [|by destruct HP].
  eapply (Invariants.steps_keep P); [|by split|exact Hs].
  intros d1 d2. apply (PreservationCheck.step_kept P); try done.
  intros x u x' news [Hcat Hx] H.
  apply AchievementFacts.check_achievements_effect in H
    as (Hn & Hua & _ & _ & (_ & _ & _ & _ & _ & Hcat')).
  split; [congruence|]. rewrite Hua. intros Hin.
  apply elem_of_app in Hin as [Hin|Hin]; [done|].
  apply list_elem_of_fmap in Hin as (a' & [= -> Hid] & Hin).
  subst news.
  apply AwardOnceFacts.awarded_in_catalog in Hin as (Hin & _ & s & _ & Hcond).
  rewrite Hcat in Hin.
  assert (a' = a).
  { eapply (AwardOnceFacts.NoDup_fmap_eq ach_id (achievements_new d)); done. }
  subst a'. by rewrite AwardOnceFacts.never_met_condition in Hcond.
Qed.

Lemma unmet_achievements_never_awarded_witness :
  exists d',
    steps Examples.one_user_db d'
    /\ UserAchievement 1 7 ∉ user_achievements_new d'.
Proof.
  destruct (complete_activity Examples.one_user_db 100 1 "A01" "lab"
              (Some 100) 0) as [[d1 r]|] eqn:H1;
    [|vm_compute in H1; discriminate H1].
  assert (Hs : steps Examples.one_user_db
                 (fst (Modules.complete_learning_activity d1 100 1 "A01"
                         "quiz" (Some 100) 0))).
  { eapply steps_step; [eapply steps_step; [apply steps_refl|]|].
    - eapply step_complete_activity. exact H1.
    - apply step_complete_learning_activity. }
  eexists. split; [exact Hs|].
  apply (unmet_achievements_never_awarded Examples.one_user_db _
           (Achievement 7 "Access Control Expert" "mastery" 150
              (cond_module_completion "A01")) 1).
  - apply (bool_decide_unpack _). vm_compute. reflexivity.
  - unfold Examples.one_user_db, builtin_achievements. simpl.
    do 6 (apply elem_of_cons; right). apply elem_of_cons. by left.
  - exact I.
  - intros Hin. by apply elem_of_nil in Hin.
  - exact Hs.
Defined.

(** ** Module completion *)

Module CompleteModuleFacts.
Import Db Gamification System GamificationMore GamificationFacts.

Lemma recorded_step user_id module_id d d' :
  recorded d user_id module_id = true -> step d d' ->
  recorded d' user_id module_id = true.
Proof.
  apply (Preservation.step_closed
           (fun x => recorded x user_id module_id = true)); try done.
  intros x row H. unfold recorded in *. simpl. rewrite existsb_app, H. done.
Qed.

(** What a [complete_module] that returned leaves behind: a row of the
    user with the module id, as given or as the column stores it. *)
Lemma completed_is_recorded d user_id module_id d1 r :
  complete_module d user_id module_id = Some (d1, r) ->
  has_nul module_id = false
  /\ (recorded d1 user_id module_id = true
      \/ exists m, varchar 10 module_id = Some m
                   /\ recorded d1 user_id m = true).
Proof.
  intros H. apply Preservation.complete_module_stages in H
    as (Hnul & [(Hex & -> & _)
               |(_ & m & total & d2 & d3 & res & news & _ & Hm & -> & E2 & E3
                 & _)]).
  - split; [done|]. by left.
  - split; [done|]. right. exists m. split; [done|].
    eapply (Preservation.check_achievements_closed
              (fun x => recorded x user_id m = true)); [done|done| |exact E3].
    apply update_user_xp_inv in E2 as (p & _ & -> & _).
    unfold recorded. simpl. rewrite existsb_app. simpl.
    rewrite !bool_decide_eq_true_2 by done. simpl. apply orb_true_r.
Qed.

Lemma recorded_steps user_id module_id d d' :
  recorded d user_id module_id = true -> steps d d' ->
  recorded d' user_id module_id = true.
Proof.
  intros H Hs.
  eapply (Invariants.steps_keep (fun x => recorded x user_id module_id = true));
    [|exact H|exact Hs].
  intros ? ?. apply recorded_step.
Qed.

Lemma complete_module_recorded d user_id module_id :
  has_nul module_id = false ->
  recorded d user_id module_id = true ->
  complete_module d user_id module_id = Some (d, AlreadyCompleted).
Proof.
  intros Hnul Hrec. unfold complete_module. rewrite Hnul.
  fold (recorded d user_id module_id). by rewrite Hrec.
Qed.

End CompleteModuleFacts.

(** X5.  The completion bonus of a module is given once.  Once
    [complete_module] has returned for a user and a module, whether it
    recorded the completion or found it recorded, every later call for them
    that returns, after any sequence of operations, answers "already
    completed" and leaves every table as it is: no second row, no second
    bonus, no achievement check.  A later call can only raise, on the
    [UNIQUE(user_id, module_id)] key, for a module id that the column
    stores shortened; for an id the column stores unchanged it returns. *)
Theorem module_bonus_once (d d1 d2 : db) (user_id : Z) (module_id : string)
    (r : module_result) :
  complete_module d user_id module_id = Some (d1, r) ->
  steps d1 d2 ->
  (forall d3 r3, complete_module d2 user_id module_id = Some (d3, r3) ->
     d3 = d2 /\ r3 = AlreadyCompleted)
  /\ (fits 10 module_id ->
      complete_module d2 user_id module_id = Some (d2, AlreadyCompleted)).
Proof.
  intros H Hs.
  apply CompleteModuleFacts.completed_is_recorded in H as (Hnul & H1).
  assert (H2 : GamificationMore.recorded d2 user_id module_id = true
               \/ exists m, varchar 10 module_id = Some m
                            /\ GamificationMore.recorded d2 user_id m = true).
  { destruct H1 as [H1|(m & Hm & H1)]; [left|right; exists m; split; [done|]];
      by eapply CompleteModuleFacts.recorded_steps. }
  clear H1 Hs. split.
  - intros d3 r3 H3. apply Preservation.complete_module_stages in H3
      as (_ & [(_ & -> & ->)
              |(Hex & m3 & total & d4 & d5 & res & news & Hins & _)]); [done|].
    exfalso. destruct H2 as [H2|(m & Hm & H2)].
    + unfold GamificationMore.recorded in H2. congruence.
    + apply Preservation.insert_module_completion_inv in Hins
        as (m' & Hm' & _ & _ & _ & Hex' & _).
      rewrite Hm in Hm'. injection Hm' as <-.
      unfold GamificationMore.recorded in H2. rewrite H2 in Hex'. done.
  - intros Hfit. apply CompleteModuleFacts.complete_module_recorded; [done|].
    destruct H2 as [H2|(m & Hm & H2)]; [done|].
    unfold fits in Hfit. congruence.
Qed.

Lemma module_bonus_once_witness :
  exists d1 r,
    complete_module Examples.two_day_streak_db 1 "A01" = Some (d1, r)
    /\ complete_module d1 1 "A01" = Some (d1, AlreadyCompleted).
Proof.
  destruct (complete_module Examples.two_day_streak_db 1 "A01")
    as [[d1 r]|] eqn:H; [|vm_compute in H; discriminate H].
  exists d1, r. split; [reflexivity|].
  apply (module_bonus_once Examples.two_day_streak_db d1 d1 1 "A01" r H
           (steps_refl d1)).
  reflexivity.
Defined.

(** X6.  The outcomes of [complete_module].  A module already recorded for
    the user is answered "already completed" without touching a table,
    provided the id holds no NUL character (which the query rejects).  A
    module not yet recorded makes the call raise when the user has no
    gamification row (the read in [_update_user_xp] finds no row), when the
    user is not in [users] or the user id is no [INTEGER], and when the
    [VARCHAR(10)] column rejects the module id.  When the call records the
    completion, the user is registered and has a gamification row, the
    module id was accepted, and the new total of the user, the old one plus
    the 150 XP of the bonus, fits the [INTEGER] column. *)
Theorem complete_module_outcomes (d : db) (user_id : Z) (module_id : string) :
  (has_nul module_id = true -> complete_module d user_id module_id = None)
  /\ (has_nul module_id = false ->
      GamificationMore.recorded d user_id module_id = true ->
      complete_module d user_id module_id = Some (d, AlreadyCompleted))
  /\ (GamificationMore.recorded d user_id module_id = false ->
      user_gamification d !! user_id = None
      \/ user_exists d user_id = false
      \/ int32 user_id = false
      \/ varchar 10 module_id = None ->
      complete_module d user_id module_id = None)
  /\ (forall d' r,
        complete_module d user_id module_id = Some (d', r) ->
        r <> AlreadyCompleted ->
        GamificationMore.recorded d user_id module_id = false
        /\ user_exists d user_id = true
        /\ exists m p,
             varchar 10 module_id = Some m
             /\ user_gamification d !! user_id = Some p
             /\ total_xp p + 150 <= 2147483647
             /\ GamificationMore.recorded d' user_id m = true).
Proof.
  split; [|split; [|split]].
  - intros Hnul. unfold complete_module. by rewrite Hnul.
  - apply CompleteModuleFacts.complete_module_recorded.
  - intros Hrec Hcause.
    destruct (complete_module d user_id module_id) as [[d' r]|] eqn:E;
      [exfalso|done].
    apply Preservation.complete_module_stages in E
      as (_ & [(Hex & _)
              |(_ & m & total & d1 & d2 & res & news & Hins & Hm & -> & E2 & _)]).
    { unfold GamificationMore.recorded in Hrec. congruence. }
    apply Preservation.insert_module_completion_inv in Hins
      as (m' & Hm' & Hu & Hx & _).
    apply GamificationFacts.update_user_xp_inv in E2 as (p & Hp & _).
    simpl in Hp. destruct Hcause as [?|[?|[?|?]]]; congruence.
  - intros d' r E Hr.
    pose proof E as E'.
    apply CompleteModuleFacts.completed_is_recorded in E' as (_ & Hrec').
    apply Preservation.complete_module_stages in E
      as (_ & [(_ & _ & ->)
              |(Hex & m & total & d1 & d2 & res & news & Hins & Hm & -> & E2
                & E3 & _)]); [done|].
    split; [exact Hex|].
    apply Preservation.insert_module_completion_inv in Hins
      as (m' & Hm' & _ & Hx & _ & Hex' & _).
    split; [exact Hx|].
    pose proof E2 as E2'.
    apply GamificationFacts.update_user_xp_inv in E2' as (p & Hp & Hd2 & _).
    exists m, p. split; [done|]. split; [exact Hp|].
    rewrite (GamificationFacts.update_user_xp_eq _ _ _ _ Hp) in E2.
    destruct (int32 (level _) && _ && int32 (total_xp _)) eqn:Hfit; [|done].
    apply andb_true_iff in Hfit as [_ Hfit].
    apply GamificationFacts.int32_spec in Hfit. cbn [total_xp xp_row] in Hfit.
    split; [lia|].
    assert (Hm3 : m' = m) by congruence. subst m'.
    eapply (Preservation.check_achievements_closed
              (fun x => GamificationMore.recorded x user_id m = true));
      [done|done| |exact E3].
    subst d2. unfold GamificationMore.recorded. simpl.
    rewrite existsb_app. simpl.
    rewrite !bool_decide_eq_true_2 by done. simpl. apply orb_true_r.
Qed.

(** ** The XP ledger *)

Module LedgerFacts.
Import Db Gamification Modules System GamificationMore GamificationFacts.

Lemma sum_app (l1 l2 : list Z) : sum (l1 ++ l2) = sum l1 + sum l2.
Proof. unfold sum. induction l1 as [|x l IH]; simpl; lia. Qed.

(** The balance of a user: stored total minus ledger. *)
Lemma ledger_frame d d' v :
  activity_completions d' = activity_completions d ->
  module_completions d' = module_completions d ->
  user_achievements_new d' = user_achievements_new d ->
  achievements_new d' = achievements_new d ->
  ledger d' v = ledger d v.
Proof. intros Ha Hm Hu Hc. unfold ledger. by rewrite Ha, Hm, Hu, Hc. Qed.

Lemma ledger_ac_append d row v :
  ledger (set_activity_completions (activity_completions d ++ [row]) d) v
  = ledger d v + (if decide (ac_user_id row = v) then ac_xp_earned row else 0).
Proof.
  unfold ledger. simpl. rewrite List.filter_app, fmap_app, sum_app. simpl.
  destruct (decide (ac_user_id row = v)) as [E|E].
  - rewrite bool_decide_eq_true_2 by done. unfold sum at 2. simpl. lia.
  - rewrite bool_decide_eq_false_2 by done. unfold sum at 2. simpl. lia.
Qed.

Lemma ledger_mc_append d row v :
  ledger (set_module_completions (module_completions d ++ [row]) d) v
  = ledger d v + (if decide (mc_user_id row = v) then 150 else 0).
Proof.
  unfold ledger. simpl. rewrite Invariants.count_app.
  destruct (decide (mc_user_id row = v)) as [E|E]; unfold count at 2; simpl.
  - rewrite bool_decide_eq_true_2 by done. simpl. lia.
  - rewrite bool_decide_eq_false_2 by done. simpl. lia.
Qed.

Lemma reward_of_catalog (catalog : list achievement) a :
  NoDup (ach_id <$> catalog) -> a ∈ catalog ->
  reward_of catalog (ach_id a) = Z.max 0 (ach_xp_reward a).
Proof.
  intros Hnd Hin. unfold reward_of.
  destruct (List.find _ catalog) as [b|] eqn:E.
  - apply find_some in E as [Hb Hid]. apply bool_decide_eq_true in Hid.
    assert (b = a); [|by subst].
    eapply (AwardOnceFacts.NoDup_fmap_eq ach_id catalog);
      [done|by apply list_elem_of_In|done|done].
  - exfalso. apply list_elem_of_In in Hin.
    pose proof (find_none _ _ E _ Hin) as Hf. simpl in Hf.
    by rewrite bool_decide_eq_true_2 in Hf.
Qed.

Lemma rewards_of_awarded d user_id :
  catalog_ok d ->
  sum (reward_of (achievements_new d)
         <$> (ua_achievement_id
                <$> ((fun a => UserAchievement user_id (ach_id a))
                       <$> awarded d user_id)))
  = rewards (awarded d user_id).
Proof.
  intros Hc. unfold rewards.
  assert (Hsub : forall a, a ∈ awarded d user_id -> a ∈ achievements_new d).
  { intros a Ha. by apply AwardOnceFacts.awarded_in_catalog in Ha as [? _]. }
  induction (awarded d user_id) as [|a l IH]; [done|].
  cbn [fmap list_fmap ua_achievement_id]. unfold sum in *. cbn [foldr].
  rewrite reward_of_catalog; [|done|apply Hsub; by left].
  rewrite IH; [done|]. intros b Hb. apply Hsub. by right.
Qed.

Lemma filter_rows_same user_id (l : list achievement) :
  List.filter (fun r => bool_decide (ua_user_id r = user_id))
    ((fun a => UserAchievement user_id (ach_id a)) <$> l)
  = (fun a => UserAchievement user_id (ach_id a)) <$> l.
Proof.
  induction l as [|a l IH]; [done|]. simpl.
  rewrite bool_decide_eq_true_2 by done. f_equal. exact IH.
Qed.

Lemma filter_rows_other user_id v (l : list achievement) :
  v <> user_id ->
  List.filter (fun r => bool_decide (ua_user_id r = v))
    ((fun a => UserAchievement user_id (ach_id a)) <$> l)
  = [].
Proof.
  intros Hne. induction l as [|a l IH]; [done|]. simpl.
  rewrite bool_decide_eq_false_2 by done. exact IH.
Qed.

(** The achievement check moves the ledger and the total together. *)
Lemma check_balance d user_id d' news v :
  catalog_ok d ->
  _check_achievements d user_id = Some (d', news) ->
  catalog_ok d'
  /\ stored_total d' v - ledger d' v = stored_total d v - ledger d v.
Proof.
  intros Hc H.
  apply AchievementFacts.check_achievements_effect in H
    as (Hn & Hua & Ht & Ho & (Ha & Hm & _ & _ & _ & Hcat)).
  split; [unfold catalog_ok; by rewrite Hcat|].
  unfold ledger. rewrite Ha, Hm, Hua, Hcat.
  rewrite List.filter_app, !fmap_app, sum_app.
  destruct (decide (v = user_id)) as [->|Hne].
  - rewrite Ht. subst news.
    rewrite filter_rows_same, rewards_of_awarded by done. lia.
  - assert (Hs : stored_total d' v = stored_total d v).
    { unfold stored_total. by rewrite Ho. }
    rewrite filter_rows_other by done. rewrite Hs. unfold sum at 3. simpl.
    lia.
Qed.

Lemma stored_total_profile_of d user_id :
  stored_total d user_id = total_xp (System.profile_of d user_id).
Proof.
  unfold stored_total, System.profile_of.
  by destruct (user_gamification d !! user_id).
Qed.

Lemma initialized_total d user_id v :
  stored_total (initialized d user_id) v = stored_total d v.
Proof.
  unfold initialized. destruct (user_gamification d !! user_id) eqn:E;
    [done|].
  rewrite AchievementFacts.stored_total_insert.
  destruct (decide (user_id = v)) as [<-|]; [|done].
  unfold stored_total. by rewrite E.
Qed.

Lemma update_streak_total d user_id today d' v :
  _update_streak d user_id today = Some d' ->
  stored_total d' v = stored_total d v /\ ledger d' v = ledger d v
  /\ achievements_new d' = achievements_new d.
Proof.
  intros H. apply update_streak_inv in H as (p & Hp & [[_ ->]|[_ ->]]);
    [done|].
  rewrite AchievementFacts.stored_total_insert. split; [|done].
  destruct (decide (user_id = v)) as [<-|]; [|done].
  unfold stored_total. by rewrite Hp.
Qed.

Lemma complete_activity_balance d today user_id module_id activity_type score
    time_spent d' r v :
  catalog_ok d ->
  complete_activity d today user_id module_id activity_type score time_spent
    = Some (d', r) ->
  catalog_ok d'
  /\ stored_total d' v - ledger d' v = stored_total d v - ledger d v.
Proof.
  intros Hc H.
  apply ActivityFacts.complete_activity_stages in H
    as (z & m & t & d3 & news & _ & _ & _ & _ & _ & _ & _ & E3 & E4 & _).
  pose proof (update_streak_total _ _ _ _ v E3) as (Ht3 & Hl3 & Hc3).
  assert (Hc3' : catalog_ok d3).
  { unfold catalog_ok. rewrite Hc3. simpl.
    unfold initialized. by destruct (user_gamification d !! user_id). }
  destruct (check_balance _ _ _ _ v Hc3' E4) as (Hc4 & Hb4).
  split; [done|]. rewrite Hb4, Ht3, Hl3.
  rewrite AchievementFacts.stored_total_insert.
  match goal with |- context [ledger (set_user_gamification ?g ?x) v] =>
    change (ledger (set_user_gamification g x) v) with (ledger x v) end.
  rewrite ledger_ac_append. cbn [ac_user_id ac_xp_earned].
  assert (Hl0 : ledger (initialized d user_id) v = ledger d v).
  { unfold initialized. by destruct (user_gamification d !! user_id). }
  rewrite Hl0.
  destruct (decide (user_id = v)) as [<-|Hne].
  - cbn [total_xp xp_row]. rewrite stored_total_profile_of. lia.
  - change (stored_total (set_activity_completions _ ?x) v)
      with (stored_total x v).
    rewrite initialized_total. lia.
Qed.

Lemma complete_module_balance d user_id module_id d' r v :
  catalog_ok d ->
  complete_module d user_id module_id = Some (d', r) ->
  catalog_ok d'
  /\ stored_total d' v - ledger d' v = stored_total d v - ledger d v.
Proof.
  intros Hc H.
  apply Preservation.complete_module_stages in H
    as (_ & [(_ & -> & _)
            |(_ & m & total & d1 & d2 & res & news & _ & _ & -> & E2 & E3
              & _)]); [done|].
  apply update_user_xp_inv in E2 as (p & Hp & -> & _). simpl in Hp.
  match type of E3 with _check_achievements ?d2 _ = _ =>
    assert (Hc2 : catalog_ok d2) by done;
    destruct (check_balance d2 _ _ _ v Hc2 E3) as (Hc3 & Hb) end.
  split; [done|]. rewrite Hb.
  rewrite AchievementFacts.stored_total_insert.
  match goal with |- context [ledger (set_user_gamification ?g ?x) v] =>
    change (ledger (set_user_gamification g x) v) with (ledger x v) end.
  rewrite ledger_mc_append. cbn [mc_user_id].
  destruct (decide (user_id = v)) as [<-|Hne].
  - cbn [total_xp xp_row]. unfold stored_total. rewrite Hp. lia.
  - change (stored_total (set_module_completions _ ?x) v)
      with (stored_total x v). lia.
Qed.

Lemma initialized_balance d user_id v :
  catalog_ok d ->
  catalog_ok (initialized d user_id)
  /\ stored_total (initialized d user_id) v - ledger (initialized d user_id) v
     = stored_total d v - ledger d v.
Proof.
  intros Hc. split.
  - unfold catalog_ok, initialized.
    by destruct (user_gamification d !! user_id).
  - rewrite initialized_total.
    rewrite (ledger_frame d (initialized d user_id) v);
      unfold initialized; by destruct (user_gamification d !! user_id).
Qed.

End LedgerFacts.

Module LedgerStepFacts.
Import Db Gamification Modules System GamificationMore LedgerFacts.

Lemma same_xp_tables_balance d d' v :
  user_gamification d' = user_gamification d
  /\ activity_completions d' = activity_completions d
  /\ module_completions d' = module_completions d
  /\ user_achievements_new d' = user_achievements_new d
  /\ achievements_new d' = achievements_new d ->
  catalog_ok d ->
  catalog_ok d'
  /\ stored_total d' v - ledger d' v = stored_total d v - ledger d v.
Proof.
  intros (Hg & Ha & Hm & Hu & Hc) Hok. split.
  - unfold catalog_ok. by rewrite Hc.
  - rewrite (ledger_frame d d' v) by done. unfold stored_total.
    by rewrite Hg.
Qed.

Lemma step_balance d d' v :
  catalog_ok d -> step d d' ->
  catalog_ok d'
  /\ stored_total d' v - ledger d' v = stored_total d v - ledger d v.
Proof.
  intros Hc Hs. destruct Hs as [user_id d' Hi| | | |].
  - apply ActivityFacts.initialize_user_inv in Hi as (-> & _).
    by apply initialized_balance.
  - by eapply complete_activity_balance.
  - by eapply complete_module_balance.
  - apply same_xp_tables_balance; [|done].
    by apply (Preservation.unlock_next_module_closed
                (fun x => user_gamification x = user_gamification d
                          /\ activity_completions x = activity_completions d
                          /\ module_completions x = module_completions d
                          /\ user_achievements_new x = user_achievements_new d
                          /\ achievements_new x = achievements_new d)).
  - unfold complete_learning_activity.
    destruct (complete_activity d today user_id module_id activity_type score
                time_spent) as [[d1 g]|] eqn:E1; cbn [fst].
    + destruct (complete_activity_balance _ _ _ _ _ _ _ _ _ v Hc E1)
        as (Hc1 & Hb1).
      set (d2 := if is_module_completed d1 user_id module_id then _ else d1).
      assert (H2 : catalog_ok d2
                   /\ stored_total d2 v - ledger d2 v
                      = stored_total d1 v - ledger d1 v).
      { subst d2. destruct (is_module_completed d1 user_id module_id);
          [|done].
        destruct (complete_module d1 user_id module_id) as [[d' c]|] eqn:E2;
          [|done].
        destruct (complete_module_balance _ _ _ _ _ v Hc1 E2) as (Hc' & Hb').
        rewrite <- Hb'. apply same_xp_tables_balance; [|done].
        by apply (Preservation.unlock_next_module_closed
                    (fun x => user_gamification x = user_gamification d'
                              /\ activity_completions x = activity_completions d'
                              /\ module_completions x = module_completions d'
                              /\ user_achievements_new x = user_achievements_new d'
                              /\ achievements_new x = achievements_new d')). }
      destruct H2 as (Hc2 & Hb2). rewrite <- Hb1, <- Hb2.
      apply same_xp_tables_balance; [|done].
      by apply (Preservation.record_legacy_closed
                  (fun x => user_gamification x = user_gamification d2
                            /\ activity_completions x = activity_completions d2
                            /\ module_completions x = module_completions d2
                            /\ user_achievements_new x = user_achievements_new d2
                            /\ achievements_new x = achievements_new d2)).
    + destruct (initialize_user d user_id) as [d0|] eqn:Hi; [|done].
      apply ActivityFacts.initialize_user_inv in Hi as (-> & _).
      by apply initialized_balance.
Qed.

End LedgerStepFacts.

(** X7.  Every XP of a stored total is accounted for by a row.  With
    distinct catalog ids, if the total of every user equals the XP of the
    user's activity rows, plus 150 for each of the user's module rows, plus
    the positive rewards of the user's achievement rows (0 for a user without
    a gamification row), then the same holds after any sequence of
    operations.  It holds on empty tables. *)
Theorem xp_ledger_balanced (d d' : db) :
  GamificationMore.catalog_ok d ->
  GamificationMore.balanced d ->
  steps d d' ->
  GamificationMore.catalog_ok d' /\ GamificationMore.balanced d'.
Proof.
  intros Hc Hb Hs. induction Hs as [|d1 d2 Hs IH Hstep]; [done|].
  destruct IH as (Hc1 & Hb1). split.
  - by destruct (LedgerStepFacts.step_balance d1 d2 0 Hc1 Hstep).
  - intros v.
    destruct (LedgerStepFacts.step_balance d1 d2 v Hc1 Hstep) as (_ & H).
    specialize (Hb1 v). lia.
Qed.

Lemma xp_ledger_balanced_witness :
  exists d',
    steps Examples.one_user_db d'
    /\ GamificationMore.stored_total d' 1 = GamificationMore.ledger d' 1.
Proof.
  destruct (complete_activity Examples.one_user_db 100 1 "A01" "lab"
              (Some 100) 0) as [[d1 r]|] eqn:H1;
    [|vm_compute in H1; discriminate H1].
  assert (Hs : steps Examples.one_user_db
                 (fst (Modules.complete_learning_activity d1 100 1 "A01"
                         "quiz" (Some 100) 0))).
  { eapply steps_step; [eapply steps_step; [apply steps_refl|]|].
    - eapply step_complete_activity. exact H1.
    - apply step_complete_learning_activity. }
  eexists. split; [exact Hs|].
  apply (xp_ledger_balanced Examples.one_user_db _).
  - apply (bool_decide_unpack _). vm_compute. reflexivity.
  - intros v. reflexivity.
  - exact Hs.
Defined.

(** ** Streaks over several completions *)

Module DailyFacts.
Import Db Gamification System GamificationMore.

Lemma profile_of_lookup d user_id p :
  user_gamification d !! user_id = Some p -> profile_of d user_id = p.
Proof. intros H. unfold profile_of. by rewrite H. Qed.

(** A run of daily completions that continues a streak. *)
Lemma daily_continues acts : forall d day user_id d',
  last_activity_date (profile_of d user_id) = Some (day - 1) ->
  complete_daily d day user_id acts = Some d' ->
  streak (profile_of d' user_id)
  = streak (profile_of d user_id) + Z.of_nat (length acts)
  /\ last_activity_date (profile_of d' user_id)
     = Some (day - 1 + Z.of_nat (length acts))
  /\ max_streak (profile_of d user_id) <= max_streak (profile_of d' user_id)
  /\ (acts <> [] ->
      max_streak (profile_of d' user_id)
      = Z.max (max_streak (profile_of d user_id))
          (streak (profile_of d user_id) + Z.of_nat (length acts))).
Proof.
  induction acts as [|[[[m ty] score] t] rest IH];
    intros d day user_id d' Hlast E.
  - cbn [complete_daily] in E. injection E as <-. cbn [length].
    rewrite !Z.add_0_r. split; [done|]. split; [done|]. split; [lia|done].
  - cbn [complete_daily] in E.
    destruct (complete_activity d day user_id m ty score t) as [[d1 r]|] eqn:H;
      [|done].
    cbn [mbind option_bind] in E.
    destruct (StreakFacts.complete_activity_streak _ _ _ _ _ _ _ _ _ H)
      as (p1 & Hp1 & _ & Hnew).
    destruct Hnew as (Hs & Hm & Hl).
    { rewrite Hlast. intros [= E']. lia. }
    apply profile_of_lookup in Hp1. subst p1.
    cbn [streak max_streak streak_row] in Hs, Hm.
    rewrite bool_decide_eq_true_2 in Hs, Hm by done.
    destruct (IH d1 (day + 1) user_id d') as (Hs' & Hl' & Hle & Hm');
      [rewrite Hl; f_equal; lia|exact E|].
    rewrite Hs', Hl', Hs.
    cbn [length]. split; [lia|]. split; [f_equal; lia|]. split; [lia|].
    intros _. destruct rest as [|a rest'].
    + cbn [complete_daily] in E. injection E as <-. rewrite Hm.
      cbn [length]. lia.
    + rewrite Hm' by done. rewrite Hs, Hm. cbn [length]. lia.
Qed.

Lemma complete_daily_keeps_row acts : forall d day user_id d',
  is_Some (user_gamification d !! user_id) ->
  complete_daily d day user_id acts = Some d' ->
  is_Some (user_gamification d' !! user_id).
Proof.
  induction acts as [|[[[m ty] score] t] rest IH]; intros d day user_id d' Hu E.
  - cbn in E. by injection E as <-.
  - cbn [complete_daily] in E.
    destruct (complete_activity d day user_id m ty score t) as [[d2 r2]|] eqn:H2;
      [|done].
    cbn [mbind option_bind] in E.
    destruct (StreakFacts.complete_activity_streak _ _ _ _ _ _ _ _ _ H2)
      as (p2 & Hp2 & _).
    eapply IH; [|exact E]. eauto.
Qed.

Lemma multiplier_of_result d today user_id module_id activity_type score
    time_spent d' r :
  complete_activity d today user_id module_id activity_type score time_spent
    = Some (d', r) ->
  streak_multiplier r
  = PyFloat.of_decimal
      (Spec.multiplier_tenths (streak (profile_of d user_id))) 10.
Proof.
  intros H. apply ActivityFacts.complete_activity_stages in H
    as (z & m & t & d3 & news & _ & _ & _ & _ & _ & _ & _ & _ & _ & ->).
  reflexivity.
Qed.

End DailyFacts.

(** X8.  A streak counts consecutive days.  When a user whose last
    activity is neither today nor yesterday (or who has none) completes at
    least one activity a day on [n] consecutive days, whatever the
    activities, and every one of the calls returns, the stored streak after
    the last day is [n], the longest streak is the maximum of its old value
    and [n], and the last-activity date is the last day. *)
Theorem streak_counts_consecutive_days (d : db) (day user_id : Z)
    (acts : list (string * string * option Z * Z)) (d' : db) :
  acts <> [] ->
  last_activity_date (profile_of d user_id) <> Some day ->
  last_activity_date (profile_of d user_id) <> Some (day - 1) ->
  GamificationMore.complete_daily d day user_id acts = Some d' ->
  exists p',
    user_gamification d' !! user_id = Some p'
    /\ streak p' = Z.of_nat (length acts)
    /\ max_streak p'
       = Z.max (max_streak (profile_of d user_id)) (Z.of_nat (length acts))
    /\ last_activity_date p' = Some (day + Z.of_nat (length acts) - 1).
Proof.
  intros Hne Hday Hyes E. destruct acts as [|[[[m ty] score] t] rest]; [done|].
  cbn [GamificationMore.complete_daily] in E.
  destruct (complete_activity d day user_id m ty score t) as [[d1 r]|] eqn:H;
    [|done].
  cbn [mbind option_bind] in E.
  destruct (StreakFacts.complete_activity_streak _ _ _ _ _ _ _ _ _ H)
    as (p1 & Hp1 & _ & Hnew).
  destruct (Hnew Hday) as (Hs & Hm & Hl).
  cbn [streak max_streak streak_row] in Hs, Hm.
  rewrite bool_decide_eq_false_2 in Hs, Hm by done.
  pose proof (DailyFacts.profile_of_lookup _ _ _ Hp1) as Hprof.
  destruct (DailyFacts.daily_continues rest d1 (day + 1) user_id d')
    as (Hs' & Hl' & Hle & Hm'); [rewrite Hprof, Hl; f_equal; lia|exact E|].
  rewrite Hprof in Hs', Hle, Hm'.
  assert (Hrow : is_Some (user_gamification d' !! user_id))
    by (eapply DailyFacts.complete_daily_keeps_row; [|exact E]; eauto).
  destruct Hrow as [p' Hp']. exists p'.
  split; [exact Hp'|].
  rewrite (DailyFacts.profile_of_lookup _ _ _ Hp') in Hs', Hl', Hle, Hm'.
  rewrite Hs', Hl', Hs. cbn [length].
  split; [lia|]. split; [|f_equal; lia].
  destruct rest as [|a rest'].
  - cbn [GamificationMore.complete_daily] in E. injection E as <-.
    rewrite Hp1 in Hp'. injection Hp' as <-. rewrite Hm. cbn [length]. lia.
  - rewrite Hm' by done. rewrite Hs, Hm. cbn [length]. lia.
Qed.

Lemma streak_counts_consecutive_days_witness :
  exists d' p',
    GamificationMore.complete_daily Examples.one_user_db 100 1
      [("A01", "documentation", Some 0, 0); ("A01", "lab", Some 0, 0);
       ("A02", "quiz", Some 0, 0)] = Some d'
    /\ user_gamification d' !! 1 = Some p'
    /\ streak p' = 3.
Proof.
  destruct (GamificationMore.complete_daily Examples.one_user_db 100 1
              [("A01", "documentation", Some 0, 0); ("A01", "lab", Some 0, 0);
               ("A02", "quiz", Some 0, 0)]) as [d'|] eqn:E;
    [|vm_compute in E; discriminate E].
  destruct (streak_counts_consecutive_days Examples.one_user_db 100 1
              [("A01", "documentation", Some 0, 0); ("A01", "lab", Some 0, 0);
               ("A02", "quiz", Some 0, 0)] d'
              ltac:(discriminate) ltac:(discriminate) ltac:(discriminate) E)
    as (p' & Hp & Hs & _).
  exists d', p'. split; [reflexivity|]. split; [exact Hp|exact Hs].
Defined.

(** X9.  A second completion on the same day, when both calls return,
    leaves the streak columns as the first one set them, and it is
    multiplied with the streak the first one stored: its multiplier is the
    entry of the table (1.0 below 3 days, 1.1 from 3, 1.2 from 7, 1.3 from
    14, 1.5 from 30) for the updated streak. *)
Theorem same_day_repeat (d : db) (today user_id : Z)
    (module1 type1 : string) (score1 : option Z) (time1 : Z)
    (module2 type2 : string) (score2 : option Z) (time2 : Z)
    (d1 d2 : db) (r1 r2 : activity_result) :
  complete_activity d today user_id module1 type1 score1 time1 = Some (d1, r1) ->
  complete_activity d1 today user_id module2 type2 score2 time2
    = Some (d2, r2) ->
  exists p1 p2,
    user_gamification d1 !! user_id = Some p1
    /\ user_gamification d2 !! user_id = Some p2
    /\ last_activity_date p1 = Some today
    /\ streak p2 = streak p1 /\ max_streak p2 = max_streak p1
    /\ last_activity_date p2 = Some today
    /\ streak_multiplier r2
       = PyFloat.of_decimal
           (if 30 <=? streak p1 then 15
            else if 14 <=? streak p1 then 13
            else if 7 <=? streak p1 then 12
            else if 3 <=? streak p1 then 11
            else 10) 10.
Proof.
  intros H1 H2.
  destruct (StreakFacts.complete_activity_streak _ _ _ _ _ _ _ _ _ H1)
    as (p1 & Hp1 & Hsame1 & Hnew1).
  assert (Hl1 : last_activity_date p1 = Some today).
  { destruct (decide (last_activity_date (profile_of d user_id) = Some today))
      as [E|E]; [by destruct (Hsame1 E) as (_ & _ & ?)
                |by destruct (Hnew1 E) as (_ & _ & ?)]. }
  destruct (StreakFacts.complete_activity_streak _ _ _ _ _ _ _ _ _ H2)
    as (p2 & Hp2 & Hsame2 & _).
  pose proof (DailyFacts.profile_of_lookup _ _ _ Hp1) as Hprof.
  rewrite Hprof in Hsame2. destruct (Hsame2 Hl1) as (Hs & Hm & Hl).
  exists p1, p2.
  repeat (split; [done|]).
  rewrite (DailyFacts.multiplier_of_result _ _ _ _ _ _ _ _ _ H2), Hprof.
  reflexivity.
Qed.

Lemma same_day_repeat_witness :
  exists d1 r1 d2 r2 p2,
    complete_activity Examples.two_day_streak_db 100 1 "A01" "documentation"
      (Some 0) 0 = Some (d1, r1)
    /\ complete_activity d1 100 1 "A01" "lab" (Some 0) 0 = Some (d2, r2)
    /\ user_gamification d2 !! 1 = Some p2
    /\ streak p2 = 3
    /\ streak_multiplier r1 = PyFloat.of_decimal 10 10
    /\ streak_multiplier r2 = PyFloat.of_decimal 11 10.
Proof.
  destruct (complete_activity Examples.two_day_streak_db 100 1 "A01"
              "documentation" (Some 0) 0) as [[d1 r1]|] eqn:H1;
    [|vm_compute in H1; discriminate H1].
  destruct (complete_activity d1 100 1 "A01" "lab" (Some 0) 0)
    as [[d2 r2]|] eqn:H2;
    [|vm_compute in H1; injection H1 as <- _; vm_compute in H2;
      discriminate H2].
  destruct (same_day_repeat _ _ _ _ _ _ _ _ _ _ _ _ _ _ _ H1 H2)
    as (p1 & p2 & Hp1 & Hp2 & _ & Hs & _ & _ & Hm).
  exists d1, r1, d2, r2, p2.
  split; [reflexivity|]. split; [exact H2|]. split; [exact Hp2|].
  vm_compute in H1. injection H1 as <- <-.
  vm_compute in Hp1. injection Hp1 as <-.
  split; [exact Hs|]. split; [reflexivity|]. exact Hm.
Defined.

(** ** Completing and unlocking modules *)

Module ModuleFacts.
Import Db Gamification Modules System ModulesMore.

Lemma remove_dups_two {B} `{EqDecision B} (l : list B) x y :
  x ∈ l -> y ∈ l -> x <> y -> (2 <= length (remove_dups l))%nat.
Proof.
  intros Hx Hy Hne.
  apply elem_of_remove_dups in Hx, Hy.
  destruct (remove_dups l) as [|a [|b l']] eqn:E; simpl; [| |lia].
  - by apply elem_of_nil in Hx.
  - apply list_elem_of_singleton in Hx, Hy. congruence.
Qed.

Lemma remove_dups_one {B} `{EqDecision B} (l : list B) c :
  Forall (fun x => x = c) l -> (length (remove_dups l) <= 1)%nat.
Proof.
  intros HF. pose proof (NoDup_remove_dups l) as Hnd.
  assert (Hall : Forall (fun x => x = c) (remove_dups l)).
  { rewrite Forall_forall in *. intros x Hx. apply HF.
    by apply elem_of_remove_dups. }
  destruct (remove_dups l) as [|a [|b l']]; simpl; [lia|lia|].
  apply Forall_cons in Hall as [-> Hall]. apply Forall_cons in Hall as [-> _].
  apply NoDup_cons in Hnd as [Hnd _]. exfalso. apply Hnd. by left.
Qed.

Lemma logged_in_module_step user_id module_id activity_type d d' :
  logged_in_module d user_id module_id activity_type = true -> step d d' ->
  logged_in_module d' user_id module_id activity_type = true.
Proof.
  apply (Preservation.step_closed
           (fun x => logged_in_module x user_id module_id activity_type = true));
    try done.
  intros x row H. unfold logged_in_module in *. simpl.
  by rewrite existsb_app, H.
Qed.

(** Two logged types make the module completed. *)
Lemma two_types_completed d user_id module_id t1 t2 :
  t1 <> t2 ->
  logged_in_module d user_id module_id t1 = true ->
  logged_in_module d user_id module_id t2 = true ->
  is_module_completed d user_id module_id = true.
Proof.
  intros Hne H1 H2. unfold is_module_completed.
  apply orb_true_iff. right. apply Z.leb_le.
  etransitivity; [|apply Z.le_max_l].
  unfold count_distinct. apply (Nat2Z.inj_le 2).
  assert (Hin : forall t, logged_in_module d user_id module_id t = true ->
            t ∈ List.map ac_activity_type
                  (List.filter
                     (fun r => bool_decide (ac_user_id r = user_id)
                               && bool_decide (ac_module_id r = module_id))
                     (activity_completions d))).
  { intros t Ht. apply existsb_exists in Ht as (r & Hr & Hf).
    apply andb_true_iff in Hf as [Hf Hty]. apply bool_decide_eq_true in Hty.
    apply list_elem_of_In, in_map_iff. exists r. split; [done|].
    by apply filter_In. }
  apply (remove_dups_two _ t1 t2);
    [apply Hin; exact H1|apply Hin; exact H2|exact Hne].
Qed.

Lemma complete_activity_logged d today user_id module_id activity_type score
    time_spent d' r :
  fits 10 module_id -> fits 50 activity_type ->
  complete_activity d today user_id module_id activity_type score time_spent
    = Some (d', r) ->
  logged_in_module d' user_id module_id activity_type = true
  /\ forall t, logged_in_module d user_id module_id t = true ->
               logged_in_module d' user_id module_id t = true.
Proof.
  intros Hfm Hft H. apply LogFacts.complete_activity_logs in H
    as (z & m & t & _ & Hm & Ht & Ha & _).
  unfold fits in Hfm, Hft. rewrite Hfm in Hm. rewrite Hft in Ht.
  injection Hm as <-. injection Ht as <-.
  unfold logged_in_module. rewrite Ha. split.
  - rewrite existsb_app. simpl. rewrite !bool_decide_eq_true_2 by done.
    simpl. apply orb_true_r.
  - intros t Ht. by rewrite existsb_app, Ht.
Qed.

Lemma complete_learning_activity_logged d today user_id module_id
    activity_type score time_spent :
  fits 10 module_id -> fits 50 activity_type ->
  snd (complete_learning_activity d today user_id module_id activity_type
         score time_spent) = true ->
  logged_in_module
    (fst (complete_learning_activity d today user_id module_id activity_type
            score time_spent)) user_id module_id activity_type = true.
Proof.
  intros Hfm Hft. unfold complete_learning_activity.
  destruct (complete_activity d today user_id module_id activity_type score
              time_spent) as [[d1 r]|] eqn:H; [|done].
  intros _. cbn [fst].
  pose proof (complete_activity_logged _ _ _ _ _ _ _ _ _ Hfm Hft H) as [H1 _].
  apply (Preservation.record_legacy_closed
           (fun x => logged_in_module x user_id module_id activity_type = true));
    [done|done|].
  destruct (is_module_completed d1 user_id module_id); [|done].
  destruct (complete_module d1 user_id module_id) as [[d2 c]|] eqn:E2; [|done].
  apply (Preservation.unlock_next_module_closed
           (fun x => logged_in_module x user_id module_id activity_type = true));
    [done|].
  eapply (Preservation.complete_module_closed
            (fun x => logged_in_module x user_id module_id activity_type = true));
    [done|done| | |exact E2]; done.
Qed.

Lemma completed_returns d today user_id module_id activity_type score
    time_spent :
  snd (complete_learning_activity d today user_id module_id activity_type
         score time_spent) = true ->
  exists d1 r,
    complete_activity d today user_id module_id activity_type score time_spent
    = Some (d1, r).
Proof.
  unfold complete_learning_activity.
  destruct (complete_activity d today user_id module_id activity_type score
              time_spent) as [[d1 r]|]; [eauto|done].
Qed.

(** A module with a next one is one of the list: [VARCHAR(10)] holds it. *)
Lemma next_module_fits m n : get_next_module_id m = Some n -> fits 10 m.
Proof.
  intros H. destruct (decide (m ∈ modules)) as [Hin|Hnin].
  - unfold modules in Hin.
    repeat (apply elem_of_cons in Hin as [->|Hin]; [reflexivity|]).
    by apply elem_of_nil in Hin.
  - exfalso. unfold get_next_module_id in H.
    assert (Hi : forall l, m ∉ l -> index l m = None).
    { induction l as [|y l IH]; [done|]. intros Hl. cbn [index].
      rewrite bool_decide_eq_false_2.
      - rewrite IH; [done|]. intros ?. apply Hl. by right.
      - intros ->. apply Hl. by left. }
    by rewrite Hi in H.
Qed.

End ModuleFacts.

(** X10.  Two activities of different types in a module unlock the next
    one.  Take two activity types that the [VARCHAR(50)] column stores
    unchanged.  After [complete_learning_activity] has answered [True] for
    an activity of the first type in a module, and whatever operations
    follow, a [complete_learning_activity] for the second type in that
    module that answers [True] finds the module completed: its
    [complete_activity] returned, [is_module_completed] is true on the state
    the check reads, and the next module of the fixed order has its
    [user_progress] row afterwards, unless the call of [complete_module]
    raised (an exception that [complete_learning_activity] swallows). *)
Theorem two_activity_types_unlock (d d1' : db) (today1 today2 user_id : Z)
    (module_id type1 type2 next : string) (score1 : option Z) (time1 : Z)
    (score2 : option Z) (time2 : Z) :
  type1 <> type2 ->
  fits 50 type1 -> fits 50 type2 ->
  get_next_module_id module_id = Some next ->
  snd (complete_learning_activity d today1 user_id module_id type1 score1
         time1) = true ->
  steps
    (fst (complete_learning_activity d today1 user_id module_id type1 score1
            time1)) d1' ->
  snd (complete_learning_activity d1' today2 user_id module_id type2 score2
         time2) = true ->
  exists da r,
    complete_activity d1' today2 user_id module_id type2 score2 time2
      = Some (da, r)
    /\ is_module_completed da user_id module_id = true
    /\ (is_Some (complete_module da user_id module_id) ->
        unlocked
          (fst (complete_learning_activity d1' today2 user_id module_id type2
                  score2 time2)) user_id next = true).
Proof.
  intros Hne Hf1 Hf2 Hnext Hok1 Hs Hok2.
  pose proof (ModuleFacts.next_module_fits _ _ Hnext) as Hfm.
  assert (H1 : ModulesMore.logged_in_module d1' user_id module_id type1 = true).
  { eapply (Invariants.steps_keep
              (fun x => ModulesMore.logged_in_module x user_id module_id type1
                        = true)); [| |exact Hs].
    - intros ? ?. apply ModuleFacts.logged_in_module_step.
    - by apply ModuleFacts.complete_learning_activity_logged. }
  destruct (ModuleFacts.completed_returns _ _ _ _ _ _ _ Hok2) as (da & r & H).
  exists da, r. split; [exact H|].
  destruct (ModuleFacts.complete_activity_logged _ _ _ _ _ _ _ _ _ Hfm Hf2 H)
    as [H2 Hkeep].
  assert (Hdone : is_module_completed da user_id module_id = true).
  { eapply (ModuleFacts.two_types_completed da user_id module_id type1 type2);
      [done|by apply Hkeep|done]. }
  split; [exact Hdone|]. intros Hsome.
  destruct (UnlockFacts.unlock_iff_completed d1' today2 user_id module_id
              type2 score2 time2 next da r Hnext H (fun _ => Hsome))
    as (_ & Hun).
  rewrite Hun, Hdone. apply orb_true_r.
Qed.

Lemma two_activity_types_unlock_witness :
  unlocked
    (fst (complete_learning_activity
            (fst (complete_learning_activity Examples.one_user_db 100 1 "A03"
                    "lab" (Some 0) 0)) 100 1 "A03" "quiz" (Some 0) 0)) 1 "A04"
  = true.
Proof.
  destruct (two_activity_types_unlock Examples.one_user_db _ 100 100 1 "A03"
              "lab" "quiz" "A04" (Some 0) 0 (Some 0) 0 ltac:(discriminate)
              eq_refl eq_refl eq_refl ltac:(vm_compute; reflexivity)
              (steps_refl _) ltac:(vm_compute; reflexivity))
    as (da & r & Hca & _ & H).
  apply H. vm_compute in Hca. injection Hca as <- _. vm_compute. eauto.
Defined.

Module SingleTypeFacts.
Import Db Gamification Modules System ModulesMore.

Lemma count_distinct_one {A} (col : A -> string) (f : A -> bool) (l : list A) c :
  Forall (fun r => f r = true -> col r = c) l ->
  count_distinct col f l <= 1.
Proof.
  intros HF. unfold count_distinct. apply (Nat2Z.inj_le _ 1).
  apply (ModuleFacts.remove_dups_one _ c).
  apply Forall_forall. intros x Hx.
  apply list_elem_of_In, in_map_iff in Hx as (r & <- & Hr).
  apply filter_In in Hr as [Hin Hf]. rewrite Forall_forall in HF.
  apply HF; [by apply list_elem_of_In|done].
Qed.

Lemma only_type_not_completed d user_id module_id activity_type :
  only_type_stored d user_id module_id activity_type ->
  is_module_completed d user_id module_id = false.
Proof.
  intros (Hac & Hla & Hat). unfold is_module_completed.
  rewrite (proj2 (LogFacts.count_zero_iff _ (user_assessment_attempts d))).
  2:{ eapply Forall_impl; [exact Hat|]. intros r Hr. simpl.
      destruct (bool_decide (at_user_id r = user_id)) eqn:E1; [|done].
      destruct (bool_decide (at_module_id r = module_id)) eqn:E2; [|done].
      destruct (at_is_completed r) eqn:E3; [|done]. simpl.
      apply bool_decide_eq_true in E1, E2. apply Z.leb_gt. by apply Hr. }
  simpl. apply Z.leb_gt.
  assert (count_distinct ac_activity_type
            (fun r => bool_decide (ac_user_id r = user_id)
                      && bool_decide (ac_module_id r = module_id))
            (activity_completions d) <= 1).
  { apply (count_distinct_one _ _ _ (stored_type activity_type)).
    eapply Forall_impl; [exact Hac|]. intros r Hr Hf. simpl in Hf.
    apply andb_true_iff in Hf as [E1 E2].
    apply bool_decide_eq_true in E1, E2. by apply Hr. }
  assert (count_distinct la_activity_type
            (fun r => bool_decide (la_user_id r = user_id)
                      && bool_decide (la_module_id r = module_id)
                      && la_completed r)
            (learning_activities d) <= 1).
  { apply (count_distinct_one _ _ _ activity_type).
    eapply Forall_impl; [exact Hla|]. intros r Hr Hf. simpl in Hf.
    apply andb_true_iff in Hf as [Hf _].
    apply andb_true_iff in Hf as [E1 E2].
    apply bool_decide_eq_true in E1, E2. by apply Hr. }
  lia.
Qed.

(** On a state whose stored types fit their column, the rows of one type
    are rows of the type as stored. *)
Lemma only_type_is_stored d user_id module_id activity_type :
  types_fit d ->
  only_type d user_id module_id activity_type ->
  only_type_stored d user_id module_id activity_type.
Proof.
  intros Hfit (Hac & Hla & Hat). split; [|done].
  unfold types_fit in Hfit. rewrite Forall_forall in *.
  intros r Hr Hu Hm. pose proof (Hac r Hr Hu Hm) as Ht.
  pose proof (Hfit r Hr) as Hf. rewrite Ht in Hf. unfold fits in Hf.
  unfold stored_type. by rewrite Hf.
Qed.

Lemma only_type_complete_learning_activity d today user_id module_id
    activity_type score time_spent :
  only_type_stored d user_id module_id activity_type ->
  only_type_stored
    (fst (complete_learning_activity d today user_id module_id activity_type
            score time_spent)) user_id module_id activity_type
  /\ user_progress
       (fst (complete_learning_activity d today user_id module_id
               activity_type score time_spent)) = user_progress d.
Proof.
  intros (Hac & Hla & Hat). unfold complete_learning_activity.
  destruct (complete_activity d today user_id module_id activity_type score
              time_spent) as [[d1 r]|] eqn:H; cbn [fst].
  - pose proof (LogFacts.complete_activity_logs _ _ _ _ _ _ _ _ _ H)
      as (z & m & t & _ & _ & Ht & La & _ & Lt & Ll & Lp & _).
    assert (H1 : only_type_stored d1 user_id module_id activity_type).
    { unfold only_type_stored. rewrite La, Lt, Ll. split; [|done].
      apply Forall_app. split; [done|]. repeat constructor.
      intros _ _. simpl. unfold stored_type. by rewrite Ht. }
    rewrite (only_type_not_completed _ _ _ _ H1).
    split; [|by rewrite UnlockFacts.record_legacy_progress].
    destruct H1 as (Hac1 & Hla1 & Hat1).
    unfold record_legacy. case_match; [done|].
    unfold only_type_stored. simpl. split; [done|]. split; [|done].
    apply Forall_app. split; [done|]. by repeat constructor.
  - destruct (initialize_user d user_id) as [d0|] eqn:Hi; [|done].
    apply ActivityFacts.initialize_user_inv in Hi as (-> & _). simpl.
    unfold only_type_stored, initialized.
    by destruct (user_gamification d !! user_id).
Qed.

End SingleTypeFacts.

(** X11.  One activity type never completes a module.  When all the
    completions of a user in a module are of one activity type and the user
    has no passed attempt there (a new user, for one), repeating that
    activity any number of times through [complete_learning_activity] leaves
    the module not completed and [user_progress] as it was: nothing gets
    unlocked, whatever the scores and whether the calls succeed or not.  The
    stored activity types are taken to be ones the [VARCHAR(50)] column
    holds, as they are in every state of the tables. *)
Theorem one_activity_type_never_completes (d : db) (user_id : Z)
    (module_id activity_type : string) (runs : list (Z * option Z * Z)) :
  ModulesMore.types_fit d ->
  ModulesMore.only_type d user_id module_id activity_type ->
  is_module_completed
    (ModulesMore.repeat_activity d user_id module_id activity_type runs)
    user_id module_id = false
  /\ user_progress
       (ModulesMore.repeat_activity d user_id module_id activity_type runs)
     = user_progress d.
Proof.
  intros Hfit H.
  apply SingleTypeFacts.only_type_is_stored in H; [|exact Hfit]. clear Hfit.
  revert d H. induction runs as [|[[today score] t] rest IH]; intros d H.
  - split; [|done]. by eapply SingleTypeFacts.only_type_not_completed.
  - cbn [ModulesMore.repeat_activity].
    destruct (SingleTypeFacts.only_type_complete_learning_activity d today
                user_id module_id activity_type score t H) as (H1 & Hp).
    destruct (IH _ H1) as (Hc & Hp'). split; [done|]. by rewrite Hp', Hp.
Qed.

Lemma one_activity_type_never_completes_witness :
  is_module_completed
    (ModulesMore.repeat_activity Examples.one_user_db 1 "A01" "lab"
       [(100, Some 100, 0); (101, Some 100, 0); (102, Some 100, 0)]) 1 "A01"
  = false.
Proof.
  apply (one_activity_type_never_completes Examples.one_user_db 1 "A01" "lab").
  - constructor.
  - repeat split; constructor.
Defined.

(** X12.  [get_next_module_id] walks the fixed order A01, ..., A10: it
    answers the entry after its argument, so never A01 and never its
    argument; it answers [None], without raising, for A10 and for any id
    that is not in the list; and it is injective. *)
Theorem next_module_is_successor :
  (forall m n, get_next_module_id m = Some n <->
     exists i, modules !! i = Some m /\ modules !! S i = Some n)
  /\ (forall m, get_next_module_id m = None <-> m = "A10" \/ m ∉ modules)
  /\ (forall m n, get_next_module_id m = Some n -> n <> "A01" /\ n <> m)
  /\ (forall m1 m2 n, get_next_module_id m1 = Some n ->
        get_next_module_id m2 = Some n -> m1 = m2).
Proof.
  assert (Hcases : forall m,
            (m ∈ modules /\
             ((m = "A01" /\ get_next_module_id m = Some "A02")
              \/ (m = "A02" /\ get_next_module_id m = Some "A03")
              \/ (m = "A03" /\ get_next_module_id m = Some "A04")
              \/ (m = "A04" /\ get_next_module_id m = Some "A05")
              \/ (m = "A05" /\ get_next_module_id m = Some "A06")
              \/ (m = "A06" /\ get_next_module_id m = Some "A07")
              \/ (m = "A07" /\ get_next_module_id m = Some "A08")
              \/ (m = "A08" /\ get_next_module_id m = Some "A09")
              \/ (m = "A09" /\ get_next_module_id m = Some "A10")
              \/ (m = "A10" /\ get_next_module_id m = None)))
            \/ ((m ∉ modules) /\ get_next_module_id m = None)).
  { intros m. destruct (decide (m ∈ modules)) as [Hin|Hnin].
    - left. split; [done|]. unfold modules in Hin.
      repeat (apply elem_of_cons in Hin as [->|Hin];
              [solve [repeat first
                        [ split; [reflexivity|vm_compute; reflexivity]
                        | left; split; [reflexivity|vm_compute; reflexivity]
                        | right ]]|]).
      by apply elem_of_nil in Hin.
    - right. split; [done|]. unfold get_next_module_id.
      assert (Hi : forall l, m ∉ l -> index l m = None).
      { induction l as [|y l IH]; [done|]. intros Hl. cbn [index].
        rewrite bool_decide_eq_false_2.
        - rewrite IH; [done|]. intros ?. apply Hl. by right.
        - intros ->. apply Hl. by left. }
      by rewrite Hi. }
  split; [|split; [|split]].
  - intros m n. split.
    + intros H. destruct (Hcases m) as [[_ Hm]|[_ Hm]]; [|congruence].
      repeat (destruct Hm as [[-> Hm]|Hm];
              [rewrite Hm in H; injection H as <-;
               first [by exists 0%nat|by exists 1%nat|by exists 2%nat
                     |by exists 3%nat|by exists 4%nat|by exists 5%nat
                     |by exists 6%nat|by exists 7%nat|by exists 8%nat]|]).
      destruct Hm as [_ Hm]. congruence.
    + intros (i & Hi & Hn).
      do 10 (destruct i as [|i];
             [cbn in Hi, Hn; injection Hi as <-;
              first [by injection Hn as <- | done]|]).
      done.
  - intros m. split.
    + intros H. destruct (Hcases m) as [[_ Hm]|[Hm _]]; [|by right].
      repeat (destruct Hm as [[_ Hm]|Hm]; [congruence|]).
      destruct Hm as [-> _]. by left.
    + intros [->|Hm]; [done|].
      destruct (Hcases m) as [[Hin _]|[_ H]]; done.
  - intros m n H. destruct (Hcases m) as [[_ Hm]|[_ Hm]]; [|congruence].
    repeat (destruct Hm as [[-> Hm]|Hm];
            [rewrite Hm in H; injection H as <-; by split|]).
    destruct Hm as [_ Hm]. congruence.
  - intros m1 m2 n H1 H2.
    destruct (Hcases m1) as [[_ Hm1]|[_ Hm1]]; [|congruence].
    destruct (Hcases m2) as [[_ Hm2]|[_ Hm2]]; [|congruence].
    repeat (destruct Hm1 as [[-> Hm1]|Hm1];
            [rewrite Hm1 in H1; injection H1 as <-;
             repeat (destruct Hm2 as [[-> Hm2]|Hm2];
                     [by rewrite Hm2 in H2|]);
             destruct Hm2 as [_ Hm2]; congruence|]).
    destruct Hm1 as [_ Hm1]. congruence.
Qed.

(** ** Progress rows, legacy XP, resets and attempts *)

Module ProgressFacts.
Import Db Gamification Modules System ModulesMore.

Lemma NoDup_filter_fmap {A B} (g : A -> B) (f : A -> bool) (l : list A) :
  NoDup (g <$> l) -> NoDup (g <$> List.filter f l).
Proof. apply AwardOnceFacts.NoDup_fmap_filter. Qed.

Lemma has_progress_elem d user_id module_id :
  has_progress d user_id module_id = false ->
  (user_id, module_id)
  ∉ ((fun r => (up_user_id r, up_module_id r)) <$> user_progress d).
Proof.
  intros H Hin. apply list_elem_of_fmap in Hin as (r & [= Hu Hm] & Hin).
  apply not_true_iff_false in H. apply H. apply existsb_exists.
  exists r. split; [by apply list_elem_of_In|].
  by rewrite !bool_decide_eq_true_2.
Qed.

Lemma progress_unique_append d user_id module_id xp :
  has_progress d user_id module_id = false -> progress_unique d ->
  progress_unique
    (set_user_progress (user_progress d ++ [Progress user_id module_id xp]) d).
Proof.
  intros H Hu. unfold progress_unique in *. simpl. rewrite fmap_app.
  apply NoDup_app. split; [done|]. split; [|apply NoDup_singleton].
  intros x Hx Hx'. apply list_elem_of_singleton in Hx'. subst x.
  by apply (has_progress_elem d user_id module_id).
Qed.

Lemma unlock_progress_unique d user_id module_id :
  progress_unique d ->
  progress_unique (fst (unlock_next_module d user_id module_id)).
Proof.
  intros Hu. unfold unlock_next_module.
  destruct (get_next_module_id module_id) as [next|]; [|done].
  rewrite UnlockFacts.existsb_count.
  destruct (existsb _ (user_progress d)) eqn:E; [done|]. cbn [fst].
  by apply progress_unique_append.
Qed.

Lemma step_progress_unique d d' :
  progress_unique d -> step d d' -> progress_unique d'.
Proof.
  intros Hu Hs. destruct Hs as [user_id d' Hi| | | |].
  - apply ActivityFacts.initialize_user_inv in Hi as (-> & _).
    unfold progress_unique, initialized.
    by destruct (user_gamification d !! user_id).
  - apply LogFacts.complete_activity_logs in H
      as (z & m & t & _ & _ & _ & _ & _ & _ & _ & Lp & _).
    unfold progress_unique. by rewrite Lp.
  - apply UnlockFacts.complete_module_progress in H.
    unfold progress_unique. by rewrite H.
  - by apply unlock_progress_unique.
  - unfold complete_learning_activity.
    destruct (complete_activity d today user_id module_id activity_type score
                time_spent) as [[d1 g]|] eqn:E1; cbn [fst].
    + apply LogFacts.complete_activity_logs in E1
        as (z & m & t & _ & _ & _ & _ & _ & _ & _ & Lp & _).
      unfold progress_unique at 1. rewrite UnlockFacts.record_legacy_progress.
      fold (progress_unique
              (if is_module_completed d1 user_id module_id
               then match complete_module d1 user_id module_id with
                    | Some (d', _) => fst (unlock_next_module d' user_id module_id)
                    | None => d1
                    end
               else d1)).
      assert (H1 : progress_unique d1)
        by (unfold progress_unique; by rewrite Lp).
      destruct (is_module_completed d1 user_id module_id); [|done].
      destruct (complete_module d1 user_id module_id) as [[d2 c]|] eqn:E2;
        [|done].
      apply unlock_progress_unique.
      apply UnlockFacts.complete_module_progress in E2.
      unfold progress_unique. by rewrite E2.
    + destruct (initialize_user d user_id) as [d0|] eqn:Hi; [|done].
      apply ActivityFacts.initialize_user_inv in Hi as (-> & _). simpl.
      unfold progress_unique, initialized.
      by destruct (user_gamification d !! user_id).
Qed.

Lemma unlock_twice d user_id module_id :
  fst (unlock_next_module (fst (unlock_next_module d user_id module_id))
         user_id module_id)
  = fst (unlock_next_module d user_id module_id).
Proof.
  destruct (get_next_module_id module_id) as [next|] eqn:En.
  - set (d1 := fst (unlock_next_module d user_id module_id)).
    assert (H1 : unlocked d1 user_id next = true).
    { unfold unlocked, d1.
      rewrite (UnlockFacts.unlock_next_module_progress _ _ _ _ En).
      destruct (unlocked d user_id next) eqn:E; [exact E|].
      rewrite existsb_app. simpl. rewrite !bool_decide_eq_true_2 by done.
      simpl. apply orb_true_r. }
    unfold unlock_next_module at 1. rewrite En, UnlockFacts.existsb_count.
    fold (unlocked d1 user_id next). by rewrite H1.
  - unfold unlock_next_module. by rewrite En.
Qed.

End ProgressFacts.

(** X13.  At most one progress row per user and module.  If
    [user_progress] holds no pair (user, module) twice, it holds none twice
    after any sequence of operations, resets, legacy completions and
    assessment attempts included: the inserts never meet the key they
    declare a conflict on.  Unlocking twice is unlocking once. *)
Theorem progress_rows_unique (default_score : Z) (d d' : db) :
  ModulesMore.progress_unique d ->
  ModulesMore.ops default_score d d' ->
  ModulesMore.progress_unique d'
  /\ forall user_id module_id,
       fst (unlock_next_module (fst (unlock_next_module d' user_id module_id))
              user_id module_id)
       = fst (unlock_next_module d' user_id module_id).
Proof.
  intros Hu Hops. split.
  - induction Hops as [|d1 d2 Hops IH Hop]; [done|].
    destruct Hop as [d2 Hstep|u m xp|u|u m|].
    + by eapply ProgressFacts.step_progress_unique.
    + unfold ModulesMore.mark_module_completed. cbn [fst].
      destruct (ModulesMore.has_progress d1 u m) eqn:E; [done|].
      by apply ProgressFacts.progress_unique_append.
    + unfold ModulesMore.progress_unique, ModulesMore.reset_user_progress.
      simpl. by apply ProgressFacts.NoDup_filter_fmap.
    + done.
    + done.
  - intros user_id module_id. apply ProgressFacts.unlock_twice.
Qed.

Lemma progress_rows_unique_witness :
  ModulesMore.progress_unique
    (fst (ModulesMore.mark_module_completed
            (fst (unlock_next_module Examples.empty_db 1 "A01")) 1 "A02" 100)).
Proof.
  apply (progress_rows_unique 0 Examples.empty_db).
  - constructor.
  - eapply ModulesMore.ops_op; [eapply ModulesMore.ops_op|].
    + apply ModulesMore.ops_refl.
    + apply ModulesMore.op_step. apply (step_unlock_next_module _ 1 "A01").
    + apply ModulesMore.op_mark_module_completed.
Defined.

Module LegacyFacts.
Import Db Gamification Modules System ModulesMore.

Lemma legacy_recorded_step user_id module_id activity_type d d' :
  legacy_recorded d user_id module_id activity_type = true -> step d d' ->
  legacy_recorded d' user_id module_id activity_type = true.
Proof.
  apply (Preservation.step_closed
           (fun x => legacy_recorded x user_id module_id activity_type = true));
    try done.
  intros x row H. unfold legacy_recorded in *. simpl.
  by rewrite existsb_app, H.
Qed.

Lemma record_legacy_recorded d user_id module_id activity_type score time_spent :
  legacy_recorded
    (record_legacy d user_id module_id activity_type score time_spent)
    user_id module_id activity_type = true.
Proof.
  unfold record_legacy. fold (legacy_recorded d user_id module_id activity_type).
  destruct (legacy_recorded d user_id module_id activity_type) eqn:E; [done|].
  unfold legacy_recorded. simpl. rewrite existsb_app. simpl.
  rewrite !bool_decide_eq_true_2 by done. simpl. apply orb_true_r.
Qed.

(** The legacy log and the legacy XP are written by [record_legacy] only. *)
Lemma legacy_tables_kept d today user_id module_id activity_type score
    time_spent :
  let d' := fst (complete_learning_activity d today user_id module_id
                   activity_type score time_spent) in
  let ok := snd (complete_learning_activity d today user_id module_id
                   activity_type score time_spent) in
  (ok = false /\ learning_activities d' = learning_activities d
   /\ users_xp d' = users_xp d)
  \/ (ok = true
      /\ exists da r d2,
           complete_activity d today user_id module_id activity_type score
             time_spent = Some (da, r)
           /\ d' = record_legacy d2 user_id module_id activity_type score
                     time_spent
           /\ learning_activities d2 = learning_activities d
           /\ users_xp d2 = users_xp d
           /\ activity_completions d2 = activity_completions da).
Proof.
  intros d' ok. subst d' ok. unfold complete_learning_activity.
  destruct (complete_activity d today user_id module_id activity_type score
              time_spent) as [[d1 r]|] eqn:H; cbn [fst snd].
  - right. split; [done|]. eexists d1, r, _. split; [done|].
    split; [reflexivity|].
    set (P := fun x => learning_activities x = learning_activities d
                       /\ users_xp x = users_xp d
                       /\ activity_completions x = activity_completions d1).
    assert (H1 : P d1).
    { split; [|split; [|done]].
      - by apply LogFacts.complete_activity_logs in H
          as (z & m & t & _ & _ & _ & _ & _ & _ & -> & _).
      - eapply (Preservation.complete_activity_closed
                  (fun x => users_xp x = users_xp d)); [..|exact H]; try done.
        all: by intros. }
    destruct (is_module_completed d1 user_id module_id); [|exact H1].
    destruct (complete_module d1 user_id module_id) as [[d2 c]|] eqn:E2;
      [|exact H1].
    apply (Preservation.unlock_next_module_closed P); [by intros|].
    eapply (Preservation.complete_module_closed P); [..|exact E2]; try done.
    all: by intros.
  - left. split; [done|].
    destruct (initialize_user d user_id) as [d0|] eqn:Hi; [|done].
    apply ActivityFacts.initialize_user_inv in Hi as (-> & _). simpl.
    unfold initialized. by destruct (user_gamification d !! user_id).
Qed.

End LegacyFacts.

(** X14.  The legacy XP of an activity is credited once.  After
    [complete_learning_activity] has answered [True] for a user, a module
    and an activity type, and whatever completions and unlocks follow (any
    sequence of [initialize_user], [complete_activity], [complete_module],
    [unlock_next_module] and [complete_learning_activity]; a reset of the
    user's progress, which deletes the legacy rows, is not among them),
    running it again for the same three, with any score, leaves
    [learning_activities] and the users' legacy XP as they are, whether the
    call succeeds or not; when it succeeds, the gamification XP is awarded
    again: [activity_completions] has one more row. *)
Theorem legacy_xp_credited_once (d d1' : db) (today1 today2 user_id : Z)
    (module_id activity_type : string) (score1 : option Z) (time1 : Z)
    (score2 : option Z) (time2 : Z) :
  snd (complete_learning_activity d today1 user_id module_id activity_type
         score1 time1) = true ->
  steps
    (fst (complete_learning_activity d today1 user_id module_id activity_type
            score1 time1)) d1' ->
  let d2 := fst (complete_learning_activity d1' today2 user_id module_id
                   activity_type score2 time2) in
  learning_activities d2 = learning_activities d1'
  /\ users_xp d2 = users_xp d1'
  /\ (snd (complete_learning_activity d1' today2 user_id module_id
             activity_type score2 time2) = true ->
      length (activity_completions d2)
      = S (length (activity_completions d1'))).
Proof.
  intros Hok Hs d2.
  assert (H1 : ModulesMore.legacy_recorded d1' user_id module_id activity_type
               = true).
  { eapply (Invariants.steps_keep
              (fun x => ModulesMore.legacy_recorded x user_id module_id
                          activity_type = true)); [| |exact Hs].
    - intros ? ?. apply LegacyFacts.legacy_recorded_step.
    - destruct (LegacyFacts.legacy_tables_kept d today1 user_id module_id
                  activity_type score1 time1)
        as [(Hf & _)|(_ & da & r & x & _ & -> & _)]; [congruence|].
      apply LegacyFacts.record_legacy_recorded. }
  destruct (LegacyFacts.legacy_tables_kept d1' today2 user_id module_id
              activity_type score2 time2)
    as [(Hf & Hla & Hxp)|(_ & da & r & x & H & Hd2 & Hla & Hxp & Hac)].
  { split; [exact Hla|]. split; [exact Hxp|]. intros Ht. congruence. }
  assert (Hrec : ModulesMore.legacy_recorded x user_id module_id activity_type
                 = true).
  { unfold ModulesMore.legacy_recorded. by rewrite Hla. }
  assert (Hx : d2 = x).
  { subst d2. rewrite Hd2. unfold record_legacy.
    fold (ModulesMore.legacy_recorded x user_id module_id activity_type).
    by rewrite Hrec. }
  rewrite Hx. split; [done|]. split; [done|]. intros _.
  apply LogFacts.complete_activity_logs in H
    as (z & m & t & _ & _ & _ & La & _).
  rewrite Hac, La, length_app. simpl. lia.
Qed.

Lemma legacy_xp_credited_once_witness :
  let d1 := fst (complete_learning_activity Examples.one_user_db 100 1 "A01"
                   "lab" (Some 100) 0) in
  let d2 := fst (complete_learning_activity d1 101 1 "A01" "lab" (Some 50) 0) in
  learning_activities d2 = learning_activities d1
  /\ users_xp d2 = users_xp d1
  /\ length (activity_completions d2) = 2%nat.
Proof.
  intros d1 d2.
  destruct (legacy_xp_credited_once Examples.one_user_db d1 100 101 1 "A01"
              "lab" (Some 100) 0 (Some 50) 0 ltac:(vm_compute; reflexivity)
              (steps_refl _)) as (H1 & H2 & H3).
  split; [exact H1|]. split; [exact H2|].
  subst d2. rewrite H3; [|vm_compute; reflexivity].
  vm_compute. reflexivity.
Defined.

Module ResetFacts.
Import Db Gamification Modules System ModulesMore.

Lemma filter_filter_none {A} (f g : A -> bool) (l : list A) :
  (forall r, f r = true -> g r = false) ->
  List.filter f (List.filter g l) = [].
Proof.
  intros H. induction l as [|x l IH]; simpl; [done|].
  destruct (g x) eqn:Eg; simpl; [|done].
  destruct (f x) eqn:Ef; [|done].
  apply H in Ef. congruence.
Qed.

Lemma filter_filter_implies {A} (f g : A -> bool) (l : list A) :
  (forall r, f r = true -> g r = true) ->
  List.filter f (List.filter g l) = List.filter f l.
Proof.
  intros H. induction l as [|x l IH]; simpl; [done|].
  destruct (g x) eqn:Eg; simpl.
  - by rewrite IH.
  - destruct (f x) eqn:Ef; [|done]. apply H in Ef. congruence.
Qed.

Lemma step_attempts d d' :
  step d d' -> user_assessment_attempts d' = user_assessment_attempts d.
Proof.
  apply (Preservation.step_closed
           (fun x => user_assessment_attempts x = user_assessment_attempts d));
    done.
Qed.

End ResetFacts.

(** X15.  [mark_module_completed] records a module once and credits its XP
    on every call: the first call for a user and a module without a progress
    row appends the row with the XP given, a second call leaves the user's
    progress rows as they are, and the user's legacy XP has grown by the XP
    of both calls. *)
Theorem mark_module_completed_credits_each_call (d : db) (user_id : Z)
    (module_id : string) (xp xp1 xp2 : Z) :
  users_xp d !! user_id = Some xp ->
  ModulesMore.has_progress d user_id module_id = false ->
  let d1 := fst (ModulesMore.mark_module_completed d user_id module_id xp1) in
  let d2 := fst (ModulesMore.mark_module_completed d1 user_id module_id xp2) in
  ModulesMore.get_user_progress d1 user_id
  = ModulesMore.get_user_progress d user_id ++ [(module_id, xp1)]
  /\ user_progress d2 = user_progress d1
  /\ users_xp d2 !! user_id = Some (xp + xp1 + xp2).
Proof.
  intros Hxp Hno d1 d2.
  assert (Hp1 : user_progress d1
                = user_progress d ++ [Progress user_id module_id xp1]).
  { subst d1. unfold ModulesMore.mark_module_completed. by rewrite Hno. }
  assert (Hx1 : users_xp d1 !! user_id = Some (xp + xp1)).
  { subst d1. unfold ModulesMore.mark_module_completed. rewrite Hno. simpl.
    by rewrite lookup_alter_eq, Hxp. }
  assert (Hhas : ModulesMore.has_progress d1 user_id module_id = true).
  { unfold ModulesMore.has_progress. rewrite Hp1, existsb_app. simpl.
    rewrite !bool_decide_eq_true_2 by done. simpl. apply orb_true_r. }
  clearbody d1. split; [|split].
  - unfold ModulesMore.get_user_progress. rewrite Hp1, List.filter_app. simpl.
    rewrite bool_decide_eq_true_2 by done. by rewrite fmap_app.
  - subst d2. unfold ModulesMore.mark_module_completed. by rewrite Hhas.
  - subst d2. unfold ModulesMore.mark_module_completed. rewrite Hhas. simpl.
    by rewrite lookup_alter_eq, Hx1.
Qed.

Lemma mark_module_completed_credits_each_call_witness :
  let d := set_users_xp {[ 1 := 0 ]} Examples.empty_db in
  let d2 := fst (ModulesMore.mark_module_completed
                   (fst (ModulesMore.mark_module_completed d 1 "A01" 100))
                   1 "A01" 100) in
  users_xp d2 !! 1 = Some (0 + 100 + 100).
Proof.
  intros d d2.
  apply (mark_module_completed_credits_each_call d 1 "A01" 0 100 100);
    reflexivity.
Defined.

(** X16.  [reset_user_progress] resets the legacy tables of one user and
    nothing else: afterwards the user has no progress row and legacy XP 0,
    the progress, the legacy XP and the module completions of every other
    user are as before, the gamification profiles are untouched, and the
    user's completion of a module is decided by the rows of
    [activity_completions] alone, which the reset leaves in place. *)
Theorem reset_user_progress_scope (d : db) (user_id : Z) :
  let d' := ModulesMore.reset_user_progress d user_id in
  ModulesMore.get_user_progress d' user_id = []
  /\ users_xp d' !! user_id = (fun _ => 0) <$> users_xp d !! user_id
  /\ (forall other, other <> user_id ->
        ModulesMore.get_user_progress d' other
        = ModulesMore.get_user_progress d other
        /\ users_xp d' !! other = users_xp d !! other
        /\ forall module_id,
             is_module_completed d' other module_id
             = is_module_completed d other module_id)
  /\ user_gamification d' = user_gamification d
  /\ activity_completions d' = activity_completions d
  /\ (forall module_id,
        ModulesMore.completed_activities d' user_id module_id
        = count_distinct ac_activity_type
            (fun r => bool_decide (ac_user_id r = user_id)
                      && bool_decide (ac_module_id r = module_id))
            (activity_completions d)).
Proof.
  intros d'. subst d'. repeat split.
  - unfold ModulesMore.get_user_progress, ModulesMore.reset_user_progress.
    simpl. rewrite ResetFacts.filter_filter_none; [done|].
    intros r Hr. by rewrite Hr.
  - unfold ModulesMore.reset_user_progress. simpl. apply lookup_alter_eq.
  - unfold ModulesMore.get_user_progress, ModulesMore.reset_user_progress.
    simpl. rewrite ResetFacts.filter_filter_implies; [done|].
    intros r Hr. apply bool_decide_eq_true in Hr.
    apply negb_true_iff, bool_decide_eq_false. congruence.
  - unfold ModulesMore.reset_user_progress. simpl.
    by apply lookup_alter_ne.
  - intros module_id. unfold is_module_completed, count_distinct.
    unfold ModulesMore.reset_user_progress. simpl.
    rewrite ResetFacts.filter_filter_implies; [done|].
    intros r Hr. apply andb_true_iff in Hr as [Hr _].
    apply andb_true_iff in Hr as [Hr _]. apply bool_decide_eq_true in Hr.
    apply negb_true_iff, bool_decide_eq_false. congruence.
  - intros module_id. unfold ModulesMore.completed_activities.
    unfold ModulesMore.reset_user_progress. simpl.
    rewrite (LogFacts.count_distinct_zero la_activity_type).
    + apply Z.max_l. unfold count_distinct. lia.
    + apply Forall_forall. intros r Hr.
      apply list_elem_of_In, filter_In in Hr as [_ Hr].
      apply negb_true_iff in Hr. by rewrite Hr.
Qed.

(** X17.  Assessment attempts never count towards a module.  The attempts
    are created with [is_completed = FALSE] and
    [complete_assessment_attempt] changes nothing, so from a state without a
    completed attempt no sequence of operations yields one, and
    [is_module_completed] holds exactly when the user has completed two
    distinct activity types in the module. *)
Theorem assessment_attempts_never_count (default_score : Z) (d d' : db) :
  ModulesMore.no_completed_attempt d ->
  ModulesMore.ops default_score d d' ->
  ModulesMore.no_completed_attempt d'
  /\ forall user_id module_id,
       is_module_completed d' user_id module_id
       = (2 <=? ModulesMore.completed_activities d' user_id module_id).
Proof.
  intros Hno Hops.
  assert (H' : ModulesMore.no_completed_attempt d').
  { induction Hops as [|d1 d2 Hops IH Hop]; [done|].
    destruct Hop as [d2 Hstep|u m xp|u|u m|].
    - unfold ModulesMore.no_completed_attempt.
      by rewrite (ResetFacts.step_attempts _ _ Hstep).
    - unfold ModulesMore.mark_module_completed. cbn [fst].
      by destruct (ModulesMore.has_progress d1 u m).
    - done.
    - unfold ModulesMore.no_completed_attempt,
        ModulesMore.create_assessment_attempt. simpl.
      apply Forall_app. split; [done|]. by repeat constructor.
    - done. }
  split; [done|]. intros user_id module_id.
  unfold is_module_completed.
  fold (ModulesMore.completed_activities d' user_id module_id).
  replace (count _ (user_assessment_attempts d')) with 0; [done|].
  symmetry. apply LogFacts.count_zero_iff.
  eapply Forall_impl; [exact H'|]. simpl. intros r ->.
  by rewrite andb_false_r.
Qed.

Lemma assessment_attempts_never_count_witness :
  is_module_completed
    (ModulesMore.create_assessment_attempt 100 Examples.empty_db 1 "A01")
    1 "A01" = false.
Proof.
  destruct (assessment_attempts_never_count 100 Examples.empty_db
              (ModulesMore.create_assessment_attempt 100 Examples.empty_db 1
                 "A01")) as [_ H].
  - constructor.
  - eapply ModulesMore.ops_op; [apply ModulesMore.ops_refl|].
    apply ModulesMore.op_create_assessment_attempt.
  - rewrite H. reflexivity.
Defined.

Module LoginFacts.
Import AuthSecurity AuthMore.

Lemma within_limit_reset last :
  within_limit (User (Some 0) None last).
Proof. split; simpl; unfold MAX_LOGIN_ATTEMPTS; [lia|done]. Qed.

Lemma handle_successful_login_within users now username :
  map_Forall (fun _ r => within_limit r) users ->
  map_Forall (fun _ r => within_limit r)
    (handle_successful_login users now username).
Proof.
  intros H. unfold handle_successful_login.
  destruct (users !! username) as [row|]; [|done].
  apply map_Forall_insert_2; [apply within_limit_reset|done].
Qed.

Lemma handle_failed_login_within users now username :
  map_Forall (fun _ r => within_limit r) users ->
  (forall row, users !! username = Some row -> account_locked_until row = None) ->
  map_Forall (fun _ r => within_limit r)
    (handle_failed_login users now username).
Proof.
  intros H Hnull. unfold handle_failed_login.
  destruct (users !! username) as [row|] eqn:E; [|done].
  apply map_Forall_insert_2; [|done].
  pose proof (H _ _ E) as [Hle Hmax]. pose proof (Hnull _ eq_refl) as Hn.
  unfold MAX_LOGIN_ATTEMPTS in *.
  set (c := default 0 (failed_login_attempts row)) in *.
  assert (Hlt : c < 5).
  { destruct (decide (c = 5)) as [E5|]; [|lia]. by apply Hmax in E5. }
  split; cbn [failed_login_attempts account_locked_until default from_option];
    unfold id, MAX_LOGIN_ATTEMPTS.
  - lia.
  - intros E5. destruct (Z.leb_spec 5 (c + 1)); [done|lia].
Qed.

Lemma login_within users now1 now2 now3 username password authenticated :
  map_Forall (fun _ r => within_limit r) users ->
  now1 <= now2 ->
  map_Forall (fun _ r => within_limit r)
    (login users now1 now2 now3 username password authenticated).
Proof.
  intros H Hclock. unfold login.
  destruct (bool_decide (username = "") || bool_decide (password = ""));
    [done|].
  unfold check_account_lockout.
  destruct (users !! username) as [row|] eqn:E.
  - destruct (account_locked_until row) as [locked_until|] eqn:El.
    + destruct (Z.ltb_spec now1 locked_until); [done|].
      destruct (Z.leb_spec locked_until now2); [|lia].
      assert (Hreset : map_Forall (fun _ r => within_limit r)
                     (<[username := User (Some 0) None (last_login row)]> users)).
      { apply map_Forall_insert_2; [apply within_limit_reset|done]. }
      destruct authenticated.
      * by apply handle_successful_login_within.
      * apply handle_failed_login_within; [done|].
        intros row'. rewrite lookup_insert_eq. by intros [= <-].
    + destruct authenticated.
      * by apply handle_successful_login_within.
      * apply handle_failed_login_within; [done|]. congruence.
  - destruct authenticated.
    + by apply handle_successful_login_within.
    + apply handle_failed_login_within; [done|]. congruence.
Qed.

End LoginFacts.

(** X18.  A login changes the row of the name given and no other; it
    changes nothing when no account has the name, and nothing while the
    account is locked, whether the password is right or wrong: the attempt
    is not counted and the lockout is not extended. *)
Theorem locked_account_rejects_login (users : gmap string AuthSecurity.user)
    (now1 now2 now3 : Z) (username password : string) (authenticated : bool) :
  let users' :=
    AuthMore.login users now1 now2 now3 username password authenticated in
  (forall other, other <> username -> users' !! other = users !! other)
  /\ (users !! username = None -> users' = users)
  /\ (forall row locked_until,
        users !! username = Some row ->
        AuthSecurity.account_locked_until row = Some locked_until ->
        now1 < locked_until -> users' = users).
Proof.
  intros users'. subst users'. unfold AuthMore.login. split; [|split].
  - intros other Hne.
    destruct (bool_decide (username = "") || bool_decide (password = ""));
      [done|].
    unfold AuthSecurity.check_account_lockout.
    assert (Hs : forall us, AuthSecurity.handle_successful_login us now3 username
                            !! other = us !! other).
    { intros us. unfold AuthSecurity.handle_successful_login.
      destruct (us !! username); [|done]. by rewrite lookup_insert_ne. }
    assert (Hf : forall us, AuthSecurity.handle_failed_login us now3 username
                            !! other = us !! other).
    { intros us. unfold AuthSecurity.handle_failed_login.
      destruct (us !! username); [|done]. by rewrite lookup_insert_ne. }
    destruct (users !! username) as [row|].
    + destruct (AuthSecurity.account_locked_until row) as [locked_until|].
      * destruct (now1 <? locked_until); [done|].
        destruct (locked_until <=? now2).
        -- destruct authenticated; rewrite ?Hs, ?Hf;
             by rewrite lookup_insert_ne.
        -- destruct authenticated; by rewrite ?Hs, ?Hf.
      * destruct authenticated; by rewrite ?Hs, ?Hf.
    + destruct authenticated; by rewrite ?Hs, ?Hf.
  - intros Hnone.
    destruct (bool_decide (username = "") || bool_decide (password = ""));
      [done|].
    unfold AuthSecurity.check_account_lockout. rewrite Hnone.
    unfold AuthSecurity.handle_successful_login,
      AuthSecurity.handle_failed_login. rewrite Hnone.
    by destruct authenticated.
  - intros row locked_until Hrow Hl Hlt.
    destruct (bool_decide (username = "") || bool_decide (password = ""));
      [done|].
    rewrite (LockoutFacts.check_locked _ now1 now2 _ _ locked_until Hrow Hl).
    by destruct (Z.ltb_spec now1 locked_until); [|lia].
Qed.

(** X19.  The counter of failed logins never exceeds five.  When every
    stored counter is at most 5, and is 5 only on a row with a lockout, and
    the clock does not run backwards within a lockout check, then after any
    sequence of logins, for any names, with right or wrong passwords, every
    row is again so. *)
Theorem failed_attempts_bounded (users : gmap string AuthSecurity.user)
    (attempts : list AuthMore.attempt) :
  map_Forall (fun _ r => AuthMore.within_limit r) users ->
  Forall (fun a => AuthMore.att_now1 a <= AuthMore.att_now2 a) attempts ->
  map_Forall
    (fun _ r =>
       AuthMore.within_limit r
       /\ default 0 (AuthSecurity.failed_login_attempts r) <= 5)
    (AuthMore.logins users attempts).
Proof.
  intros H Hclock.
  assert (H' : map_Forall (fun _ r => AuthMore.within_limit r)
                 (AuthMore.logins users attempts)).
  { revert users H. unfold AuthMore.logins.
    induction Hclock as [|a l Ha _ IH]; intros users H; simpl; [done|].
    apply IH. by apply LoginFacts.login_within. }
  intros k r Hr. split; [by apply (H' k)|]. by destruct (H' k r Hr).
Qed.

Lemma failed_attempts_bounded_witness :
  map_Forall
    (fun _ r =>
       AuthMore.within_limit r
       /\ default 0 (AuthSecurity.failed_login_attempts r) <= 5)
    (AuthMore.logins Examples.alice_users
       [AuthMore.Attempt "alice" "x" false 10 11 12;
        AuthMore.Attempt "alice" "x" false 20 21 22]).
Proof.
  apply failed_attempts_bounded.
  - apply map_Forall_singleton. split; simpl.
    + unfold AuthSecurity.MAX_LOGIN_ATTEMPTS. lia.
    + unfold AuthSecurity.MAX_LOGIN_ATTEMPTS. lia.
  - repeat constructor; simpl; lia.
Defined.

Module TokenFacts.
Import Db AuthMore.

Lemma find_fresh (token : string) (l : list reset_token) :
  (token ∉ (rt_token <$> l)) ->
  List.find (fun r => bool_decide (rt_token r = token)) l = None.
Proof.
  induction l as [|x l IH]; simpl; [done|]. intros Hn.
  apply not_elem_of_cons in Hn as [Hne Hn].
  rewrite bool_decide_eq_false_2 by congruence. by apply IH.
Qed.

Lemma find_unique (r : reset_token) (l : list reset_token) :
  NoDup (rt_token <$> l) -> r ∈ l ->
  List.find (fun x => bool_decide (rt_token x = rt_token r)) l = Some r.
Proof.
  induction l as [|x l IH]; simpl; intros Hnd Hin.
  - by apply elem_of_nil in Hin.
  - apply NoDup_cons in Hnd as [Hx Hnd].
    apply elem_of_cons in Hin as [->|Hin].
    + by rewrite bool_decide_eq_true_2.
    + rewrite bool_decide_eq_false_2; [by apply IH|].
      intros E. apply Hx. rewrite E. by apply list_elem_of_fmap_2.
Qed.

Lemma find_fmap (g : reset_token -> reset_token) (token : string)
    (l : list reset_token) :
  (forall r, rt_token (g r) = rt_token r) ->
  List.find (fun r => bool_decide (rt_token r = token)) (g <$> l)
  = g <$> List.find (fun r => bool_decide (rt_token r = token)) l.
Proof.
  intros Hg. induction l as [|x l IH]; simpl; [done|].
  rewrite Hg. by destruct (bool_decide (rt_token x = token)).
Qed.

Lemma find_app_l (token : string) (l1 l2 : list reset_token) r :
  List.find (fun x => bool_decide (rt_token x = token)) l1 = Some r ->
  List.find (fun x => bool_decide (rt_token x = token)) (l1 ++ l2) = Some r.
Proof.
  induction l1 as [|x l1 IH]; simpl; [done|].
  by destruct (bool_decide (rt_token x = token)).
Qed.

Lemma find_app_r (token : string) (l1 l2 : list reset_token) :
  List.find (fun x => bool_decide (rt_token x = token)) l1 = None ->
  List.find (fun x => bool_decide (rt_token x = token)) (l1 ++ l2)
  = List.find (fun x => bool_decide (rt_token x = token)) l2.
Proof.
  induction l1 as [|x l1 IH]; simpl; [done|].
  by destruct (bool_decide (rt_token x = token)).
Qed.

Lemma tokens_fmap (g : reset_token -> reset_token) (l : list reset_token) :
  (forall r, rt_token (g r) = rt_token r) ->
  rt_token <$> (g <$> l) = rt_token <$> l.
Proof.
  intros Hg. rewrite <- list_fmap_compose. apply list_fmap_ext.
  intros ? r _. apply Hg.
Qed.

(** The update of [create_password_reset_token] keeps the tokens. *)
Lemma invalidate_token user_id r :
  rt_token (if bool_decide (rt_user_id r = user_id)
               && bool_decide (rt_used r = Some false)
            then mark_used r else r) = rt_token r.
Proof. by destruct (_ && _). Qed.

(** The update of [use_password_reset_token] keeps the tokens. *)
Lemma use_token token r :
  rt_token (if bool_decide (rt_token r = token)
               && bool_decide (rt_used r = Some false)
            then mark_used r else r) = rt_token r.
Proof. by destruct (_ && _). Qed.

End TokenFacts.

(** X20.  A new password reset token is valid for 24 hours.  For a token
    that no row of the table carries yet, and a column default of [used]
    other than TRUE, the token made at [now] verifies to its user at every
    time up to and including [now] plus 24 hours, and to nothing after;
    the tokens of the table stay distinct. *)
Theorem reset_token_valid_until_expiry (default_used : option bool)
    (tokens : list AuthMore.reset_token) (now user_id : Z) (token : string)
    (now' : Z) :
  (token ∉ (AuthMore.rt_token <$> tokens)) ->
  default_used <> Some true ->
  let tokens' :=
    fst (AuthMore.create_password_reset_token default_used tokens now user_id
           token) in
  AuthMore.verify_password_reset_token tokens' now' token
  = (if now' <=? now + 24 * 3600 * 1000000 then Some user_id else None)
  /\ (AuthMore.tokens_unique tokens -> AuthMore.tokens_unique tokens').
Proof.
  intros Hfresh Hdef tokens'. subst tokens'.
  unfold AuthMore.create_password_reset_token. cbn [fst]. split.
  - unfold AuthMore.verify_password_reset_token.
    rewrite TokenFacts.find_app_r.
    + simpl. rewrite bool_decide_eq_true_2 by done. simpl.
      assert (Hu : default false default_used = false)
        by (by destruct default_used as [[]|]).
      rewrite Hu. unfold AuthMore.hours, AuthMore.TOKEN_EXPIRY_HOURS.
      destruct (Z.ltb_spec (now + 24 * 3600 * 1000000) now');
        destruct (Z.leb_spec now' (now + 24 * 3600 * 1000000)); try lia; done.
    + apply TokenFacts.find_fresh.
      rewrite TokenFacts.tokens_fmap; [done|].
      intros r. apply TokenFacts.invalidate_token.
  - unfold AuthMore.tokens_unique. intros Hnd.
    rewrite fmap_app, TokenFacts.tokens_fmap
      by (intros r; apply TokenFacts.invalidate_token).
    simpl. apply NoDup_app. split; [done|]. split.
    + intros x Hx Hin. apply list_elem_of_singleton in Hin. by subst x.
    + apply NoDup_singleton.
Qed.

Lemma reset_token_valid_until_expiry_witness :
  AuthMore.verify_password_reset_token
    (fst (AuthMore.create_password_reset_token (Some false) [] 0 7 "t"))
    (24 * 3600 * 1000000) "t"
  = Some 7.
Proof.
  destruct (reset_token_valid_until_expiry (Some false) [] 0 7 "t"
              (24 * 3600 * 1000000)) as [H _].
  - apply not_elem_of_nil.
  - discriminate.
  - exact H.
Defined.

(** X21.  A new reset token invalidates the earlier ones of its user and
    no others.  With distinct tokens in the table and a new token not among
    them, after [create_password_reset_token] for a user every earlier
    token of that user whose [used] is not NULL fails verification at any
    time, and every token of another user verifies as before. *)
Theorem new_reset_token_invalidates_old (default_used : option bool)
    (tokens : list AuthMore.reset_token) (now user_id : Z) (token : string) :
  AuthMore.tokens_unique tokens ->
  (token ∉ (AuthMore.rt_token <$> tokens)) ->
  let tokens' :=
    fst (AuthMore.create_password_reset_token default_used tokens now user_id
           token) in
  (forall r now', r ∈ tokens -> AuthMore.rt_user_id r = user_id ->
     AuthMore.rt_used r <> None ->
     AuthMore.verify_password_reset_token tokens' now' (AuthMore.rt_token r)
     = None)
  /\ (forall r now', r ∈ tokens -> AuthMore.rt_user_id r <> user_id ->
        AuthMore.verify_password_reset_token tokens' now' (AuthMore.rt_token r)
        = AuthMore.verify_password_reset_token tokens now'
            (AuthMore.rt_token r)).
Proof.
  intros Hnd Hfresh tokens'. subst tokens'.
  unfold AuthMore.create_password_reset_token. cbn [fst].
  assert (Hfind : forall r, r ∈ tokens ->
            List.find
              (fun x => bool_decide (AuthMore.rt_token x = AuthMore.rt_token r))
              (((fun r0 =>
                   if bool_decide (AuthMore.rt_user_id r0 = user_id)
                      && bool_decide (AuthMore.rt_used r0 = Some false)
                   then AuthMore.mark_used r0 else r0) <$> tokens)
               ++ [AuthMore.ResetToken user_id token
                     (now + AuthMore.hours AuthMore.TOKEN_EXPIRY_HOURS)
                     default_used])
            = Some (if bool_decide (AuthMore.rt_user_id r = user_id)
                       && bool_decide (AuthMore.rt_used r = Some false)
                    then AuthMore.mark_used r else r)).
  { intros r Hin. apply TokenFacts.find_app_l.
    rewrite TokenFacts.find_fmap
      by (intros x; apply TokenFacts.invalidate_token).
    by rewrite (TokenFacts.find_unique r tokens Hnd Hin). }
  split.
  - intros r now' Hin Hu Hused.
    unfold AuthMore.verify_password_reset_token. rewrite (Hfind r Hin).
    rewrite bool_decide_eq_true_2 by done.
    destruct (AuthMore.rt_used r) as [[]|] eqn:E; [| |done].
    + rewrite bool_decide_eq_false_2 by done. simpl. by rewrite E.
    + by rewrite bool_decide_eq_true_2.
  - intros r now' Hin Hu.
    unfold AuthMore.verify_password_reset_token. rewrite (Hfind r Hin).
    rewrite bool_decide_eq_false_2 by done. simpl.
    by rewrite (TokenFacts.find_unique r tokens Hnd Hin).
Qed.

Lemma new_reset_token_invalidates_old_witness :
  let tokens :=
    fst (AuthMore.create_password_reset_token (Some false) [] 0 7 "t") in
  AuthMore.verify_password_reset_token
    (fst (AuthMore.create_password_reset_token (Some false) tokens 5 7 "u"))
    6 "t"
  = None.
Proof.
  intros tokens.
  destruct (new_reset_token_invalidates_old (Some false) tokens 5 7 "u")
    as [H _].
  - unfold AuthMore.tokens_unique. simpl. apply NoDup_singleton.
  - simpl. intros Hin. apply list_elem_of_singleton in Hin. discriminate.
  - apply (H (AuthMore.ResetToken 7 "t"
                (0 + AuthMore.hours AuthMore.TOKEN_EXPIRY_HOURS) (Some false))).
    + simpl. apply list_elem_of_singleton. reflexivity.
    + reflexivity.
    + discriminate.
Defined.

(** X22.  A reset token works once.  With distinct tokens in the table,
    when [use_password_reset_token] reports success for a token, the token
    fails verification from then on, a second use reports failure and
    changes nothing, and every other token verifies as before. *)
Theorem reset_token_single_use (tokens : list AuthMore.reset_token)
    (token : string) :
  AuthMore.tokens_unique tokens ->
  snd (AuthMore.use_password_reset_token tokens token) = true ->
  let tokens' := fst (AuthMore.use_password_reset_token tokens token) in
  (forall now, AuthMore.verify_password_reset_token tokens' now token = None)
  /\ AuthMore.use_password_reset_token tokens' token = (tokens', false)
  /\ (forall other now, other <> token ->
        AuthMore.verify_password_reset_token tokens' now other
        = AuthMore.verify_password_reset_token tokens now other).
Proof.
  intros Hnd Hok tokens'. subst tokens'.
  unfold AuthMore.use_password_reset_token in *. cbn [fst snd] in *.
  split; [|split].
  - intros now. unfold AuthMore.verify_password_reset_token.
    rewrite TokenFacts.find_fmap by (intros x; apply TokenFacts.use_token).
    apply Z.ltb_lt in Hok.
    assert (Hex : exists r, r ∈ tokens /\ AuthMore.rt_token r = token
                            /\ AuthMore.rt_used r = Some false).
    { destruct (decide (count
                  (fun r => bool_decide (AuthMore.rt_token r = token)
                            && bool_decide (AuthMore.rt_used r = Some false))
                  tokens = 0)) as [E0|E0]; [lia|].
      rewrite LogFacts.count_zero_iff in E0.
      apply not_Forall_Exists in E0; [|intros x; apply _].
      apply Exists_exists in E0 as (r & Hin & Hr).
      apply not_false_iff_true, andb_true_iff in Hr as [H1 H2].
      apply bool_decide_eq_true in H1, H2. by exists r. }
    destruct Hex as (r & Hin & Htok & Hused). subst token.
    rewrite (TokenFacts.find_unique r tokens Hnd Hin). simpl.
    rewrite Hused, !bool_decide_eq_true_2 by done. reflexivity.
  - f_equal.
    + rewrite <- list_fmap_compose. apply list_fmap_ext. intros _ r _. simpl.
      destruct (bool_decide (AuthMore.rt_token r = token)) eqn:E1;
        destruct (bool_decide (AuthMore.rt_used r = Some false)) eqn:E2;
        simpl; rewrite ?E1, ?E2; try reflexivity.
    + apply Z.ltb_ge. apply Z.eq_le_incl. apply LogFacts.count_zero_iff.
      apply Forall_fmap, Forall_forall. intros r _. simpl.
      destruct (bool_decide (AuthMore.rt_token r = token)) eqn:E1;
        destruct (bool_decide (AuthMore.rt_used r = Some false)) eqn:E2;
        simpl; rewrite ?E1, ?E2; try reflexivity.
  - intros other now Hne. unfold AuthMore.verify_password_reset_token.
    rewrite TokenFacts.find_fmap by (intros x; apply TokenFacts.use_token).
    destruct (List.find
                (fun r => bool_decide (AuthMore.rt_token r = other)) tokens)
      as [r|] eqn:E; [|done].
    apply find_some in E as [_ E]. apply bool_decide_eq_true in E.
    simpl. rewrite bool_decide_eq_false_2 by congruence. reflexivity.
Qed.

Lemma reset_token_single_use_witness :
  let tokens :=
    fst (AuthMore.create_password_reset_token (Some false) [] 0 7 "t") in
  AuthMore.verify_password_reset_token
    (fst (AuthMore.use_password_reset_token tokens "t")) 1 "t"
  = None.
Proof.
  intros tokens.
  destruct (reset_token_single_use tokens "t") as [H _].
  - unfold AuthMore.tokens_unique. simpl. apply NoDup_singleton.
  - reflexivity.
  - apply H.
Defined.

Module ModuleManagerFacts.
Import Db Modules ModuleManager.

Lemma follows_completed_cons d user_id x y l m :
  follows_completed d (x :: y :: l) user_id m
  <-> (is_module_completed d user_id x = true /\ y = m)
      \/ follows_completed d (y :: l) user_id m.
Proof.
  unfold follows_completed. split.
  - intros (i & prev & H1 & H2 & H3). destruct i as [|i].
    + left. simpl in H1, H2. by simplify_eq.
    + right. by exists i, prev.
  - intros [[H1 <-]|(i & prev & H1 & H2 & H3)].
    + by exists O, x.
    + by exists (S i), prev.
Qed.

Lemma unlock_loop_cons d user_id x y l unlocked_modules :
  unlock_loop d user_id (x :: y :: l) unlocked_modules
  = unlock_loop d user_id (y :: l)
      (if is_module_completed d user_id x
       then (if bool_decide (y ∈ unlocked_modules)
             then unlocked_modules
             else unlocked_modules ++ [y])
       else unlocked_modules).
Proof. reflexivity. Qed.

Lemma unlock_loop_elem d user_id rest :
  forall unlocked_modules m,
    m ∈ unlock_loop d user_id rest unlocked_modules
    <-> m ∈ unlocked_modules \/ follows_completed d rest user_id m.
Proof.
  induction rest as [|x rest IH]; intros acc m.
  - simpl. split; [by left|]. intros [H|(i & p & H & _)]; [done|].
    by rewrite lookup_nil in H.
  - destruct rest as [|y l].
    + simpl. split; [by left|]. intros [H|(i & p & _ & H & _)]; [done|].
      by rewrite lookup_cons, lookup_nil in H.
    + rewrite unlock_loop_cons, IH, follows_completed_cons.
      destruct (is_module_completed d user_id x).
      * case_bool_decide as Hy.
        -- split; [tauto|]. intros [H|[[_ <-]|H]]; tauto.
        -- rewrite elem_of_app, list_elem_of_singleton.
           split; [intros [[H| ->]|H]; tauto|].
           intros [H|[[_ <-]|H]]; tauto.
      * split; [tauto|]. intros [H|[[? _]|H]]; [tauto|done|tauto].
Qed.

Lemma unlock_loop_NoDup d user_id rest :
  forall unlocked_modules,
    NoDup unlocked_modules ->
    NoDup (unlock_loop d user_id rest unlocked_modules).
Proof.
  induction rest as [|x rest IH]; intros acc Hnd; [done|].
  destruct rest as [|y l]; [done|].
  rewrite unlock_loop_cons. apply IH.
  destruct (is_module_completed d user_id x); [|done].
  case_bool_decide as Hy; [done|].
  apply NoDup_app. split; [done|]. split; [|apply NoDup_singleton].
  intros z Hz Hin. apply list_elem_of_singleton in Hin. by subst z.
Qed.

Lemma unlock_loop_length d user_id rest :
  forall unlocked_modules,
    (length unlocked_modules
     <= length (unlock_loop d user_id rest unlocked_modules)
     <= length unlocked_modules
        + length (List.filter (fun m => is_module_completed d user_id m) rest))%nat.
Proof.
  induction rest as [|x rest IH]; intros acc; [simpl; lia|].
  destruct rest as [|y l].
  - simpl. destruct (is_module_completed d user_id x); simpl; lia.
  - rewrite unlock_loop_cons.
    specialize (IH (if is_module_completed d user_id x
                    then (if bool_decide (y ∈ acc) then acc else acc ++ [y])
                    else acc)).
    cbn [List.filter] in *.
    destruct (is_module_completed d user_id x).
    + case_bool_decide; [|rewrite length_app in IH]; simpl in *; lia.
    + lia.
Qed.

Lemma follows_completed_in d module_order user_id m :
  follows_completed d module_order user_id m -> m ∈ module_order.
Proof.
  intros (i & p & _ & H & _). by eapply list_elem_of_lookup_2.
Qed.

Lemma unlocked_modules_in_order d module_order user_id :
  NoDup (get_user_unlocked_modules d module_order user_id)
  /\ forall m, m ∈ get_user_unlocked_modules d module_order user_id ->
               m ∈ module_order.
Proof.
  unfold get_user_unlocked_modules. split.
  - apply unlock_loop_NoDup.
    destruct module_order; [constructor|apply NoDup_singleton].
  - intros m Hm. apply unlock_loop_elem in Hm as [Hm|Hm].
    + destruct module_order as [|first l]; [done|].
      apply list_elem_of_singleton in Hm as ->. by left.
    + by eapply follows_completed_in.
Qed.

End ModuleManagerFacts.

(** X23.  The modules [get_user_unlocked_modules] reports, for any module
    order: a module is unlocked exactly when it is the first of the order
    or comes right after a module the user has completed, and no module is
    listed twice.  The rows of [user_progress] play no part. *)
Theorem unlocked_iff_follows_completed (d : db) (module_order : list string)
    (user_id : Z) :
  NoDup (ModuleManager.get_user_unlocked_modules d module_order user_id)
  /\ forall module_id,
       module_id ∈ ModuleManager.get_user_unlocked_modules d module_order
                     user_id
       <-> head module_order = Some module_id
           \/ ModuleManager.follows_completed d module_order user_id module_id.
Proof.
  unfold ModuleManager.get_user_unlocked_modules. split.
  - apply ModuleManagerFacts.unlock_loop_NoDup.
    destruct module_order; [constructor|apply NoDup_singleton].
  - intros module_id. rewrite ModuleManagerFacts.unlock_loop_elem.
    destruct module_order as [|first l]; simpl.
    + rewrite elem_of_nil. split; [tauto|]. intros [H|H]; [done|by right].
    + rewrite list_elem_of_singleton.
      split; (intros [H|H]; [left; congruence|by right]).
Qed.

(** X24.  The counts of [get_module_progress_summary], for any module
    order and state: the completed and the unlocked modules are at most as
    many as the modules, the unlocked ones at most one more than the
    completed ones, and with a module in the order at least one module is
    unlocked. *)
Theorem progress_summary_counts (d : db) (module_order : list string)
    (user_id : Z) :
  let s := ModuleManager.get_module_progress_summary d module_order user_id in
  ModuleManager.ps_completed_count s <= ModuleManager.ps_total_count s
  /\ ModuleManager.ps_unlocked_count s <= ModuleManager.ps_total_count s
  /\ ModuleManager.ps_unlocked_count s
     <= ModuleManager.ps_completed_count s + 1
  /\ (module_order <> [] -> 1 <= ModuleManager.ps_unlocked_count s)
  /\ length (ModuleManager.ps_modules s) = length module_order.
Proof.
  intros s. subst s. unfold ModuleManager.get_module_progress_summary.
  cbn [ModuleManager.ps_completed_count ModuleManager.ps_unlocked_count
       ModuleManager.ps_total_count ModuleManager.ps_modules].
  pose proof (ModuleManagerFacts.unlock_loop_length d user_id module_order
                (match module_order with [] => [] | first :: _ => [first] end))
    as Hlen.
  fold (ModuleManager.get_user_unlocked_modules d module_order user_id) in Hlen.
  fold (ModuleManager.get_user_completed_modules d module_order user_id)
    in Hlen.
  assert (Hfirst : (length (match module_order with
                            | [] => []
                            | first :: _ => [first]
                            end) <= 1)%nat
                   /\ (module_order <> [] ->
                       length (match module_order with
                               | [] => []
                               | first :: _ => [first]
                               end) = 1%nat)).
  { destruct module_order; simpl; split; (lia || done). }
  destruct Hfirst as [Hle1 Heq1].
  destruct (ModuleManagerFacts.unlocked_modules_in_order d module_order
              user_id) as [Hnd Hsub].
  split; [|split; [|split; [|split]]].
  - unfold ModuleManager.get_user_completed_modules.
    pose proof (filter_length_le
                  (fun m => is_module_completed d user_id m) module_order).
    lia.
  - apply Nat2Z.inj_le. apply NoDup_incl_length.
    + by apply NoDup_ListNoDup.
    + intros m Hm. apply list_elem_of_In. apply list_elem_of_In in Hm.
      by apply Hsub.
  - lia.
  - intros Hne. specialize (Heq1 Hne). lia.
  - by rewrite length_fmap.
Qed.

Module DynamicUnlockFacts.
Import Db Modules System ModuleManager.

Lemma index_lookup (l : list string) (x : string) (i : nat) :
  index l x = Some i -> l !! i = Some x.
Proof.
  revert i. induction l as [|y l IH]; intros i; simpl; [done|].
  case_bool_decide as E.
  - intros [= <-]. by subst y.
  - destruct (index l x) as [j|]; [|done]. intros [= <-]. by apply IH.
Qed.

Lemma next_follows (module_order : list string) (current next : string) :
  get_next_module_id_dynamic module_order current = Some next ->
  exists i, module_order !! i = Some current
            /\ module_order !! S i = Some next.
Proof.
  unfold get_next_module_id_dynamic.
  destruct (index module_order current) as [i|] eqn:E; [|done].
  destruct (_ <? _); [|done]. intros H. exists i.
  split; [by apply index_lookup|done].
Qed.

Lemma unlock_dynamic_result d module_order user_id current next :
  get_next_module_id_dynamic module_order current = Some next ->
  unlock_next_module_dynamic d module_order user_id current
  = (if unlocked d user_id next then d
     else set_user_progress
            (user_progress d ++ [Progress user_id next 0]) d,
     Some next).
Proof.
  intros Hn. unfold unlock_next_module_dynamic, unlocked.
  rewrite Hn, UnlockFacts.existsb_count.
  by destruct (existsb _ (user_progress d)).
Qed.

End DynamicUnlockFacts.

(** X25.  The stored unlock agrees with the computed one.  When
    [unlock_next_module_dynamic] returns a module for a module the user has
    completed, then afterwards the returned module has a row in
    [user_progress], [get_user_unlocked_modules] lists it, and no module's
    completion has changed; the module returned comes right after the
    current one in the order. *)
Theorem dynamic_unlock_agrees (d : db) (module_order : list string)
    (user_id : Z) (current next : string) :
  is_module_completed d user_id current = true ->
  snd (ModuleManager.unlock_next_module_dynamic d module_order user_id current)
  = Some next ->
  let d' :=
    fst (ModuleManager.unlock_next_module_dynamic d module_order user_id
           current) in
  unlocked d' user_id next = true
  /\ next ∈ ModuleManager.get_user_unlocked_modules d' module_order user_id
  /\ (forall m, is_module_completed d' user_id m
                = is_module_completed d user_id m)
  /\ exists i, module_order !! i = Some current
               /\ module_order !! S i = Some next.
Proof.
  intros Hc Hret d'.
  assert (Hn : ModuleManager.get_next_module_id_dynamic module_order current
               = Some next).
  { unfold ModuleManager.unlock_next_module_dynamic in Hret.
    destruct (ModuleManager.get_next_module_id_dynamic module_order current)
      as [n|]; [|done].
    by destruct (0 <? _) in Hret. }
  assert (Hd' : d' = if unlocked d user_id next then d
                     else set_user_progress
                            (user_progress d ++ [Progress user_id next 0]) d).
  { subst d'. by rewrite (DynamicUnlockFacts.unlock_dynamic_result _ _ _ _ next). }
  assert (Hsame : forall m, is_module_completed d' user_id m
                            = is_module_completed d user_id m).
  { intros m. rewrite Hd'. by destruct (unlocked d user_id next). }
  clearbody d'.
  destruct (DynamicUnlockFacts.next_follows _ _ _ Hn) as (i & Hi & HSi).
  split; [|split; [|split]].
  - rewrite Hd'. destruct (unlocked d user_id next) eqn:E; [done|].
    unfold unlocked. simpl. rewrite UnlockFacts.unlocked_app, E. simpl.
    by rewrite !bool_decide_eq_true_2.
  - unfold ModuleManager.get_user_unlocked_modules.
    apply ModuleManagerFacts.unlock_loop_elem. right.
    exists i, current. by rewrite Hsame.
  - exact Hsame.
  - by exists i.
Qed.

Lemma dynamic_unlock_agrees_witness :
  let d := Database ∅ builtin_achievements []
             [ActivityCompletion 1 "A01" "lab" 0 0 100;
              ActivityCompletion 1 "A01" "quiz" 0 0 80] [] [] [] [] ∅ in
  "A02" ∈ ModuleManager.get_user_unlocked_modules
            (fst (ModuleManager.unlock_next_module_dynamic d modules 1 "A01"))
            modules 1.
Proof.
  intros d.
  destruct (dynamic_unlock_agrees d modules 1 "A01" "A02") as (_ & H & _).
  - reflexivity.
  - reflexivity.
  - exact H.
Defined.
